(** * BicycleParameters: parameter sets of the linearised bicycle model

    A shallow embedding of [bicycleparameters/parameter_sets.py]: the
    validation of a parameter dictionary against the schema table of a
    parameter set, the derived parameters, the mass-center and inertia
    queries and the planar principal-axis decomposition, once as
    functions of the dictionary and once as method calls on a store of
    objects; then the linearised model of [bicycleparameters/models.py],
    modelled from its specification; then the plotting methods, as
    programs that draw on the axes of a store; then the properties
    proved about them. *)

From Stdlib Require Import ZArith Reals Lra Floats Ascii.
From stdpp Require Import base gmap strings list.

Local Open Scope string_scope.

(** ** Floating-point numbers

    Python's [float] is kept abstract: the embedding only names the
    operations the source applies to it.  [binary64] below instantiates it
    with the kernel's IEEE-754 doubles, [exact] with the real numbers. *)

Class Float64 (F : Type) := {
  f0 : F;                       (* the literal [0.0] *)
  f1 : F;                       (* the literal [1.0] *)
  fneg : F -> F;                (* unary [-] *)
  fadd : F -> F -> F;
  fmul : F -> F -> F;
  fdiv : F -> F -> F;
  feqb : F -> F -> bool;        (* [==] *)
  fltb : F -> F -> bool;        (* [<] *)
  fleb : F -> F -> bool;        (* [<=] *)
}.

(** ** Exceptions *)

Inductive exn :=
| ValueError_missing (k : string)
    (* '{} is missing from the provided parameter dictionary.' *)
| ValueError_not_valid (k : string)
    (* '{} is not a valid value for parameter {}', the value then the key *)
| KeyError (k : string)
| TypeError
| AttributeError (name : string)
| NotFloat64 (k : string)
    (* an entry that is no float reached an array: numpy casts integers and
       booleans and builds arrays of other dtypes otherwise; those dtypes
       are outside this embedding, which stops here *)
| ZeroDivisionError
| OverflowError
| IndexError
| AxisError
| LinAlgError
| SweepConflictError
| NumericError.

Inductive result (A : Type) :=
| Ok (a : A)
| Err (e : exn).
Arguments Ok {A} a.
Arguments Err {A} e.

(** The numpy routines used by the principal-axis decomposition.
    [np_linalg_eig a00 a01 a10 a11] stands for [np.linalg.eig] on the 2x2
    array [[a00, a01], [a10, a11]]: it returns the eigenvalues [(e0, e1)]
    and the array of eigenvectors by rows, [((v00, v01), (v10, v11))], the
    eigenvector of [ej] being column [j]; or it raises, as numpy does
    with [LinAlgError] on an array that holds an infinity or a NaN and
    when the eigenvalues do not converge. *)
Class Numpy (F : Type) := {
  np_sqrt : F -> F;
  np_arctan2 : F -> F -> F;
  np_linalg_eig : F -> F -> F -> F -> result ((F * F) * ((F * F) * (F * F)));
}.

(** An [int] operand of a float operation, as [10] in [w / 10]. *)
Class OfInt (F : Type) := {
  of_int : Z -> F;
}.

(** The elementary functions of the plotting methods and of the
    conversion.  [py_pow x n] is [x ** n] on a Python float, which raises
    [OverflowError] (no value here) when the result is out of range;
    [np_power x n] is [x ** n] on a numpy float, which does not raise. *)
Class Elementary (F : Type) := {
  np_cos : F -> F;
  np_sin : F -> F;
  np_pi : F;
  np_rad2deg : F -> F;
  np_power : F -> Z -> F;
  py_pow : F -> Z -> option F;
}.

(** ** Python values

    What a parameter dictionary holds.  [PyFloat] is a value of the type
    [float] itself; a [numpy.float64], which [isinstance] takes for a
    float too and whose division by zero does not raise, is not among
    the values of this embedding. *)

Inductive pyval (F : Type) :=
| PyFloat (x : F)
| PyInt (n : Z)
| PyBool (b : bool)
| PyStr (s : string)
| PyNone.
Arguments PyFloat {F} x.
Arguments PyInt {F} n.
Arguments PyBool {F} b.
Arguments PyStr {F} s.
Arguments PyNone {F}.

(** [isinstance(v, float)]: [bool] and [int] are not floats. *)
Definition isinstance_float {F} (v : pyval F) : bool :=
  match v with PyFloat _ => true | _ => false end.

(** Exceptions propagate: [x ← m; k] runs [k] on the value of [m]. *)
#[global] Instance result_ret : MRet result := fun A a => Ok a.
#[global] Instance result_bind : MBind result := fun A B k m =>
  match m with Ok a => k a | Err e => Err e end.

Definition is_Ok {A} (r : result A) : bool :=
  match r with Ok _ => true | Err _ => false end.

(** [d[k]] on a dictionary. *)
Definition getitem {V} (d : gmap string V) (k : string) : result V :=
  match d !! k with Some v => Ok v | None => Err (KeyError k) end.

(** [for x in l: ...] with a body that may raise, collecting results. *)
Fixpoint for_each {A B} (f : A -> result B) (l : list A) : result (list B) :=
  match l with
  | [] => Ok []
  | x :: l' => y ← f x; ys ← for_each f l'; Ok (y :: ys)
  end.

(** ** Arithmetic on Python values *)

Section PyArith.
Context {F : Type} `{Float64 F}.

(** Unary minus. *)
Definition py_neg (v : pyval F) : result (pyval F) :=
  match v with
  | PyFloat x => Ok (PyFloat (fneg x))
  | PyInt n => Ok (PyInt (- n))
  | PyBool b => Ok (PyInt (- (if b then 1 else 0)))
  | PyStr _ | PyNone => Err TypeError
  end.

(** The float an entry contributes to a [float64] array or to an
    operation with one; [k] names the entry. *)
Definition as_float64 (k : string) (v : pyval F) : result F :=
  match v with PyFloat x => Ok x | _ => Err (NotFloat64 k) end.

(** [x / y] on two Python floats raises on a zero divisor. *)
Definition py_truediv (x y : F) : result F :=
  if feqb y f0 then Err ZeroDivisionError else Ok (fdiv x y).

(** Sum of a sequence, from its first element on. *)
Definition fsum (l : list F) : F :=
  match l with
  | [] => f0
  | x :: l' => fold_left fadd l' x
  end.

End PyArith.

(** ** Arrays

    A numpy array of floats with at most three axes.  The lengths of the
    inner axes are kept beside the nested lists, as numpy keeps the shape
    beside the data, so that an array without rows still has its number
    of columns.  The data of a numpy array fill its shape: every list of
    an inner axis has the length kept for that axis, which is [regular]. *)

Inductive ndarray (F : Type) :=
| Arr0 (x : F)
| Arr1 (v : list F)
| Arr2 (ncols : nat) (rows : list (list F))
| Arr3 (nrows ncols : nat) (mats : list (list (list F))).
Arguments Arr0 {F} x.
Arguments Arr1 {F} v.
Arguments Arr2 {F} ncols rows.
Arguments Arr3 {F} nrows ncols mats.

Section Arrays.
Context {F : Type}.

(** [a.shape] *)
Definition shape (a : ndarray F) : list nat :=
  match a with
  | Arr0 _ => []
  | Arr1 v => [length v]
  | Arr2 c rows => [length rows; c]
  | Arr3 r c mats => [length mats; r; c]
  end.

(** The data fill the shape: every row has the kept number of columns
    and, with three axes, every matrix the kept number of rows. *)
Definition regular (a : ndarray F) : bool :=
  match a with
  | Arr0 _ | Arr1 _ => true
  | Arr2 c rows => forallb (fun row => Nat.eqb (length row) c) rows
  | Arr3 r c mats =>
      forallb (fun m => Nat.eqb (length m) r
                        && forallb (fun row => Nat.eqb (length row) c) m)
              mats
  end.

(** [a.shape == s], for an array whose data fill that shape. *)
Definition has_shape (a : ndarray F) (s : list nat) : Prop :=
  shape a = s /\ regular a = true.

(** [a[i]], the slice at index [i] of the first axis. *)
Definition getslice (a : ndarray F) (i : nat) : option (ndarray F) :=
  match a with
  | Arr0 _ => None
  | Arr1 v => Arr0 <$> v !! i
  | Arr2 c rows => Arr1 <$> rows !! i
  | Arr3 r c mats => Arr2 c <$> mats !! i
  end.

(** The [n] columns of a list of rows. *)
Fixpoint columns (n : nat) (rows : list (list F)) : list (list F) :=
  match n with
  | O => []
  | S n' => omap head rows :: columns n' (map (drop 1) rows)
  end.

(** [a.T] for at most two axes. *)
Definition transpose (a : ndarray F) : ndarray F :=
  match a with
  | Arr2 c rows => Arr2 (length rows) (columns c rows)
  | _ => a
  end.

(** [a.squeeze()] for at most two axes: axes of length one are dropped. *)
Definition squeeze (a : ndarray F) : ndarray F :=
  match a with
  | Arr1 [x] => Arr0 x
  | Arr2 1 [[x]] => Arr0 x
  | Arr2 1 rows => Arr1 (concat rows)
  | Arr2 _ [r] => Arr1 r
  | _ => a
  end.

(** [np.array(l)] on a list of one-axis arrays of one length; the empty
    list gives the empty one-axis array. *)
Definition np_array_of (l : list (ndarray F)) : result (ndarray F) :=
  match l with
  | [] => Ok (Arr1 [])
  | Arr1 v :: _ =>
      rows ← for_each (fun a => match a with
                                | Arr1 v => Ok v
                                | _ => Err TypeError
                                end) l;
      Ok (Arr2 (length v) rows)
  | _ => Err TypeError
  end.

(** [np.delete(a, obj, axis)] on a two-axis array. *)
Definition np_delete (a : ndarray F) (obj axis : nat) : result (ndarray F) :=
  match a, axis with
  | Arr2 c rows, 0 =>
      if decide (obj < length rows) then Ok (Arr2 c (delete obj rows))
      else Err IndexError
  | Arr2 c rows, 1 =>
      if decide (obj < c) then Ok (Arr2 (c - 1) (map (delete obj) rows))
      else Err IndexError
  | _, _ => Err AxisError
  end.

End Arrays.

(** ** ParameterSet *)

Module ParameterSet.

(** [_check_parameters]: the loop over [par_strings.items()], in the
    order of the table. *)
Fixpoint _check_parameters {F} (par_strings : list (string * string))
    (parameters : gmap string (pyval F)) : result unit :=
  match par_strings with
  | [] => Ok tt
  | (k, _) :: rest =>
      match parameters !! k with
      | None => Err (ValueError_missing k)
      | Some v =>
          if isinstance_float v then _check_parameters rest parameters
          else Err (ValueError_not_valid k)
      end
  end.

(** [__init__] of the base class. *)
Definition __init__ {F} (par_strings : list (string * string))
    (par_dict : gmap string (pyval F)) : result unit :=
  _check_parameters par_strings par_dict.

End ParameterSet.

Module Meijaard2007ParameterSet.

Definition parameterization : string := "meijaard2007".

Definition par_strings : list (string * string) :=
  [ ("IBxx", "I_{Bxx}"); ("IBxz", "I_{Bxz}"); ("IByy", "I_{Byy}");
    ("IBzz", "I_{Bzz}"); ("IFxx", "I_{Fxx}"); ("IFyy", "I_{Fyy}");
    ("IHxx", "I_{Hxx}"); ("IHxz", "I_{Hxz}"); ("IHyy", "I_{Hyy}");
    ("IHzz", "I_{Hzz}"); ("IRxx", "I_{Rxx}"); ("IRyy", "I_{Ryy}");
    ("c", "c"); ("g", "g"); ("lam", "\lambda");
    ("mB", "m_B"); ("mF", "m_F"); ("mH", "m_H"); ("mR", "m_R");
    ("rF", "r_F"); ("rR", "r_R"); ("v", "v"); ("w", "w");
    ("xB", "x_B"); ("xH", "x_H"); ("zB", "z_B"); ("zH", "z-H") ].

Definition body_labels : list string := ["B"; "F"; "H"; "R"].

Section Methods.
Context {F : Type} `{Float64 F}.

(** [_calc_derived_params], on the dictionary [self.parameters]. *)
Definition _calc_derived_params (p : gmap string (pyval F))
    : result (gmap string (pyval F)) :=
  let pext : gmap string (pyval F) := ∅ in
  let pext := <["IFxz" := PyFloat f0]> pext in
  IFxx ← getitem p "IFxx";
  let pext := <["IFzz" := IFxx]> pext in
  let pext := <["IRxz" := PyFloat f0]> pext in
  IRxx ← getitem p "IRxx";
  let pext := <["IRzz" := IRxx]> pext in
  w ← getitem p "w";
  let pext := <["xF" := w]> pext in
  let pext := <["xR" := PyFloat f0]> pext in
  let pext := <["yB" := PyFloat f0]> pext in
  let pext := <["yF" := PyFloat f0]> pext in
  let pext := <["yH" := PyFloat f0]> pext in
  let pext := <["yR" := PyFloat f0]> pext in
  rF ← getitem p "rF";
  zF ← py_neg rF;
  let pext := <["zF" := zF]> pext in
  rR ← getitem p "rR";
  zR ← py_neg rR;
  let pext := <["zR" := zR]> pext in
  Ok pext.

(** [p = self.parameters.copy(); p.update(self._calc_derived_params())]:
    the entries of the update win. *)
Definition with_derived (parameters : gmap string (pyval F))
    : result (gmap string (pyval F)) :=
  pext ← _calc_derived_params parameters;
  Ok (pext ∪ parameters).

(** [form_mass_center_vector]: the (3, 1) array [[x], [y], [z]]. *)
Definition form_mass_center_vector (parameters : gmap string (pyval F))
    (body : string) : result (ndarray F) :=
  p ← with_derived parameters;
  x ← getitem p ("x" +:+ body);
  y ← getitem p ("y" +:+ body);
  z ← getitem p ("z" +:+ body);
  x ← as_float64 ("x" +:+ body) x;
  y ← as_float64 ("y" +:+ body) y;
  z ← as_float64 ("z" +:+ body) z;
  Ok (Arr2 1 [[x]; [y]; [z]]).

(** Modelled from the spec: [total_com] of [bicycleparameters/com.py],
    which is not among the sources.  For the positions (one row per
    axis, one column per body) and the masses of at least one body it
    returns the total mass and the mass-weighted average position,
    [com = Σ(mᵢ·pᵢ) / Σ(mᵢ)], a one-axis array with one entry per axis;
    it fails on the empty body set, whose positions have no second
    axis. *)
Definition total_com (coordinates : ndarray F) (masses : list (pyval F))
    : result (F * ndarray F) :=
  match coordinates with
  | Arr2 _ rows =>
      ms ← for_each (as_float64 "m") masses;
      let mT := fsum ms in
      Ok (mT, Arr1 (map (fun row => fdiv (fsum (zip_with fmul ms row)) mT)
                        rows))
  | _ => Err AxisError
  end.

(** [mass_center_of], on the tuple [bodies] of its arguments. *)
Definition mass_center_of (parameters : gmap string (pyval F))
    (bodies : list string) : result (ndarray F) :=
  match bodies with
  | [body] => form_mass_center_vector parameters body
  | _ =>
      mcs ← for_each (fun body =>
               m ← getitem parameters ("m" +:+ body);
               c ← form_mass_center_vector parameters body;
               Ok (m, squeeze c)) bodies;
      let masses := map fst mcs in
      coordinates ← np_array_of (map snd mcs);
      let coordinates := transpose coordinates in
      '(mass, com) ← total_com coordinates masses;
      Ok com
  end.

(** [form_inertia_tensor] *)
Definition form_inertia_tensor (parameters : gmap string (pyval F))
    (body : string) : result (ndarray F) :=
  p ← with_derived parameters;
  Ixx ← getitem p ("I" +:+ body +:+ "xx");
  Ixz ← getitem p ("I" +:+ body +:+ "xz");
  Iyy ← getitem p ("I" +:+ body +:+ "yy");
  Izz ← getitem p ("I" +:+ body +:+ "zz");
  Ixx ← as_float64 ("I" +:+ body +:+ "xx") Ixx;
  Ixz ← as_float64 ("I" +:+ body +:+ "xz") Ixz;
  Iyy ← as_float64 ("I" +:+ body +:+ "yy") Iyy;
  Izz ← as_float64 ("I" +:+ body +:+ "zz") Izz;
  Ok (Arr2 3 [[Ixx; f0; Ixz];
              [f0; Iyy; f0];
              [Ixz; f0; Izz]]).

(** [np.argsort] on two values: the indices are exchanged when the
    second value is below the first. *)
Definition argsort2 (evals : F * F) : nat * nat :=
  if fltb (snd evals) (fst evals) then (1, 0) else (0, 1).

(** [a[i]] for [i] in [0, 1] on a pair. *)
Definition item2 {A} (a : A * A) (i : nat) : A :=
  match i with 0 => fst a | _ => snd a end.

Context `{Numpy F}.

(** [_planar_principal_radii_of_gyration] *)
Definition _planar_principal_radii_of_gyration
    (parameters : gmap string (pyval F)) (body : string)
    : result (F * F * F * F) :=
  p ← with_derived parameters;
  IH ← form_inertia_tensor parameters body;
  (* remove the Y row and column *)
  IH' ← np_delete IH 1 1;
  IH_xz_plane ← np_delete IH' 1 0;
  '(evals, evecs) ←
    match IH_xz_plane with
    | Arr2 _ [[a00; a01]; [a10; a11]] => np_linalg_eig a00 a01 a10 a11
    | _ => Err LinAlgError
    end;
  let idxs := argsort2 evals in
  (* min is first entry, max is second entry *)
  let evals := (item2 evals (fst idxs), item2 evals (snd idxs)) in
  let evecs := ((item2 (fst evecs) (fst idxs), item2 (fst evecs) (snd idxs)),
                (item2 (snd evecs) (fst idxs), item2 (snd evecs) (snd idxs))) in
  let angle_to_max :=
    np_arctan2 (fneg (item2 (item2 evecs 1) 1)) (item2 (item2 evecs 0) 1) in
  m ← getitem p ("m" +:+ body);
  m ← as_float64 ("m" +:+ body) m;
  let kmin := np_sqrt (fdiv (item2 evals 0) m) in
  m ← getitem p ("m" +:+ body);
  m ← as_float64 ("m" +:+ body) m;
  let kmax := np_sqrt (fdiv (item2 evals 1) m) in
  Iyy ← getitem p ("I" +:+ body +:+ "yy");
  m ← getitem p ("m" +:+ body);
  Iyy ← as_float64 ("I" +:+ body +:+ "yy") Iyy;
  m ← as_float64 ("m" +:+ body) m;
  q ← py_truediv Iyy m;
  let kyy := np_sqrt q in
  Ok (kmax, kmin, kyy, angle_to_max).

End Methods.

End Meijaard2007ParameterSet.

Module Moore2019ParameterSet.

Definition parameterization : string := "moore2019".

Definition non_min_par_strings : list (string * string) :=
  [ ("alphaF", "\alpha_F"); ("alphaR", "\alpha_R");
    ("kFbb", "k_{Fbb}"); ("kRbb", "k_{Rbb}");
    ("yD", "y_D"); ("yF", "y_F"); ("yH", "y-H"); ("yP", "y_P");
    ("yR", "y_R"); ("zR", "z_R"); ("zF", "z_F"); ("xR", "x_R");
    ("xF", "x_F") ].

Definition par_strings : list (string * string) :=
  [ ("alphaD", "\alpha_D"); ("alphaH", "\alpha_H"); ("alphaP", "\alpha_P");
    ("c", "c"); ("g", "g");
    ("kDaa", "k_{Daa}"); ("kDbb", "k_{Dbb}"); ("kDyy", "k_{Dyy}");
    ("kFaa", "k_{Faa}"); ("kFyy", "k_{Fyy}");
    ("kHaa", "k_{Haa}"); ("kHbb", "k_{Hbb}"); ("kHyy", "k_{Hyy}");
    ("kPaa", "k_{Paa}"); ("kPbb", "k_{Pbb}"); ("kPyy", "k_{Pyy}");
    ("kRaa", "k_{Raa}"); ("kRyy", "k_{Ryy}");
    ("lP", "l_P"); ("lam", "\lambda");
    ("mD", "m_D"); ("mF", "m_F"); ("mH", "m_H"); ("mP", "m_B");
    ("mR", "m_R");
    ("rF", "r_F"); ("rR", "r_R"); ("v", "v"); ("w", "w"); ("wP", "w_P");
    ("xD", "x_D"); ("xH", "x_H"); ("xP", "x_P");
    ("zD", "z_D"); ("zH", "z-H"); ("zP", "z_P") ].

Definition body_labels : list string := ["D"; "F"; "H"; "P"; "R"].

Section Methods.
Context {F : Type} `{Float64 F}.

(** [_calc_derived_params] *)
Definition _calc_derived_params (p : gmap string (pyval F))
    : result (gmap string (pyval F)) :=
  let pext : gmap string (pyval F) := ∅ in
  let pext := <["alphaF" := PyFloat f0]> pext in
  let pext := <["alphaR" := PyFloat f0]> pext in
  let pext := <["yD" := PyFloat f0]> pext in
  let pext := <["yP" := PyFloat f0]> pext in
  let pext := <["yH" := PyFloat f0]> pext in
  let pext := <["yR" := PyFloat f0]> pext in
  let pext := <["yF" := PyFloat f0]> pext in
  let pext := <["xR" := PyFloat f0]> pext in
  w ← getitem p "w";
  let pext := <["xF" := w]> pext in
  rR ← getitem p "rR";
  zR ← py_neg rR;
  let pext := <["zR" := zR]> pext in
  rF ← getitem p "rF";
  zF ← py_neg rF;
  let pext := <["zF" := zF]> pext in
  kRaa ← getitem p "kRaa";
  let pext := <["kRbb" := kRaa]> pext in
  kFaa ← getitem p "kFaa";
  let pext := <["kFbb" := kFaa]> pext in
  Ok pext.

End Methods.

End Moore2019ParameterSet.


(** ** The objects behind the methods

    The methods above are functions of the dictionary an instance holds.
    In the source the dictionary is an object shared with the caller
    ([self.parameters = parameters]) and the methods work on copies of it.
    This second embedding keeps the store of objects and the references,
    so that what a call does to stored state can be stated. *)

Module Heap.

Definition loc := nat.

(** An attribute of an instance: a reference or a plain value. *)
Inductive value (F : Type) :=
| VRef (l : loc)
| VPy (v : pyval F).
Arguments VRef {F} l.
Arguments VPy {F} v.

Inductive object (F : Type) :=
| ODict (d : gmap string (pyval F))
| OInstance (attrs : gmap string (value F)).
Arguments ODict {F} d.
Arguments OInstance {F} attrs.

(** A computation on the store; an exception leaves the store as it was
    when it was raised. *)
Definition St (F A : Type) : Type :=
  gmap loc (object F) -> result A * gmap loc (object F).

#[global] Instance St_ret {F} : MRet (St F) := fun A a σ => (Ok a, σ).
#[global] Instance St_bind {F} : MBind (St F) := fun A B k m σ =>
  match m σ with
  | (Ok a, σ') => k a σ'
  | (Err e, σ') => (Err e, σ')
  end.

Section Primitives.
Context {F : Type}.

Definition lift {A} (r : result A) : St F A := fun σ => (r, σ).

Definition alloc (o : object F) : St F loc := fun σ =>
  let l := fresh (dom σ) in (Ok l, <[l := o]> σ).

(** [self.name] where the attribute holds a reference. *)
Definition getattr_ref (self : loc) (name : string) : St F loc := fun σ =>
  match σ !! self with
  | Some (OInstance attrs) =>
      match attrs !! name with
      | Some (VRef l) => (Ok l, σ)
      | _ => (Err (AttributeError name), σ)
      end
  | _ => (Err (AttributeError name), σ)
  end.

Definition read_dict (l : loc) : St F (gmap string (pyval F)) := fun σ =>
  match σ !! l with
  | Some (ODict d) => (Ok d, σ)
  | _ => (Err TypeError, σ)
  end.

Definition store (l : loc) (o : object F) : St F unit := fun σ =>
  (Ok tt, <[l := o]> σ).

(** [{}] *)
Definition dict_new : St F loc := alloc (ODict ∅).

(** [d.copy()] *)
Definition dict_copy (l : loc) : St F loc :=
  d ← read_dict l; alloc (ODict d).

(** [d[k]] *)
Definition dict_getitem (l : loc) (k : string) : St F (pyval F) :=
  d ← read_dict l; lift (getitem d k).

(** [d[k] = v] *)
Definition dict_setitem (l : loc) (k : string) (v : pyval F) : St F unit :=
  d ← read_dict l; store l (ODict (<[k := v]> d)).

(** [d.update(other)] *)
Definition dict_update (l other : loc) : St F unit :=
  o ← read_dict other;
  d ← read_dict l;
  store l (ODict (o ∪ d)).

(** [self.name = v] *)
Definition setattr (self : loc) (name : string) (v : value F) : St F unit :=
  fun σ =>
    match σ !! self with
    | Some (OInstance attrs) =>
        (Ok tt, <[self := OInstance (<[name := v]> attrs)]> σ)
    | _ => (Err (AttributeError name), σ)
    end.

End Primitives.

Module ParameterSet.
Section Methods.
Context {F : Type}.

(** [__init__] of the base class. *)
Definition __init__ (par_strings : list (string * string))
    (par_dict : loc) : St F unit :=
  d ← read_dict par_dict;
  lift (ParameterSet._check_parameters par_strings d).

(** The loop of [_generate_body_colors], from index [i] on; [colors] is
    the color cycle of [plt.rcParams]. *)
Fixpoint _generate_body_colors_from (colors : list string) (i : nat)
    (body_labels : list string) (self : loc) : St F unit :=
  match body_labels with
  | [] => mret tt
  | b :: body_labels' =>
      c ← lift (match colors !! i with
                | Some c => Ok c
                | None => Err IndexError
                end);
      body_colors ← getattr_ref self "body_colors";
      _ ← dict_setitem body_colors b (PyStr c);
      _generate_body_colors_from colors (S i) body_labels' self
  end.

(** [_generate_body_colors]: a new dictionary as [self.body_colors]. *)
Definition _generate_body_colors (colors : list string)
    (body_labels : list string) (self : loc) : St F unit :=
  body_colors ← dict_new;
  _ ← setattr self "body_colors" (VRef body_colors);
  _generate_body_colors_from colors 0 body_labels self.

End Methods.
End ParameterSet.

Module Meijaard2007ParameterSet.
Section Methods.
Context {F : Type} `{Float64 F}.

(** [__init__] on the new object [self]: the instance refers to the
    caller's dictionary. *)
Definition __init__ (colors : list string) (self parameters : loc)
    (includes_rider : bool) : St F unit :=
  _ ← ParameterSet.__init__ Meijaard2007ParameterSet.par_strings parameters;
  _ ← setattr self "parameters" (VRef parameters);
  _ ← setattr self "includes_rider" (VPy (PyBool includes_rider));
  ParameterSet._generate_body_colors colors
    Meijaard2007ParameterSet.body_labels self.

(** [Meijaard2007ParameterSet(parameters, includes_rider)]: a new object,
    returned once [__init__] has returned. *)
Definition new (colors : list string) (parameters : loc)
    (includes_rider : bool) : St F loc :=
  self ← alloc (OInstance ∅);
  _ ← __init__ colors self parameters includes_rider;
  mret self.

Definition _calc_derived_params (self : loc) : St F loc :=
  p ← getattr_ref self "parameters";
  pext ← dict_new;
  _ ← dict_setitem pext "IFxz" (PyFloat f0);
  IFxx ← dict_getitem p "IFxx";
  _ ← dict_setitem pext "IFzz" IFxx;
  _ ← dict_setitem pext "IRxz" (PyFloat f0);
  IRxx ← dict_getitem p "IRxx";
  _ ← dict_setitem pext "IRzz" IRxx;
  w ← dict_getitem p "w";
  _ ← dict_setitem pext "xF" w;
  _ ← dict_setitem pext "xR" (PyFloat f0);
  _ ← dict_setitem pext "yB" (PyFloat f0);
  _ ← dict_setitem pext "yF" (PyFloat f0);
  _ ← dict_setitem pext "yH" (PyFloat f0);
  _ ← dict_setitem pext "yR" (PyFloat f0);
  rF ← dict_getitem p "rF";
  zF ← lift (py_neg rF);
  _ ← dict_setitem pext "zF" zF;
  rR ← dict_getitem p "rR";
  zR ← lift (py_neg rR);
  _ ← dict_setitem pext "zR" zR;
  mret pext.

(** [p = self.parameters.copy(); p.update(self._calc_derived_params())] *)
Definition with_derived (self : loc) : St F loc :=
  parameters ← getattr_ref self "parameters";
  p ← dict_copy parameters;
  pext ← _calc_derived_params self;
  _ ← dict_update p pext;
  mret p.

Definition form_mass_center_vector (self : loc) (body : string)
    : St F (ndarray F) :=
  p ← with_derived self;
  x ← dict_getitem p ("x" +:+ body);
  y ← dict_getitem p ("y" +:+ body);
  z ← dict_getitem p ("z" +:+ body);
  x ← lift (as_float64 ("x" +:+ body) x);
  y ← lift (as_float64 ("y" +:+ body) y);
  z ← lift (as_float64 ("z" +:+ body) z);
  mret (Arr2 1 [[x]; [y]; [z]]).

(** The loop of [mass_center_of], appending to [masses] and
    [coordinates]. *)
Fixpoint mass_center_of_loop (self : loc) (bodies : list string)
    : St F (list (pyval F * ndarray F)) :=
  match bodies with
  | [] => mret []
  | body :: bodies' =>
      parameters ← getattr_ref self "parameters";
      m ← dict_getitem parameters ("m" +:+ body);
      c ← form_mass_center_vector self body;
      mcs ← mass_center_of_loop self bodies';
      mret ((m, squeeze c) :: mcs)
  end.

Definition mass_center_of (self : loc) (bodies : list string)
    : St F (ndarray F) :=
  match bodies with
  | [body] => form_mass_center_vector self body
  | _ =>
      mcs ← mass_center_of_loop self bodies;
      let masses := map fst mcs in
      coordinates ← lift (np_array_of (map snd mcs));
      let coordinates := transpose coordinates in
      '(mass, com) ← lift (Meijaard2007ParameterSet.total_com
                             coordinates masses);
      mret com
  end.

Definition form_inertia_tensor (self : loc) (body : string)
    : St F (ndarray F) :=
  p ← with_derived self;
  Ixx ← dict_getitem p ("I" +:+ body +:+ "xx");
  Ixz ← dict_getitem p ("I" +:+ body +:+ "xz");
  Iyy ← dict_getitem p ("I" +:+ body +:+ "yy");
  Izz ← dict_getitem p ("I" +:+ body +:+ "zz");
  Ixx ← lift (as_float64 ("I" +:+ body +:+ "xx") Ixx);
  Ixz ← lift (as_float64 ("I" +:+ body +:+ "xz") Ixz);
  Iyy ← lift (as_float64 ("I" +:+ body +:+ "yy") Iyy);
  Izz ← lift (as_float64 ("I" +:+ body +:+ "zz") Izz);
  mret (Arr2 3 [[Ixx; f0; Ixz];
                [f0; Iyy; f0];
                [Ixz; f0; Izz]]).

Context `{Numpy F}.

Definition _planar_principal_radii_of_gyration (self : loc)
    (body : string) : St F (F * F * F * F) :=
  p ← with_derived self;
  IH ← form_inertia_tensor self body;
  IH' ← lift (np_delete IH 1 1);
  IH_xz_plane ← lift (np_delete IH' 1 0);
  '(evals, evecs) ← lift (
    match IH_xz_plane with
    | Arr2 _ [[a00; a01]; [a10; a11]] => np_linalg_eig a00 a01 a10 a11
    | _ => Err LinAlgError
    end);
  let idxs := Meijaard2007ParameterSet.argsort2 evals in
  let item2 := @Meijaard2007ParameterSet.item2 in
  let evals := (item2 _ evals (fst idxs), item2 _ evals (snd idxs)) in
  let evecs :=
    ((item2 _ (fst evecs) (fst idxs), item2 _ (fst evecs) (snd idxs)),
     (item2 _ (snd evecs) (fst idxs), item2 _ (snd evecs) (snd idxs))) in
  let angle_to_max :=
    np_arctan2 (fneg (item2 _ (item2 _ evecs 1) 1))
               (item2 _ (item2 _ evecs 0) 1) in
  m ← dict_getitem p ("m" +:+ body);
  m ← lift (as_float64 ("m" +:+ body) m);
  let kmin := np_sqrt (fdiv (item2 _ evals 0) m) in
  m ← dict_getitem p ("m" +:+ body);
  m ← lift (as_float64 ("m" +:+ body) m);
  let kmax := np_sqrt (fdiv (item2 _ evals 1) m) in
  Iyy ← dict_getitem p ("I" +:+ body +:+ "yy");
  m ← dict_getitem p ("m" +:+ body);
  Iyy ← lift (as_float64 ("I" +:+ body +:+ "yy") Iyy);
  m ← lift (as_float64 ("m" +:+ body) m);
  q ← lift (py_truediv Iyy m);
  let kyy := np_sqrt q in
  mret (kmax, kmin, kyy, angle_to_max).

End Methods.
End Meijaard2007ParameterSet.

Module Moore2019ParameterSet.
Section Methods.
Context {F : Type} `{Float64 F}.

Definition _calc_derived_params (self : loc) : St F loc :=
  p ← getattr_ref self "parameters";
  pext ← dict_new;
  _ ← dict_setitem pext "alphaF" (PyFloat f0);
  _ ← dict_setitem pext "alphaR" (PyFloat f0);
  _ ← dict_setitem pext "yD" (PyFloat f0);
  _ ← dict_setitem pext "yP" (PyFloat f0);
  _ ← dict_setitem pext "yH" (PyFloat f0);
  _ ← dict_setitem pext "yR" (PyFloat f0);
  _ ← dict_setitem pext "yF" (PyFloat f0);
  _ ← dict_setitem pext "xR" (PyFloat f0);
  w ← dict_getitem p "w";
  _ ← dict_setitem pext "xF" w;
  rR ← dict_getitem p "rR";
  zR ← lift (py_neg rR);
  _ ← dict_setitem pext "zR" zR;
  rF ← dict_getitem p "rF";
  zF ← lift (py_neg rF);
  _ ← dict_setitem pext "zF" zF;
  kRaa ← dict_getitem p "kRaa";
  _ ← dict_setitem pext "kRbb" kRaa;
  kFaa ← dict_getitem p "kFaa";
  _ ← dict_setitem pext "kFbb" kFaa;
  mret pext.

End Methods.
End Moore2019ParameterSet.

End Heap.

(** ** The linearised model

    [bicycleparameters/models.py] is not among the sources: only its test
    is.  The definitions of this module are modelled from the
    specification of the model boundary. *)

Module Meijaard2007Model.

(** Modelled from the spec: an override maps a Benchmark parameter name
    to either a scalar float or a one-dimensional array of floats. *)
Inductive override (F : Type) :=
| Scalar (x : F)
| Vector (xs : list F).
Arguments Scalar {F} x.
Arguments Vector {F} xs.

(** Modelled from the spec: the outcome of the single-vector rule, one
    parameter mapping when no override is a vector, one per sample, in
    the order of the samples, when one is. *)
Inductive sweep (A : Type) :=
| Single (a : A)
| Batch (l : list A).
Arguments Single {A} a.
Arguments Batch {A} l.

Definition mat2 (F : Type) : Type := (F * F) * (F * F).
Definition quad (A : Type) : Type := A * A * A * A.

Definition rows2 {F} (m : mat2 F) : list (list F) :=
  [[m.1.1; m.1.2]; [m.2.1; m.2.2]].
Definition quad_list {A} (q : quad A) : list A :=
  let '(a, b, c, d) := q in [a; b; c; d].

Section Model.
Context {F : Type} `{Float64 F}.

(** Modelled from the spec: the closed-form expressions of the four
    canonical matrices [M, C1, K0, K2] of the Carvallo-Whipple model,
    each 2x2; the spec names them and does not give them. *)
Variable closed_form : gmap string (pyval F) -> quad (mat2 F).

(** Modelled from the spec: the eigen-solver, on a 4x4 matrix: four
    complex eigenvalues and the 4x4 matrix of right eigenvectors, or no
    result on a numeric failure. *)
Variable eig4 : list (list F) -> option (quad (F * F) * quad (quad (F * F))).

Definition fsub (x y : F) : F := fadd x (fneg y).

Definition madd (a b : mat2 F) : mat2 F :=
  ((fadd a.1.1 b.1.1, fadd a.1.2 b.1.2),
   (fadd a.2.1 b.2.1, fadd a.2.2 b.2.2)).
Definition mscale (s : F) (a : mat2 F) : mat2 F :=
  ((fmul s a.1.1, fmul s a.1.2), (fmul s a.2.1, fmul s a.2.2)).
Definition mneg (a : mat2 F) : mat2 F :=
  ((fneg a.1.1, fneg a.1.2), (fneg a.2.1, fneg a.2.2)).
Definition mmul (a b : mat2 F) : mat2 F :=
  ((fadd (fmul a.1.1 b.1.1) (fmul a.1.2 b.2.1),
    fadd (fmul a.1.1 b.1.2) (fmul a.1.2 b.2.2)),
   (fadd (fmul a.2.1 b.1.1) (fmul a.2.2 b.2.1),
    fadd (fmul a.2.1 b.1.2) (fmul a.2.2 b.2.2))).

Definition det2 (a : mat2 F) : F :=
  fsub (fmul a.1.1 a.2.2) (fmul a.1.2 a.2.1).

(** Modelled from the spec: inverting the mass matrix fails with a
    numeric error when it is singular. *)
Definition inv2 (a : mat2 F) : result (mat2 F) :=
  let d := det2 a in
  if feqb d f0 then Err NumericError
  else Ok ((fdiv a.2.2 d, fdiv (fneg a.1.2) d),
           (fdiv (fneg a.2.1) d, fdiv a.1.1 d)).

(** The scalar overrides, as entries of a parameter mapping. *)
Definition scalars (overrides : gmap string (override F))
    : gmap string (pyval F) :=
  omap (fun o => match o with
                 | Scalar x => Some (PyFloat x)
                 | Vector _ => None
                 end) overrides.

(** The vector-valued overrides. *)
Definition vectors (overrides : gmap string (override F))
    : gmap string (list F) :=
  omap (fun o => match o with
                 | Vector xs => Some xs
                 | Scalar _ => None
                 end) overrides.

(** Modelled from the spec: the overrides are merged into a transient
    copy of the wrapped mapping; two or more vectors are a sweep
    conflict, found before any matrix is formed. *)
Definition samples (parameters : gmap string (pyval F))
    (overrides : gmap string (override F))
    : result (sweep (gmap string (pyval F))) :=
  let merged := scalars overrides ∪ parameters in
  match map_to_list (vectors overrides) with
  | [] => Ok (Single merged)
  | [(k, xs)] => Ok (Batch (map (fun x => <[k := PyFloat x]> merged) xs))
  | _ => Err SweepConflictError
  end.

(** Modelled from the spec: a computation [f] on one parameter mapping
    is run once, or once per sample and independently, in the order of
    the samples. *)
Definition over_sweep {A} (f : gmap string (pyval F) -> result A)
    (parameters : gmap string (pyval F))
    (overrides : gmap string (override F)) : result (sweep A) :=
  sw ← samples parameters overrides;
  match sw with
  | Single p => a ← f p; Ok (Single a)
  | Batch ps => l ← for_each f ps; Ok (Batch l)
  end.

(** Modelled from the spec: derive the extras, then evaluate the
    closed-form expressions. *)
Definition canonical_at (p : gmap string (pyval F))
    : result (quad (mat2 F)) :=
  extras ← Meijaard2007ParameterSet._calc_derived_params p;
  Ok (closed_form (extras ∪ p)).

(** Plain (2, 2) arrays, or (n, 2, 2) arrays with one slice per sample. *)
Definition canonical_arrays (r : sweep (quad (mat2 F))) : quad (ndarray F) :=
  match r with
  | Single (M, C1, K0, K2) =>
      (Arr2 2 (rows2 M), Arr2 2 (rows2 C1),
       Arr2 2 (rows2 K0), Arr2 2 (rows2 K2))
  | Batch ms =>
      (Arr3 2 2 (map (fun m : quad (mat2 F) => rows2 m.1.1.1) ms),
       Arr3 2 2 (map (fun m : quad (mat2 F) => rows2 m.1.1.2) ms),
       Arr3 2 2 (map (fun m : quad (mat2 F) => rows2 m.1.2) ms),
       Arr3 2 2 (map (fun m : quad (mat2 F) => rows2 m.2) ms))
  end.

Definition form_reduced_canonical_matrices
    (parameters : gmap string (pyval F))
    (overrides : gmap string (override F))
    : result (quad (ndarray F)) :=
  r ← over_sweep canonical_at parameters overrides;
  Ok (canonical_arrays r).

(** Modelled from the spec: the block realisation
    [A = [[0, I], [-M⁻¹(K0 + v²K2), -M⁻¹(v·C1)]]], [B = [[0], [M⁻¹]]]. *)
Definition state_space_at (p : gmap string (pyval F))
    : result (list (list F) * list (list F)) :=
  '(M, C1, K0, K2) ← canonical_at p;
  v ← getitem p "v";
  v ← as_float64 "v" v;
  Minv ← inv2 M;
  let a := mneg (mmul Minv (madd K0 (mscale (fmul v v) K2))) in
  let b := mneg (mmul Minv (mscale v C1)) in
  Ok ([[f0; f0; f1; f0];
       [f0; f0; f0; f1];
       [a.1.1; a.1.2; b.1.1; b.1.2];
       [a.2.1; a.2.2; b.2.1; b.2.2]],
      [[f0; f0];
       [f0; f0];
       [Minv.1.1; Minv.1.2];
       [Minv.2.1; Minv.2.2]]).

Definition state_space_arrays (r : sweep (list (list F) * list (list F)))
    : ndarray F * ndarray F :=
  match r with
  | Single (A, B) => (Arr2 4 A, Arr2 2 B)
  | Batch abs => (Arr3 4 4 (map fst abs), Arr3 4 2 (map snd abs))
  end.

Definition form_state_space_matrices
    (parameters : gmap string (pyval F))
    (overrides : gmap string (override F))
    : result (ndarray F * ndarray F) :=
  r ← over_sweep state_space_at parameters overrides;
  Ok (state_space_arrays r).

Definition eigen_at (p : gmap string (pyval F))
    : result (list (F * F) * list (list (F * F))) :=
  '(A, _) ← state_space_at p;
  match eig4 A with
  | Some (evals, evecs) =>
      Ok (quad_list evals, map quad_list (quad_list evecs))
  | None => Err NumericError
  end.

Definition eigen_arrays (r : sweep (list (F * F) * list (list (F * F))))
    : ndarray (F * F) * ndarray (F * F) :=
  match r with
  | Single (evals, evecs) => (Arr1 evals, Arr2 4 evecs)
  | Batch es => (Arr2 4 (map fst es), Arr3 4 4 (map snd es))
  end.

Definition calc_eigen
    (parameters : gmap string (pyval F))
    (overrides : gmap string (override F))
    : result (ndarray (F * F) * ndarray (F * F)) :=
  r ← over_sweep eigen_at parameters overrides;
  Ok (eigen_arrays r).

End Model.

End Meijaard2007Model.

(** ** Two arithmetics *)

(** IEEE-754 binary64, the arithmetic of Python's [float]. *)
#[global] Instance binary64 : Float64 float := {
  f0 := 0%float;
  f1 := 1%float;
  fneg := PrimFloat.opp;
  fadd := PrimFloat.add;
  fmul := PrimFloat.mul;
  fdiv := PrimFloat.div;
  feqb := PrimFloat.eqb;
  fltb := PrimFloat.ltb;
  fleb := PrimFloat.leb;
}.

(** Numpy on binary64: [np.sqrt] is the square root of IEEE-754; the
    two routines the kernel's floats do not have, [np.arctan2] of the C
    library and [np.linalg.eig] of LAPACK, are parameters. *)
Definition numpy_binary64 (arctan2 : float -> float -> float)
    (eig : float -> float -> float -> float
           -> result ((float * float) * ((float * float) * (float * float))))
    : Numpy float :=
  {| np_sqrt := PrimFloat.sqrt; np_arctan2 := arctan2; np_linalg_eig := eig |}.

(** Exact arithmetic on the real numbers: binary64 without rounding,
    overflow and NaN.  It is the arithmetic in which the reconstruction
    of a tensor is the inverse of its decomposition, and the samples on
    which the properties are run are taken from it where a routine of
    numpy is involved. *)
#[global] Instance exact : Float64 R := {
  f0 := 0%R;
  f1 := 1%R;
  fneg := Ropp;
  fadd := Rplus;
  fmul := Rmult;
  fdiv := Rdiv;
  feqb x y := if Req_dec_T x y then true else false;
  fltb x y := if Rlt_dec x y then true else false;
  fleb x y := if Rle_dec x y then true else false;
}.

(** The angle of the point [(x, y)], in [(-π, π]]. *)
Definition arctan2 (y x : R) : R :=
  if Rlt_dec 0 x then atan (y / x)
  else if Rlt_dec x 0 then
    if Rle_dec 0 y then (atan (y / x) + PI)%R else (atan (y / x) - PI)%R
  else if Rlt_dec 0 y then (PI / 2)%R
  else if Rlt_dec y 0 then (- (PI / 2))%R
  else 0%R.

(** Eigenvalues and unit eigenvectors of the symmetric matrix
    [[a, b], [b, d]]; the entry below the diagonal is not read. *)
Definition eig_sym (a b _b d : R) : (R * R) * ((R * R) * (R * R)) :=
  if Req_dec_T b 0 then ((a, d), ((1, 0), (0, 1)))%R
  else
    let r := R_sqrt.sqrt (((a - d) / 2) * ((a - d) / 2) + b * b)%R in
    let l1 := ((a + d) / 2 + r)%R in
    let l2 := ((a + d) / 2 - r)%R in
    let n1 := R_sqrt.sqrt (b * b + (l1 - a) * (l1 - a))%R in
    let n2 := R_sqrt.sqrt (b * b + (l2 - a) * (l2 - a))%R in
    ((l1, l2), ((b / n1, b / n2), ((l1 - a) / n1, (l2 - a) / n2)))%R.

(** Numpy in exact arithmetic, with the eigen-solver [eig]. *)
Definition numpy_exact
    (eig : R -> R -> R -> R -> result ((R * R) * ((R * R) * (R * R))))
    : Numpy R :=
  {| np_sqrt := R_sqrt.sqrt; np_arctan2 := arctan2; np_linalg_eig := eig |}.

#[global] Instance exact_numpy : Numpy R :=
  numpy_exact (fun a b c d => Ok (eig_sym a b c d)).

(** ** Conversion of parameter sets *)

Module conversions.

(** Modelled from the spec: the closed-form reconstruction of the planar
    inertia components of one body by [convert_principal_to_benchmark]
    of [bicycleparameters/conversions.py], which is not among the
    sources: [Ixx = m (kaa² cos²θ + kbb² sin²θ)],
    [Ixz = m (kbb² − kaa²) sinθ cosθ], [Iyy = m kyy²] and
    [Izz = m (kaa² sin²θ + kbb² cos²θ)].  The components are returned in
    the order [(Ixx, Ixz, Iyy, Izz)]. *)
Definition reconstruct_planar_inertia {F} `{Float64 F} `{Elementary F}
    (m kaa kbb kyy theta : F) : F * F * F * F :=
  let c := np_cos theta in
  let s := np_sin theta in
  (fmul m (fadd (fmul (fmul kaa kaa) (fmul c c))
                (fmul (fmul kbb kbb) (fmul s s))),
   fmul (fmul (fmul m (fadd (fmul kbb kbb) (fneg (fmul kaa kaa)))) s) c,
   fmul m (fmul kyy kyy),
   fmul m (fadd (fmul (fmul kaa kaa) (fmul s s))
                (fmul (fmul kbb kbb) (fmul c c)))).

End conversions.

(** A positive number is not zero: binary64 and exact arithmetic agree
    on it. *)
Class PositiveNonzero (F : Type) `{Float64 F} : Prop := {
  fltb_feqb : forall m, fltb f0 m = true -> feqb m f0 = false;
}.

(** [x] is a finite number, neither a NaN nor an infinity: the numbers
    with [x * 0.0 == 0.0]. *)
Definition finite {F} `{Float64 F} (x : F) : Prop :=
  feqb (fmul x f0) f0 = true.

(** The order laws that bound the radii, as IEEE-754 has them: the
    comparisons order the finite numbers, and a correctly rounded
    division by a positive number and a correctly rounded square root
    keep the order and the sign. *)
Class OrderLaws (F : Type) `{Float64 F} `{Numpy F} : Prop := {
  fltb_fleb : forall x y, fltb x y = true -> fleb x y = true;
  fleb_total : forall x y,
    finite x -> finite y -> fltb y x = false -> fleb x y = true;
  fdiv_mono : forall x y m,
    finite x -> finite y -> fltb f0 m = true -> fleb x y = true ->
    fleb (fdiv x m) (fdiv y m) = true;
  fdiv_nonneg : forall x m,
    finite x -> fltb f0 m = true -> fleb f0 x = true ->
    fleb f0 (fdiv x m) = true;
  sqrt_mono : forall x y,
    fleb f0 x = true -> fleb x y = true -> fleb (np_sqrt x) (np_sqrt y) = true;
  sqrt_nonneg : forall x, fleb f0 x = true -> fleb f0 (np_sqrt x) = true;
}.

(** ** The parameters of the tests *)

Module test_models.

#[local] Set Warnings "-inexact-float".

(** [meijaard2007_parameters] of [tests/test_models.py]; [lam] is
    [np.pi/10.0]. *)
Definition meijaard2007_parameters : gmap string (pyval float) :=
  list_to_map
    [ ("IBxx", PyFloat 9.2%float); ("IBxz", PyFloat 2.4%float);
      ("IByy", PyFloat 11.0%float); ("IBzz", PyFloat 2.8%float);
      ("IFxx", PyFloat 0.1405%float); ("IFyy", PyFloat 0.28%float);
      ("IHxx", PyFloat 0.05892%float);
      ("IHxz", PyFloat (-0.00756)%float);
      ("IHyy", PyFloat 0.06%float); ("IHzz", PyFloat 0.00708%float);
      ("IRxx", PyFloat 0.0603%float); ("IRyy", PyFloat 0.12%float);
      ("c", PyFloat 0.08%float); ("g", PyFloat 9.81%float);
      ("lam", PyFloat 0.3141592653589793%float);
      ("mB", PyFloat 85.0%float); ("mF", PyFloat 3.0%float);
      ("mH", PyFloat 4.0%float); ("mR", PyFloat 2.0%float);
      ("rF", PyFloat 0.35%float); ("rR", PyFloat 0.3%float);
      ("v", PyFloat 5.0%float); ("w", PyFloat 1.02%float);
      ("xB", PyFloat 0.3%float); ("xH", PyFloat 0.9%float);
      ("zB", PyFloat (-0.9)%float); ("zH", PyFloat (-0.7)%float) ].

(** The benchmark with unit masses for [B] at (0, 0, 0) and [H] at
    (2, 0, 0). *)
Definition two_unit_masses : gmap string (pyval float) :=
  <["mB" := PyFloat 1%float]> (<["xB" := PyFloat 0%float]>
  (<["zB" := PyFloat 0%float]> (<["mH" := PyFloat 1%float]>
  (<["xH" := PyFloat 2%float]> (<["zH" := PyFloat 0%float]>
     meijaard2007_parameters))))).

(** The benchmark with the entries of a fifth body [Q] as extra keys. *)
Definition with_body_Q : gmap string (pyval float) :=
  <["mQ" := PyFloat 1%float]> (<["xQ" := PyFloat 1%float]>
  (<["yQ" := PyFloat 0%float]> (<["zQ" := PyFloat 0%float]>
     meijaard2007_parameters))).

(** A benchmark over the reals with every parameter equal to one. *)
Definition all_ones : gmap string (pyval R) :=
  list_to_map (map (fun kv : string * string => (kv.1, PyFloat 1%R))
                   Meijaard2007ParameterSet.par_strings).

(** A Principal parameter set over binary64 with every parameter equal
    to one. *)
Definition moore2019_ones : gmap string (pyval float) :=
  list_to_map (map (fun kv : string * string => (kv.1, PyFloat 1%float))
                   Moore2019ParameterSet.par_strings).

(** A store with the dictionary [all_ones] at reference 0, an instance
    that refers to it at reference 1, and the colors of its bodies at
    reference 2. *)
Definition store : gmap Heap.loc (Heap.object R) :=
  <[2 := Heap.ODict
           (list_to_map [("B", PyStr "#1f77b4"); ("F", PyStr "#ff7f0e");
                         ("H", PyStr "#2ca02c"); ("R", PyStr "#d62728")])]>
    (<[1 := Heap.OInstance
             (<["body_colors" := Heap.VRef 2]>
                (<["parameters" := Heap.VRef 0]>
                   (<["includes_rider" := Heap.VPy (PyBool true)]> ∅)))]>
       (<[0 := Heap.ODict all_ones]> ∅)).

(** [np.linspace(0.5, 1.5, num=5)], the wheelbases swept by the test. *)
Definition wheelbases : list float :=
  [0.5%float; 0.75%float; 1%float; 1.25%float; 1.5%float].

(** A stand-in for the closed-form expressions, which the sources do not
    hold: four unit matrices, whatever the parameters. *)
Definition unit_matrices (_ : gmap string (pyval float))
    : Meijaard2007Model.quad (Meijaard2007Model.mat2 float) :=
  let I := ((1%float, 0%float), (0%float, 1%float)) in (I, I, I, I).

(** [np.linspace(0, 10, num=10)], the speeds swept by the test. *)
Definition speeds : list float :=
  [0%float; 1.1111111111111112%float; 2.2222222222222223%float;
   3.3333333333333335%float; 4.444444444444445%float;
   5.555555555555555%float; 6.666666666666667%float;
   7.777777777777779%float; 8.88888888888889%float; 10%float].

(** A stand-in for closed-form expressions with a singular mass matrix:
    four zero matrices, whatever the parameters. *)
Definition zero_matrices (_ : gmap string (pyval float))
    : Meijaard2007Model.quad (Meijaard2007Model.mat2 float) :=
  let Z := ((0%float, 0%float), (0%float, 0%float)) in (Z, Z, Z, Z).

(** A stand-in for an eigen-solver that converges: four zero eigenvalues
    and the four unit vectors, whatever the matrix. *)
Definition unit_solver (_ : list (list float))
    : option (Meijaard2007Model.quad (float * float)
              * Meijaard2007Model.quad (Meijaard2007Model.quad (float * float))) :=
  let z := (0%float, 0%float) in
  let o := (1%float, 0%float) in
  Some ((z, z, z, z),
        ((o, z, z, z), (z, o, z, z), (z, z, o, z), (z, z, z, o))).

(** A stand-in for the eigen-solver: it never converges. *)
Definition no_solver (_ : list (list float))
    : option (Meijaard2007Model.quad (float * float)
              * Meijaard2007Model.quad (Meijaard2007Model.quad (float * float))) :=
  None.

End test_models.


(** ** Vocabulary of the properties *)

(** What validation asks of one key. *)
Definition is_float_at {F} (p : gmap string (pyval F)) (k : string) : Prop :=
  exists x, p !! k = Some (PyFloat x).

(** A validated Principal parameter set. *)
Definition valid_principal {F} (p : gmap string (pyval F)) : Prop :=
  ParameterSet._check_parameters Moore2019ParameterSet.par_strings p = Ok tt.

(** A validated Benchmark parameter set. *)
Definition valid_benchmark {F} (p : gmap string (pyval F)) : Prop :=
  ParameterSet._check_parameters Meijaard2007ParameterSet.par_strings p = Ok tt.

(** The first of the keys [ks], in their order, that the dictionary [d]
    does not hold. *)
Fixpoint first_missing {V} (d : gmap string V) (ks : list string)
    : option string :=
  match ks with
  | [] => None
  | k :: ks' =>
      match d !! k with
      | None => Some k
      | Some _ => first_missing d ks'
      end
  end.

(** The mass-weighted average [Σ(mᵢ·cᵢ) / Σ(mᵢ)] of one coordinate. *)
Definition weighted_average {F} `{Float64 F} (ms cs : list F) : F :=
  fdiv (fsum (zip_with fmul ms cs)) (fsum ms).

(** Body [b] has mass [m] and its mass center at [(x, y, z)]. *)
Definition body_at {F} `{Float64 F} (p : gmap string (pyval F))
    (b : string) (mc : F * (F * F * F)) : Prop :=
  p !! ("m" +:+ b) = Some (PyFloat mc.1) /\
  Meijaard2007ParameterSet.form_mass_center_vector p b
  = Ok (Arr2 1 [[mc.2.1.1]; [mc.2.1.2]; [mc.2.2]]).

(** The principal-axis decomposition as the specification words it, on
    the eigenpairs [eig] of the XZ sub-tensor of
    [[Ixx, 0, Ixz], [0, Iyy, 0], [Ixz, 0, Izz]], its entry [Iyy] and
    the mass: sort the eigenpairs ascending, and return
    [(kmax, kmin, kyy, angle)]. *)
Definition sorted_eigenpairs {F} `{Float64 F}
    (eig : (F * F) * ((F * F) * (F * F))) : (F * (F * F)) * (F * (F * F)) :=
  let '((e0, e1), ((v00, v01), (v10, v11))) := eig in
  if fltb e1 e0 then ((e1, (v01, v11)), (e0, (v00, v10)))
  else ((e0, (v00, v10)), (e1, (v01, v11))).

Definition decompose_planar_inertia {F} `{Float64 F} `{Numpy F}
    (eig : (F * F) * ((F * F) * (F * F))) (Iyy mass : F) : F * F * F * F :=
  let '((eval_min, _), (eval_max, (evec_max_x, evec_max_z))) :=
    sorted_eigenpairs eig in
  let kmin := np_sqrt (fdiv eval_min mass) in
  let kmax := np_sqrt (fdiv eval_max mass) in
  let kyy := np_sqrt (fdiv Iyy mass) in
  let angle_to_max := np_arctan2 (fneg evec_max_z) evec_max_x in
  (kmax, kmin, kyy, angle_to_max).

(** What numpy documents of [np.linalg.eig], on the symmetric array
    [[a, b], [b, d]] in exact arithmetic: each column of the second
    array is an eigenvector of unit length of the eigenvalue at its
    index, and the two columns are independent. *)
Definition unit_eigenpairs (a b d : R)
    (eig : (R * R) * ((R * R) * (R * R))) : Prop :=
  let '((e0, e1), ((v00, v01), (v10, v11))) := eig in
  (a * v00 + b * v10 = e0 * v00 /\ b * v00 + d * v10 = e0 * v10 /\
   a * v01 + b * v11 = e1 * v01 /\ b * v01 + d * v11 = e1 * v11 /\
   v00 * v00 + v10 * v10 = 1 /\ v01 * v01 + v11 * v11 = 1 /\
   v00 * v11 - v01 * v10 <> 0)%R.

(** The queries of a Benchmark parameter set. *)
Inductive query :=
| QMassCenterVector (body : string)
| QMassCenterOf (bodies : list string)
| QInertiaTensor (body : string)
| QPrincipalRadii (body : string)
| QDerivedParams.

(** What a query returns: an array, the four numbers of the
    decomposition, or the entries of a new dictionary. *)
Inductive answer (F : Type) :=
| AArray (a : ndarray F)
| ARadii (t : F * F * F * F)
| ADict (d : gmap string (pyval F)).
Arguments AArray {F} a.
Arguments ARadii {F} t.
Arguments ADict {F} d.

(** A query as a function of the stored dictionary. *)
Definition query_of {F} `{Float64 F} `{Numpy F} (q : query)
    (d : gmap string (pyval F)) : result (answer F) :=
  match q with
  | QMassCenterVector body =>
      a ← Meijaard2007ParameterSet.form_mass_center_vector d body;
      Ok (AArray a)
  | QMassCenterOf bodies =>
      a ← Meijaard2007ParameterSet.mass_center_of d bodies; Ok (AArray a)
  | QInertiaTensor body =>
      a ← Meijaard2007ParameterSet.form_inertia_tensor d body; Ok (AArray a)
  | QPrincipalRadii body =>
      t ← Meijaard2007ParameterSet._planar_principal_radii_of_gyration d body;
      Ok (ARadii t)
  | QDerivedParams =>
      e ← Meijaard2007ParameterSet._calc_derived_params d; Ok (ADict e)
  end.

(** A query as a method call on the instance [self] in a store; a
    returned dictionary is read where the call left it. *)
Definition call_query {F} `{Float64 F} `{Numpy F} (q : query)
    (self : Heap.loc) : Heap.St F (answer F) :=
  match q with
  | QMassCenterVector body =>
      a ← Heap.Meijaard2007ParameterSet.form_mass_center_vector self body;
      mret (AArray a)
  | QMassCenterOf bodies =>
      a ← Heap.Meijaard2007ParameterSet.mass_center_of self bodies;
      mret (AArray a)
  | QInertiaTensor body =>
      a ← Heap.Meijaard2007ParameterSet.form_inertia_tensor self body;
      mret (AArray a)
  | QPrincipalRadii body =>
      t ← Heap.Meijaard2007ParameterSet._planar_principal_radii_of_gyration
            self body;
      mret (ARadii t)
  | QDerivedParams =>
      l ← Heap.Meijaard2007ParameterSet._calc_derived_params self;
      e ← Heap.read_dict l;
      mret (ADict e)
  end.

(** [_calc_derived_params] of a Principal parameter set as a method call,
    the new dictionary read where the call left it. *)
Definition call_moore2019_derived {F} `{Float64 F} (self : Heap.loc)
    : Heap.St F (gmap string (pyval F)) :=
  l ← Heap.Moore2019ParameterSet._calc_derived_params self;
  Heap.read_dict l.

(** In the store [σ], the attribute [parameters] of the instance [self]
    refers to the dictionary at [lp], whose entries are [d]. *)
Definition holds {F} (σ : gmap Heap.loc (Heap.object F))
    (self lp : Heap.loc) (d : gmap string (pyval F)) : Prop :=
  exists attrs,
    σ !! self = Some (Heap.OInstance attrs) /\
    attrs !! "parameters" = Some (Heap.VRef lp) /\
    σ !! lp = Some (Heap.ODict d).

(** A call in the store [σ] returns what the function of the stored
    dictionary returns, and leaves every object of [σ] as it was. *)
Definition refines {F A} (m : Heap.St F A)
    (σ : gmap Heap.loc (Heap.object F)) (r : result A) : Prop :=
  exists σ', m σ = (r, σ') /\ σ ⊆ σ'.

(** The outcome of building a new dictionary: a reference [l] new to [σ],
    left in the store with the entries built so far, which are those of
    the function [r] of the stored dictionary when it returns. *)
Definition builds {F} (σ : gmap Heap.loc (Heap.object F)) (l : Heap.loc)
    (r : result (gmap string (pyval F)))
    (out : result Heap.loc * gmap Heap.loc (Heap.object F)) : Prop :=
  exists dd,
    out = (match r with Ok _ => Ok l | Err e => Err e end,
           <[l := Heap.ODict dd]> σ) /\
    forall pext, r = Ok pext -> dd = pext.

(** The mass matrix of the sample [p] is invertible. *)
Definition nonsingular {F} `{Float64 F}
    (closed_form : gmap string (pyval F)
                   -> Meijaard2007Model.quad (Meijaard2007Model.mat2 F))
    (p : gmap string (pyval F)) : Prop :=
  exists ms Minv,
    Meijaard2007Model.canonical_at closed_form p = Ok ms /\
    Meijaard2007Model.inv2 ms.1.1.1 = Ok Minv.

(** The eigen-solver succeeds on the state matrix of the sample [p]. *)
Definition converges {F} `{Float64 F}
    (closed_form : gmap string (pyval F)
                   -> Meijaard2007Model.quad (Meijaard2007Model.mat2 F))
    (eig4 : list (list F)
            -> option (Meijaard2007Model.quad (F * F)
                       * Meijaard2007Model.quad (Meijaard2007Model.quad (F * F))))
    (p : gmap string (pyval F)) : Prop :=
  forall A B,
    Meijaard2007Model.state_space_at closed_form p = Ok (A, B) ->
    is_Some (eig4 A).

(** ** Drawing

    The plotting methods of a parameter set draw on a matplotlib [Axes],
    an object they are handed or create and which they change in place.
    The embedding keeps the axes in a store, as the dictionaries above,
    and an axes as what was drawn on it together with the settings the
    methods read and write. *)

Module pyplot.

Definition loc := nat.

(** What an axes is asked to draw: the patches of [matplotlib.patches],
    the lines of [plot] and [axhline] and the texts, each with the
    positional and the keyword arguments of the call that made it. *)
Inductive artist (F : Type) :=
| Circle (xy : F * F) (radius : F) (kwargs : list (string * pyval F))
| Wedge (center : F * F) (r theta1 theta2 : F)
    (kwargs : list (string * pyval F))
| Ellipse (xy : F * F) (width height : F) (kwargs : list (string * pyval F))
| Line2D (xdata ydata : list F) (fmt : option string)
    (kwargs : list (string * pyval F))
| AxHLine (y : F) (kwargs : list (string * pyval F))
| Text (x y : F) (s : string).
Arguments Circle {F} xy radius kwargs.
Arguments Wedge {F} center r theta1 theta2 kwargs.
Arguments Ellipse {F} xy width height kwargs.
Arguments Line2D {F} xdata ydata fmt kwargs.
Arguments AxHLine {F} y kwargs.
Arguments Text {F} x y s.

(** An axes: the artists added to it, in the order of the calls, whether
    its y axis is inverted, its aspect and the labels of its axes. *)
Record Axes (F : Type) := {
  artists : list (artist F);
  inverted : bool;
  aspect : string;
  xlabel : string;
  ylabel : string;
}.
Arguments artists {F} a.
Arguments inverted {F} a.
Arguments aspect {F} a.
Arguments xlabel {F} a.
Arguments ylabel {F} a.

(** A computation on the store of axes; an exception leaves the store as
    it was when it was raised. *)
Definition St (F A : Type) : Type :=
  gmap loc (Axes F) -> result A * gmap loc (Axes F).

#[global] Instance St_unit {F} : MRet (St F) := fun A a σ => (Ok a, σ).
#[global] Instance St_seq {F} : MBind (St F) := fun A B k m σ =>
  match m σ with
  | (Ok a, σ') => k a σ'
  | (Err e, σ') => (Err e, σ')
  end.

Section Axes.
Context {F : Type}.

Definition lift {A} (r : result A) : St F A := fun σ => (r, σ).

(** The axes of [plt.subplots()]: nothing drawn, the y axis upwards. *)
Definition new_axes : Axes F :=
  {| artists := []; inverted := false; aspect := "auto";
     xlabel := ""; ylabel := "" |}.

(** [fig, ax = plt.subplots()] *)
Definition subplots : St F loc := fun σ =>
  let ax := fresh (dom σ) in (Ok ax, <[ax := new_axes]> σ).

Definition read (ax : loc) : St F (Axes F) := fun σ =>
  match σ !! ax with
  | Some a => (Ok a, σ)
  | None => (Err TypeError, σ)
  end.

Definition write (ax : loc) (a : Axes F) : St F unit := fun σ =>
  (Ok tt, <[ax := a]> σ).

Definition add_artist (ax : loc) (x : artist F) : St F unit :=
  a ← read ax;
  write ax {| artists := artists a ++ [x]; inverted := inverted a;
              aspect := aspect a; xlabel := xlabel a; ylabel := ylabel a |}.

(** [ax.add_patch(patch)] *)
Definition add_patch (ax : loc) (patch : artist F) : St F unit :=
  add_artist ax patch.

(** [ax.plot(xdata, ydata, fmt, **kwargs)] *)
Definition plot (ax : loc) (xdata ydata : list F) (fmt : option string)
    (kwargs : list (string * pyval F)) : St F unit :=
  add_artist ax (Line2D xdata ydata fmt kwargs).

(** [ax.axhline(y, **kwargs)] *)
Definition axhline (ax : loc) (y : F) (kwargs : list (string * pyval F))
    : St F unit :=
  add_artist ax (AxHLine y kwargs).

(** [ax.text(x, y, s)] *)
Definition text (ax : loc) (x y : F) (s : string) : St F unit :=
  add_artist ax (Text x y s).

(** [ax.yaxis_inverted()] *)
Definition yaxis_inverted (ax : loc) : St F bool :=
  a ← read ax; mret (inverted a).

(** [ax.invert_yaxis()] *)
Definition invert_yaxis (ax : loc) : St F unit :=
  a ← read ax;
  write ax {| artists := artists a; inverted := negb (inverted a);
              aspect := aspect a; xlabel := xlabel a; ylabel := ylabel a |}.

(** [ax.set_aspect(s)] *)
Definition set_aspect (ax : loc) (s : string) : St F unit :=
  a ← read ax;
  write ax {| artists := artists a; inverted := inverted a;
              aspect := s; xlabel := xlabel a; ylabel := ylabel a |}.

(** [ax.set_xlabel(s)] *)
Definition set_xlabel (ax : loc) (s : string) : St F unit :=
  a ← read ax;
  write ax {| artists := artists a; inverted := inverted a;
              aspect := aspect a; xlabel := s; ylabel := ylabel a |}.

(** [ax.set_ylabel(s)] *)
Definition set_ylabel (ax : loc) (s : string) : St F unit :=
  a ← read ax;
  write ax {| artists := artists a; inverted := inverted a;
              aspect := aspect a; xlabel := xlabel a; ylabel := s |}.

(** [if ax is None: fig, ax = plt.subplots()] *)
Definition or_subplots (ax : option loc) : St F loc :=
  match ax with
  | Some ax => mret ax
  | None => subplots
  end.

(** [for b in bodies: ax = f(b, ax=ax)] *)
Fixpoint for_ax {B} (f : B -> option loc -> St F loc) (bodies : list B)
    (ax : loc) : St F loc :=
  match bodies with
  | [] => mret ax
  | b :: bodies' => ax ← f b (Some ax); for_ax f bodies' ax
  end.

End Axes.

End pyplot.

(** ** The plotting methods *)

Module plots.

(** An instance with the attributes the plotting methods read:
    [includes_rider] is set by the Benchmark class only. *)
Record instance (F : Type) := {
  parameters : gmap string (pyval F);
  includes_rider : option bool;
  body_labels : list string;
  body_colors : gmap string string;
}.
Arguments parameters {F} _.
Arguments includes_rider {F} _.
Arguments body_labels {F} _.
Arguments body_colors {F} _.

Section Functions.
Context {F : Type} `{Float64 F} `{Numpy F} `{OfInt F} `{Elementary F}.

(** [x - y], which both arithmetics compute as [x + (-y)]. *)
Definition fsub (x y : F) : F := fadd x (fneg y).

(** The literal [0.5]. *)
Definition half : F := fdiv f1 (of_int 2).

(** [p[k]] as an operand of a float operation; the embedding stops at
    an entry that is no float. *)
Definition item (p : gmap string (pyval F)) (k : string) : result F :=
  v ← getitem p k; as_float64 k v.

(** [l[i]] *)
Definition index (l : list F) (i : nat) : result F :=
  match l !! i with Some x => Ok x | None => Err IndexError end.

(** [max(x, y)] of Python: the second argument when it is greater. *)
Definition py_max (x y : F) : F := if fltb x y then y else x.

(** [_com_symbol], with the center and the radius as floats. *)
Definition _com_symbol (ax : pyplot.loc) (center : F * F) (radius : F)
    (color : string) (label : option string) : pyplot.St F pyplot.loc :=
  let c := pyplot.Circle center radius [("fill", PyBool false)] in
  let w1 := pyplot.Wedge center radius (of_int 0) (of_int 90)
              [("color", PyStr color); ("ec", PyNone);
               ("alpha", PyFloat half)] in
  let w2 := pyplot.Wedge center radius (of_int 180) (of_int 270)
              [("color", PyStr color); ("ec", PyNone);
               ("alpha", PyFloat half)] in
  _ ← pyplot.add_patch ax w1;
  _ ← pyplot.add_patch ax w2;
  _ ← pyplot.add_patch ax c;
  _ ← match label with
      | Some label =>
          pyplot.text ax (fadd center.1 radius) (fadd center.2 radius) label
      | None => mret tt
      end;
  mret ax.

(** [fundamental_geometry_plot_data] of [bicycleparameters/geometry.py],
    which is not among the sources: the x and the z coordinates of the
    points of the fundamental geometry, as numpy floats, or an
    exception. *)
Variable fundamental_geometry_plot_data :
  gmap string (pyval F) -> result (list F * list F).

(** [_plot_geometry_from_benchmark] *)
Definition _plot_geometry_from_benchmark (ax : pyplot.loc)
    (parameters : gmap string (pyval F)) (show_steer_axis : bool)
    : pyplot.St F pyplot.loc :=
  let p := parameters in
  (* plot the ground line *)
  _ ← pyplot.axhline ax f0 [("color", PyStr "black")];
  (* plot the rear wheel *)
  rR ← pyplot.lift (item p "rR");
  rR' ← pyplot.lift (item p "rR");
  let c := pyplot.Circle (f0, fneg rR) rR'
             [("linewidth", PyInt 2); ("fill", PyBool false)] in
  _ ← pyplot.add_patch ax c;
  (* plot the front wheel *)
  w ← pyplot.lift (getitem p "w");
  rF ← pyplot.lift (item p "rF");
  rF' ← pyplot.lift (item p "rF");
  w ← pyplot.lift (as_float64 "w" w);
  let c := pyplot.Circle (w, fneg rF) rF'
             [("linewidth", PyInt 2); ("fill", PyBool false)] in
  _ ← pyplot.add_patch ax c;
  (* plot the fundamental bike *)
  '(deex, deez) ← pyplot.lift (fundamental_geometry_plot_data p);
  _ ← pyplot.plot ax deex deez None
        [("color", PyStr "k"); ("linewidth", PyInt 2)];
  if show_steer_axis then
    (* plot the steer axis *)
    deex2 ← pyplot.lift (index deex 2);
    deez2 ← pyplot.lift (index deez 2);
    deex2' ← pyplot.lift (index deex 2);
    deex1 ← pyplot.lift (index deex 1);
    deez1 ← pyplot.lift (index deez 1);
    deez2' ← pyplot.lift (index deez 2);
    let dx3 := fsub deex2 (fdiv (fmul deez2 (fsub deex2' deex1))
                                (fadd (fneg deez1) deez2')) in
    deex2 ← pyplot.lift (index deex 2);
    deez2 ← pyplot.lift (index deez 2);
    _ ← pyplot.plot ax [deex2; dx3] [deez2; f0] (Some "k--") [];
    mret ax
  else mret ax.

End Functions.

Module ParameterSet.
Section Methods.
Context {F : Type} `{Float64 F} `{Numpy F} `{OfInt F} `{Elementary F}.

(** The loop of [_generate_body_colors], from index [i] on; [colors] is
    the color cycle of [plt.rcParams]. *)
Fixpoint _generate_body_colors_from (colors : list string) (i : nat)
    (body_labels : list string) (body_colors : gmap string string)
    : result (gmap string string) :=
  match body_labels with
  | [] => Ok body_colors
  | b :: body_labels' =>
      match colors !! i with
      | Some c =>
          _generate_body_colors_from colors (S i) body_labels'
            (<[b := c]> body_colors)
      | None => Err IndexError
      end
  end.

(** [_generate_body_colors]: the dictionary [self.body_colors]. *)
Definition _generate_body_colors (colors : list string)
    (body_labels : list string) : result (gmap string string) :=
  _generate_body_colors_from colors 0 body_labels ∅.

(** [_invert_yaxis] *)
Definition _invert_yaxis (ax : pyplot.loc) : pyplot.St F pyplot.loc :=
  inv ← pyplot.yaxis_inverted ax;
  _ ← (if negb inv then pyplot.invert_yaxis ax else mret tt);
  mret ax.

(** [_finalize_plot], which returns nothing. *)
Definition _finalize_plot (ax : pyplot.loc) : pyplot.St F unit :=
  ax ← _invert_yaxis ax;
  _ ← pyplot.set_aspect ax "equal";
  _ ← pyplot.set_xlabel ax "$x$ [m]";
  _ ← pyplot.set_ylabel ax "$z$ [m]";
  mret tt.

End Methods.
End ParameterSet.

Module Meijaard2007ParameterSet.
Section Methods.
Context {F : Type} `{Float64 F} `{Numpy F} `{OfInt F} `{Elementary F}.

(** The fundamental geometry, as above. *)
Variable fundamental_geometry_plot_data :
  gmap string (pyval F) -> result (list F * list F).

(** [__init__], with the colors of the bodies. *)
Definition __init__ (colors : list string)
    (parameters : gmap string (pyval F)) (includes_rider : bool)
    : result (instance F) :=
  _ ← ParameterSet.__init__
        Meijaard2007ParameterSet.par_strings parameters;
  body_colors ← ParameterSet._generate_body_colors colors
                  Meijaard2007ParameterSet.body_labels;
  Ok {| parameters := parameters;
        includes_rider := Some includes_rider;
        body_labels := Meijaard2007ParameterSet.body_labels;
        body_colors := body_colors |}.

(** [plot_geometry] *)
Definition plot_geometry (self : instance F) (show_steer_axis : bool)
    (ax : option pyplot.loc) : pyplot.St F pyplot.loc :=
  let p := parameters self in
  ax ← pyplot.or_subplots ax;
  ax ← _plot_geometry_from_benchmark fundamental_geometry_plot_data ax p
         show_steer_axis;
  _ ← ParameterSet._finalize_plot ax;
  mret ax.

(** [plot_body_mass_center] *)
Definition plot_body_mass_center (self : instance F) (b : string)
    (ax : option pyplot.loc) : pyplot.St F pyplot.loc :=
  ax ← pyplot.or_subplots ax;
  p ← pyplot.lift
        (Meijaard2007ParameterSet.with_derived (parameters self));
  (* mass center *)
  x ← pyplot.lift (getitem p ("x" +:+ b));
  z ← pyplot.lift (getitem p ("z" +:+ b));
  w ← pyplot.lift (item p "w");
  let radius := fdiv w (of_int 10) in
  color ← pyplot.lift (getitem (body_colors self) b);
  x ← pyplot.lift (as_float64 ("x" +:+ b) x);
  z ← pyplot.lift (as_float64 ("z" +:+ b) z);
  ax ← _com_symbol ax (x, z) radius color (Some b);
  _ ← ParameterSet._finalize_plot ax;
  mret ax.

(** [plot_mass_centers] *)
Definition plot_mass_centers (self : instance F)
    (bodies : option (list string)) (ax : option pyplot.loc)
    : pyplot.St F pyplot.loc :=
  ax ← pyplot.or_subplots ax;
  let bodies := default (body_labels self) bodies in
  ax ← pyplot.for_ax (plot_body_mass_center self) bodies ax;
  mret ax.

(** [plot_body_principal_radii_of_gyration] *)
Definition plot_body_principal_radii_of_gyration (self : instance F)
    (b : string) (ax : option pyplot.loc) : pyplot.St F pyplot.loc :=
  ax ← pyplot.or_subplots ax;
  p ← pyplot.lift
        (Meijaard2007ParameterSet.with_derived (parameters self));
  x ← pyplot.lift (getitem p ("x" +:+ b));
  z ← pyplot.lift (getitem p ("z" +:+ b));
  '(kaa, kbb, kyy, alpha) ← pyplot.lift
    (Meijaard2007ParameterSet._planar_principal_radii_of_gyration
       (parameters self) b);
  color ← pyplot.lift (getitem (body_colors self) b);
  x ← pyplot.lift (as_float64 ("x" +:+ b) x);
  z ← pyplot.lift (as_float64 ("z" +:+ b) z);
  let c := pyplot.Circle (x, z) kyy
             [("fill", PyBool false); ("color", PyStr color);
              ("linestyle", PyStr "--")] in
  _ ← pyplot.add_patch ax c;
  (* -alpha: the xz axes are mapped to a drawing grid with z out of the
     screen *)
  let xdata := [fsub x (fmul kbb (np_cos (fneg alpha)));
                fadd x (fmul kbb (np_cos (fneg alpha)))] in
  let ydata := [fsub z (fmul kbb (np_sin (fneg alpha)));
                fadd z (fmul kbb (np_sin (fneg alpha)))] in
  color ← pyplot.lift (getitem (body_colors self) b);
  _ ← pyplot.plot ax xdata ydata None
        [("color", PyStr color); ("linestyle", PyStr "--")];
  let beta := fsub (fneg alpha) (fdiv np_pi (of_int 2)) in
  let xdata := [fsub x (fmul kaa (np_cos beta));
                fadd x (fmul kaa (np_cos beta))] in
  let ydata := [fsub z (fmul kaa (np_sin beta));
                fadd z (fmul kaa (np_sin beta))] in
  color ← pyplot.lift (getitem (body_colors self) b);
  _ ← pyplot.plot ax xdata ydata None
        [("color", PyStr color); ("linestyle", PyStr "--")];
  _ ← ParameterSet._finalize_plot ax;
  mret ax.

(** [plot_principal_radii_of_gyration] *)
Definition plot_principal_radii_of_gyration (self : instance F)
    (bodies : option (list string)) (ax : option pyplot.loc)
    : pyplot.St F pyplot.loc :=
  ax ← pyplot.or_subplots ax;
  let bodies := default (body_labels self) bodies in
  ax ← pyplot.for_ax (plot_body_principal_radii_of_gyration self) bodies ax;
  mret ax.

(** [plot_body_principal_inertia_ellipsoid]; the radii are numpy
    floats. *)
Definition plot_body_principal_inertia_ellipsoid (self : instance F)
    (b : string) (ax : option pyplot.loc) : pyplot.St F pyplot.loc :=
  ax ← pyplot.or_subplots ax;
  p ← pyplot.lift
        (Meijaard2007ParameterSet.with_derived (parameters self));
  '(kaa, kbb, kyy, alpha) ← pyplot.lift
    (Meijaard2007ParameterSet._planar_principal_radii_of_gyration
       (parameters self) b);
  let width :=
    np_sqrt (fmul (fdiv (of_int 5) (of_int 2))
                  (fadd (fadd (fneg (np_power kaa 2)) (np_power kyy 2))
                        (np_power kbb 2))) in
  let height :=
    np_sqrt (fmul (fdiv (of_int 5) (of_int 2))
                  (fsub (fadd (np_power kaa 2) (np_power kyy 2))
                        (np_power kbb 2))) in
  x ← pyplot.lift (getitem p ("x" +:+ b));
  z ← pyplot.lift (getitem p ("z" +:+ b));
  let angle := fneg (np_rad2deg alpha) in
  color ← pyplot.lift (getitem (body_colors self) b);
  x ← pyplot.lift (as_float64 ("x" +:+ b) x);
  z ← pyplot.lift (as_float64 ("z" +:+ b) z);
  let ellipse := pyplot.Ellipse (x, z) width height
                   [("angle", PyFloat angle); ("fill", PyBool false);
                    ("color", PyStr color)] in
  _ ← pyplot.add_patch ax ellipse;
  mret ax.

(** [plot_principal_inertia_ellipsoids] *)
Definition plot_principal_inertia_ellipsoids (self : instance F)
    (bodies : option (list string)) (ax : option pyplot.loc)
    : pyplot.St F pyplot.loc :=
  ax ← pyplot.or_subplots ax;
  let bodies := default (body_labels self) bodies in
  ax ← pyplot.for_ax (plot_body_principal_inertia_ellipsoid self) bodies ax;
  mret ax.

(** [plot_all] *)
Definition plot_all (self : instance F) (ax : option pyplot.loc)
    : pyplot.St F pyplot.loc :=
  ax ← pyplot.or_subplots ax;
  ax ← plot_principal_radii_of_gyration self None (Some ax);
  ax ← plot_principal_inertia_ellipsoids self None (Some ax);
  ax ← plot_geometry self true (Some ax);
  ax ← plot_mass_centers self None (Some ax);
  mret ax.

End Methods.
End Meijaard2007ParameterSet.

Module Moore2019ParameterSet.
Section Methods.
Context {F : Type} `{Float64 F} `{Numpy F} `{OfInt F} `{Elementary F}.

(** The fundamental geometry, as above. *)
Variable fundamental_geometry_plot_data :
  gmap string (pyval F) -> result (list F * list F).

(** [__init__], with the labels and the colors of the bodies. *)
Definition __init__ (colors : list string)
    (parameters : gmap string (pyval F)) : result (instance F) :=
  _ ← ParameterSet.__init__
        Moore2019ParameterSet.par_strings parameters;
  let body_labels := ["D"; "F"; "H"; "P"; "R"] in
  body_colors ← ParameterSet._generate_body_colors colors body_labels;
  Ok {| parameters := parameters;
        includes_rider := None;
        body_labels := body_labels;
        body_colors := body_colors |}.

(** [p = self.parameters.copy(); p.update(self._calc_derived_params())] *)
Definition with_derived (parameters : gmap string (pyval F))
    : result (gmap string (pyval F)) :=
  pext ← Moore2019ParameterSet._calc_derived_params parameters;
  Ok (pext ∪ parameters).

(** [plot_geometry] *)
Definition plot_geometry (self : instance F) (show_steer_axis : bool)
    (ax : option pyplot.loc) : pyplot.St F pyplot.loc :=
  let p := parameters self in
  ax ← pyplot.or_subplots ax;
  ax ← _plot_geometry_from_benchmark fundamental_geometry_plot_data ax p
         show_steer_axis;
  _ ← ParameterSet._finalize_plot ax;
  mret ax.

(** [plot_person_diamond] *)
Definition plot_person_diamond (self : instance F) (show_cross : bool)
    (ax : option pyplot.loc) : pyplot.St F pyplot.loc :=
  ax ← pyplot.or_subplots ax;
  let p := parameters self in
  let two := of_int 2 in
  x_offset ← pyplot.lift (
    wP ← item p "wP"; alphaP ← item p "alphaP";
    let x0 := fmul (fdiv wP two) (np_cos (fneg alphaP)) in
    lP ← item p "lP"; alphaP ← item p "alphaP";
    let x1 := fmul (fdiv (fneg lP) two)
                   (np_cos (fadd (fneg alphaP) (fdiv np_pi two))) in
    wP ← item p "wP"; alphaP ← item p "alphaP";
    let x2 := fmul (fdiv (fneg wP) two) (np_cos (fneg alphaP)) in
    lP ← item p "lP"; alphaP ← item p "alphaP";
    let x3 := fmul (fdiv lP two)
                   (np_cos (fadd (fneg alphaP) (fdiv np_pi two))) in
    wP ← item p "wP"; alphaP ← item p "alphaP";
    let x4 := fmul (fdiv wP two) (np_cos (fneg alphaP)) in
    Ok [x0; x1; x2; x3; x4]);
  xP ← pyplot.lift (item p "xP");
  let x := map (fadd xP) x_offset in
  z_offset ← pyplot.lift (
    wP ← item p "wP"; alphaP ← item p "alphaP";
    let z0 := fmul (fdiv wP two) (np_sin (fneg alphaP)) in
    lP ← item p "lP"; alphaP ← item p "alphaP";
    let z1 := fmul (fdiv (fneg lP) two)
                   (np_sin (fadd (fneg alphaP) (fdiv np_pi two))) in
    wP ← item p "wP"; alphaP ← item p "alphaP";
    let z2 := fmul (fdiv (fneg wP) two) (np_sin (fneg alphaP)) in
    lP ← item p "lP"; alphaP ← item p "alphaP";
    let z3 := fmul (fdiv lP two)
                   (np_sin (fadd (fneg alphaP) (fdiv np_pi two))) in
    wP ← item p "wP"; alphaP ← item p "alphaP";
    let z4 := fmul (fdiv wP two) (np_sin (fneg alphaP)) in
    Ok [z0; z1; z2; z3; z4]);
  zP ← pyplot.lift (item p "zP");
  let z := map (fadd zP) z_offset in
  color ← pyplot.lift (getitem (body_colors self) "P");
  _ ← pyplot.plot ax x z None [("color", PyStr color)];
  _ ← (if show_cross then
         cross ← pyplot.lift (
           xP ← item p "xP"; wP ← item p "wP"; alphaP ← item p "alphaP";
           let x0 := fsub xP (fmul (fdiv wP two) (np_cos (fneg alphaP))) in
           xP ← item p "xP"; wP ← item p "wP"; alphaP ← item p "alphaP";
           let x1 := fadd xP (fmul (fdiv wP two) (np_cos (fneg alphaP))) in
           zP ← item p "zP"; wP ← item p "wP"; alphaP ← item p "alphaP";
           let z0 := fsub zP (fmul (fdiv wP two) (np_sin (fneg alphaP))) in
           zP ← item p "zP"; wP ← item p "wP"; alphaP ← item p "alphaP";
           let z1 := fadd zP (fmul (fdiv wP two) (np_sin (fneg alphaP))) in
           Ok ([x0; x1], [z0; z1]));
         _ ← pyplot.plot ax cross.1 cross.2 None
               [("color", PyStr "black"); ("linewidth", PyInt 2)];
         cross ← pyplot.lift (
           let beta alphaP := fadd (fneg alphaP) (fdiv np_pi two) in
           xP ← item p "xP"; lP ← item p "lP"; alphaP ← item p "alphaP";
           let x0 := fsub xP (fmul (fdiv lP two) (np_cos (beta alphaP))) in
           xP ← item p "xP"; lP ← item p "lP"; alphaP ← item p "alphaP";
           let x1 := fadd xP (fmul (fdiv lP two) (np_cos (beta alphaP))) in
           zP ← item p "zP"; lP ← item p "lP"; alphaP ← item p "alphaP";
           let z0 := fsub zP (fmul (fdiv lP two) (np_sin (beta alphaP))) in
           zP ← item p "zP"; lP ← item p "lP"; alphaP ← item p "alphaP";
           let z1 := fadd zP (fmul (fdiv lP two) (np_sin (beta alphaP))) in
           Ok ([x0; x1], [z0; z1]));
         pyplot.plot ax cross.1 cross.2 None
           [("color", PyStr "black"); ("linewidth", PyInt 2)]
       else mret tt);
  _ ← ParameterSet._finalize_plot ax;
  mret ax.

(** [plot_body_mass_center] *)
Definition plot_body_mass_center (self : instance F) (b : string)
    (ax : option pyplot.loc) : pyplot.St F pyplot.loc :=
  ax ← pyplot.or_subplots ax;
  p ← pyplot.lift (with_derived (parameters self));
  (* mass center *)
  x ← pyplot.lift (getitem p ("x" +:+ b));
  z ← pyplot.lift (getitem p ("z" +:+ b));
  w ← pyplot.lift (getitem p "w");
  lP ← pyplot.lift (getitem p "lP");
  w ← pyplot.lift (as_float64 "w" w);
  lP ← pyplot.lift (as_float64 "lP" lP);
  let radius := fdiv (py_max w lP) (of_int 30) in
  color ← pyplot.lift (getitem (body_colors self) b);
  x ← pyplot.lift (as_float64 ("x" +:+ b) x);
  z ← pyplot.lift (as_float64 ("z" +:+ b) z);
  ax ← _com_symbol ax (x, z) radius color (Some b);
  _ ← ParameterSet._finalize_plot ax;
  mret ax.

(** [plot_mass_centers] *)
Definition plot_mass_centers (self : instance F)
    (bodies : option (list string)) (ax : option pyplot.loc)
    : pyplot.St F pyplot.loc :=
  ax ← pyplot.or_subplots ax;
  let bodies := default (body_labels self) bodies in
  ax ← pyplot.for_ax (plot_body_mass_center self) bodies ax;
  mret ax.

(** [plot_body_principal_radii_of_gyration] *)
Definition plot_body_principal_radii_of_gyration (self : instance F)
    (b : string) (ax : option pyplot.loc) : pyplot.St F pyplot.loc :=
  ax ← pyplot.or_subplots ax;
  p ← pyplot.lift (with_derived (parameters self));
  x ← pyplot.lift (getitem p ("x" +:+ b));
  z ← pyplot.lift (getitem p ("z" +:+ b));
  kyy ← pyplot.lift (getitem p ("k" +:+ b +:+ "yy"));
  kaa ← pyplot.lift (getitem p ("k" +:+ b +:+ "aa"));
  kbb ← pyplot.lift (getitem p ("k" +:+ b +:+ "bb"));
  (* angle between x and aa about y *)
  alpha ← pyplot.lift (getitem p ("alpha" +:+ b));
  let linestyle := "--" in
  color ← pyplot.lift (getitem (body_colors self) b);
  x ← pyplot.lift (as_float64 ("x" +:+ b) x);
  z ← pyplot.lift (as_float64 ("z" +:+ b) z);
  kyy ← pyplot.lift (as_float64 ("k" +:+ b +:+ "yy") kyy);
  let c := pyplot.Circle (x, z) kyy
             [("fill", PyBool false); ("color", PyStr color);
              ("linestyle", PyStr linestyle)] in
  _ ← pyplot.add_patch ax c;
  kbb ← pyplot.lift (as_float64 ("k" +:+ b +:+ "bb") kbb);
  alpha ← pyplot.lift (as_float64 ("alpha" +:+ b) alpha);
  let xdata := [fsub x (fmul kbb (np_cos (fneg alpha)));
                fadd x (fmul kbb (np_cos (fneg alpha)))] in
  let ydata := [fsub z (fmul kbb (np_sin (fneg alpha)));
                fadd z (fmul kbb (np_sin (fneg alpha)))] in
  color ← pyplot.lift (getitem (body_colors self) b);
  _ ← pyplot.plot ax xdata ydata None
        [("color", PyStr color); ("linestyle", PyStr linestyle)];
  kaa ← pyplot.lift (as_float64 ("k" +:+ b +:+ "aa") kaa);
  let beta := fsub (fneg alpha) (fdiv np_pi (of_int 2)) in
  let xdata := [fsub x (fmul kaa (np_cos beta));
                fadd x (fmul kaa (np_cos beta))] in
  let ydata := [fsub z (fmul kaa (np_sin beta));
                fadd z (fmul kaa (np_sin beta))] in
  color ← pyplot.lift (getitem (body_colors self) b);
  _ ← pyplot.plot ax xdata ydata None
        [("color", PyStr color); ("linestyle", PyStr linestyle)];
  _ ← ParameterSet._finalize_plot ax;
  mret ax.

(** [plot_principal_radii_of_gyration], whose default is the list of
    the five labels. *)
Definition plot_principal_radii_of_gyration (self : instance F)
    (bodies : option (list string)) (ax : option pyplot.loc)
    : pyplot.St F pyplot.loc :=
  ax ← pyplot.or_subplots ax;
  let bodies := default ["D"; "F"; "H"; "P"; "R"] bodies in
  ax ← pyplot.for_ax (plot_body_principal_radii_of_gyration self) bodies ax;
  mret ax.

(** [x ** 2] on a Python float, which raises [OverflowError] when the
    result is out of range. *)
Definition square (x : F) : result F :=
  match py_pow x 2 with Some y => Ok y | None => Err OverflowError end.

(** [plot_body_principal_inertia_ellipsoid]; the radii are Python
    floats. *)
Definition plot_body_principal_inertia_ellipsoid (self : instance F)
    (b : string) (ax : option pyplot.loc) : pyplot.St F pyplot.loc :=
  ax ← pyplot.or_subplots ax;
  p ← pyplot.lift (with_derived (parameters self));
  kaa ← pyplot.lift (getitem p ("k" +:+ b +:+ "aa"));
  kbb ← pyplot.lift (getitem p ("k" +:+ b +:+ "bb"));
  kyy ← pyplot.lift (getitem p ("k" +:+ b +:+ "yy"));
  alpha ← pyplot.lift (getitem p ("alpha" +:+ b));
  kaa ← pyplot.lift (as_float64 ("k" +:+ b +:+ "aa") kaa);
  kaa2 ← pyplot.lift (square kaa);
  kyy ← pyplot.lift (as_float64 ("k" +:+ b +:+ "yy") kyy);
  kyy2 ← pyplot.lift (square kyy);
  kbb ← pyplot.lift (as_float64 ("k" +:+ b +:+ "bb") kbb);
  kbb2 ← pyplot.lift (square kbb);
  let width :=
    np_sqrt (fmul (fdiv (of_int 5) (of_int 2))
                  (fadd (fadd (fneg kaa2) kyy2) kbb2)) in
  kaa2 ← pyplot.lift (square kaa);
  kyy2 ← pyplot.lift (square kyy);
  kbb2 ← pyplot.lift (square kbb);
  let height :=
    np_sqrt (fmul (fdiv (of_int 5) (of_int 2))
                  (fsub (fadd kaa2 kyy2) kbb2)) in
  x ← pyplot.lift (getitem p ("x" +:+ b));
  z ← pyplot.lift (getitem p ("z" +:+ b));
  alpha ← pyplot.lift (as_float64 ("alpha" +:+ b) alpha);
  let angle := fneg (np_rad2deg alpha) in
  color ← pyplot.lift (getitem (body_colors self) b);
  x ← pyplot.lift (as_float64 ("x" +:+ b) x);
  z ← pyplot.lift (as_float64 ("z" +:+ b) z);
  let ellipse := pyplot.Ellipse (x, z) width height
                   [("angle", PyFloat angle); ("fill", PyBool false);
                    ("color", PyStr color)] in
  _ ← pyplot.add_patch ax ellipse;
  _ ← ParameterSet._finalize_plot ax;
  mret ax.

(** [plot_principal_inertia_ellipsoids] *)
Definition plot_principal_inertia_ellipsoids (self : instance F)
    (bodies : option (list string)) (ax : option pyplot.loc)
    : pyplot.St F pyplot.loc :=
  ax ← pyplot.or_subplots ax;
  let bodies := default (body_labels self) bodies in
  ax ← pyplot.for_ax (plot_body_principal_inertia_ellipsoid self) bodies ax;
  mret ax.

(** [plot_all] *)
Definition plot_all (self : instance F) (ax : option pyplot.loc)
    : pyplot.St F pyplot.loc :=
  ax ← pyplot.or_subplots ax;
  ax ← plot_principal_radii_of_gyration self None (Some ax);
  ax ← plot_principal_inertia_ellipsoids self None (Some ax);
  ax ← plot_person_diamond self false (Some ax);
  ax ← plot_geometry self true (Some ax);
  ax ← plot_mass_centers self None (Some ax);
  mret ax.

End Methods.
End Moore2019ParameterSet.

End plots.

(** ** The arithmetics of the drawings *)

(** An integer of at most 63 bits as a binary64 float. *)
#[global] Instance binary64_of_int : OfInt float := {
  of_int z :=
    match z with
    | Z0 => 0%float
    | Zpos _ => PrimFloat.of_uint63 (Uint63.of_Z z)
    | Zneg q => PrimFloat.opp (PrimFloat.of_uint63 (Uint63.of_Z (Zpos q)))
    end;
}.

#[global] Instance exact_of_int : OfInt R := {
  of_int := IZR;
}.

(** The elementary functions in exact arithmetic, where no power is out
    of range. *)
#[global] Instance exact_elementary : Elementary R := {
  np_cos := cos;
  np_sin := sin;
  np_pi := PI;
  np_rad2deg x := (x * (180 / PI))%R;
  np_power := powerRZ;
  py_pow x n := Some (powerRZ x n);
}.

Module samples.

(** The default color cycle of matplotlib. *)
Definition tab10 : list string :=
  ["#1f77b4"; "#ff7f0e"; "#2ca02c"; "#d62728"; "#9467bd";
   "#8c564b"; "#e377c2"; "#7f7f7f"; "#bcbd22"; "#17becf"].

(** A Principal parameter set over the reals with every parameter equal
    to one. *)
Definition moore2019_exact : gmap string (pyval R) :=
  list_to_map (map (fun kv : string * string => (kv.1, PyFloat 1%R))
                   Moore2019ParameterSet.par_strings).

(** The Benchmark set of ones over the reals with the tensor of its
    rear frame diagonal, [IBxx = 2] and [IBxz = 0]. *)
Definition upright : gmap string (pyval R) :=
  <["IBxx" := PyFloat 2%R]> (<["IBxz" := PyFloat 0%R]> test_models.all_ones).

(** The parameters of the tests with a rear frame of mass 3 and
    [IByy = 1e6]. *)
Definition heavy_frame : gmap string (pyval float) :=
  <["IByy" := PyFloat 1e6%float]>
    (<["mB" := PyFloat 3%float]> test_models.meijaard2007_parameters).

(** The Benchmark instance of the test, with the default colors. *)
Definition benchmark : plots.instance float :=
  {| plots.parameters := test_models.meijaard2007_parameters;
     plots.includes_rider := Some true;
     plots.body_labels := Meijaard2007ParameterSet.body_labels;
     plots.body_colors :=
       list_to_map [("B", "#1f77b4"); ("F", "#ff7f0e");
                    ("H", "#2ca02c"); ("R", "#d62728")] |}.

(** A Benchmark instance over the reals with every parameter equal to
    one. *)
Definition benchmark_ones : plots.instance R :=
  {| plots.parameters := test_models.all_ones;
     plots.includes_rider := Some true;
     plots.body_labels := Meijaard2007ParameterSet.body_labels;
     plots.body_colors :=
       list_to_map [("B", "#1f77b4"); ("F", "#ff7f0e");
                    ("H", "#2ca02c"); ("R", "#d62728")] |}.

(** A Principal instance over the reals with every parameter equal to
    one. *)
Definition principal_ones : plots.instance R :=
  {| plots.parameters := moore2019_exact;
     plots.includes_rider := None;
     plots.body_labels := Moore2019ParameterSet.body_labels;
     plots.body_colors :=
       list_to_map [("D", "#1f77b4"); ("F", "#ff7f0e"); ("H", "#2ca02c");
                    ("P", "#d62728"); ("R", "#9467bd")] |}.

(** A store with one new axes, at reference 0. *)
Definition one_axes {F} : gmap pyplot.loc (pyplot.Axes F) :=
  {[ 0 := pyplot.new_axes ]}.

(** A stand-in for the fundamental geometry, which the sources do not
    hold: four points on a line that rises by one per unit. *)
Definition four_points (_ : gmap string (pyval R)) : result (list R * list R) :=
  Ok ([0%R; 1%R; 2%R; 3%R], [0%R; 1%R; 2%R; 3%R]).

End samples.

(** ** Vocabulary of the drawings *)

(** The axes [a] with the artists [xs] added. *)
Definition drawn {F} (a : pyplot.Axes F) (xs : list (pyplot.artist F))
    : pyplot.Axes F :=
  {| pyplot.artists := pyplot.artists a ++ xs;
     pyplot.inverted := pyplot.inverted a;
     pyplot.aspect := pyplot.aspect a;
     pyplot.xlabel := pyplot.xlabel a;
     pyplot.ylabel := pyplot.ylabel a |}.

(** The axes [a] with the y axis downwards, equal scales and the labels
    of the x and z axes. *)
Definition finalized {F} (a : pyplot.Axes F) : pyplot.Axes F :=
  {| pyplot.artists := pyplot.artists a;
     pyplot.inverted := true;
     pyplot.aspect := "equal";
     pyplot.xlabel := "$x$ [m]";
     pyplot.ylabel := "$z$ [m]" |}.

(** The symbol of a mass center: two quarter wedges, a circle and the
    label of the body above and right of it. *)
Definition com_symbol {F} `{Float64 F} `{OfInt F} (center : F * F)
    (radius : F) (color label : string) : list (pyplot.artist F) :=
  [ pyplot.Wedge center radius (of_int 0) (of_int 90)
      [("color", PyStr color); ("ec", PyNone); ("alpha", PyFloat plots.half)];
    pyplot.Wedge center radius (of_int 180) (of_int 270)
      [("color", PyStr color); ("ec", PyNone); ("alpha", PyFloat plots.half)];
    pyplot.Circle center radius [("fill", PyBool false)];
    pyplot.Text (fadd center.1 radius) (fadd center.2 radius) label ].

(** The symbol [plot_body_mass_center] of a Benchmark parameter set
    draws for the body [b]: at the x and z of the mass center of the
    body, with a tenth of the wheelbase as radius, in the color of the
    body; no artist where any of them is missing. *)
Definition benchmark_com_symbol {F} `{Float64 F} `{OfInt F}
    (self : plots.instance F) (b : string) : list (pyplot.artist F) :=
  match Meijaard2007ParameterSet.form_mass_center_vector
          (plots.parameters self) b,
        plots.parameters self !! "w", plots.body_colors self !! b with
  | Ok (Arr2 1 [[x]; [y]; [z]]), Some (PyFloat w), Some c =>
      com_symbol (x, z) (fdiv w (of_int 10)) c b
  | _, _, _ => []
  end.

(** The axes [a] after a loop of plotting calls that each add the
    artists [xs b] of a body and finalize the plot. *)
Definition after_bodies {F} {B} (xs : B -> list (pyplot.artist F))
    (bodies : list B) (a : pyplot.Axes F) : pyplot.Axes F :=
  match bodies with
  | [] => a
  | _ => finalized (drawn a (concat (map xs bodies)))
  end.

(** What [_plot_geometry_from_benchmark] draws before it asks for the
    fundamental geometry: the ground line and the circles of the rear
    wheel, of radius [rR] about [(0, -rR)], and of the front wheel, of
    radius [rF] about [(w, -rF)]. *)
Definition ground_and_wheels {F} `{Float64 F} (rR rF w : F)
    : list (pyplot.artist F) :=
  [ pyplot.AxHLine f0 [("color", PyStr "black")];
    pyplot.Circle (f0, fneg rR) rR
      [("linewidth", PyInt 2); ("fill", PyBool false)];
    pyplot.Circle (w, fneg rF) rF
      [("linewidth", PyInt 2); ("fill", PyBool false)] ].

(** The line through the points of the fundamental geometry. *)
Definition fundamental_line {F} (deex deez : list F) : pyplot.artist F :=
  pyplot.Line2D deex deez None [("color", PyStr "k"); ("linewidth", PyInt 2)].

(** The dashed line of the steer axis, from the point [(x2, z2)] to the
    ground. *)
Definition steer_axis {F} `{Float64 F} (x1 z1 x2 z2 : F) : pyplot.artist F :=
  pyplot.Line2D
    [x2; plots.fsub x2 (fdiv (fmul z2 (plots.fsub x2 x1)) (fadd (fneg z1) z2))]
    [z2; f0] (Some "k--") [].

(** [a'] keeps what [a] shows: the artists of [a] come first, in their
    order, and a y axis that points downwards still does. *)
Definition extends {F} (a a' : pyplot.Axes F) : Prop :=
  pyplot.artists a `prefix_of` pyplot.artists a' /\
  (pyplot.inverted a = true -> pyplot.inverted a' = true).

(** [a'] is [a] with further artists: the direction of the y axis, the
    aspect and the labels are those of [a]. *)
Definition same_settings {F} (a a' : pyplot.Axes F) : Prop :=
  pyplot.artists a `prefix_of` pyplot.artists a' /\
  pyplot.inverted a' = pyplot.inverted a /\
  pyplot.aspect a' = pyplot.aspect a /\
  pyplot.xlabel a' = pyplot.xlabel a /\
  pyplot.ylabel a' = pyplot.ylabel a.

(** On a store where [l] holds an axes that satisfies [P], the call [m]
    changes that axes only, to one related to it by [R]; when it
    returns, the value and the axes satisfy [Q]. *)
Definition acts {F A} (R : relation (pyplot.Axes F)) (l : pyplot.loc)
    (P : pyplot.Axes F -> Prop) (m : pyplot.St F A)
    (Q : A -> pyplot.Axes F -> Prop) : Prop :=
  forall σ a, σ !! l = Some a -> P a ->
    exists r a', m σ = (r, <[l := a']> σ) /\ R a a' /\
                 forall x, r = Ok x -> Q x a'.

(** What [plot_body_principal_radii_of_gyration] draws for the radii
    [(kaa, kbb, kyy)] and the angle [alpha] of a body whose mass center
    is at [center]: the dashed circle of radius [kyy] and two dashed
    lines through the center, of half length [kbb] along the angle
    [-alpha] and of half length [kaa] along [-alpha - pi/2]. *)
Definition radii_artists {F} `{Float64 F} `{OfInt F} `{Elementary F}
    (center : F * F) (k : F * F * F * F) (color : string)
    : list (pyplot.artist F) :=
  let '(kaa, kbb, kyy, alpha) := k in
  let '(x, z) := center in
  let beta := plots.fsub (fneg alpha) (fdiv np_pi (of_int 2)) in
  [ pyplot.Circle (x, z) kyy
      [("fill", PyBool false); ("color", PyStr color);
       ("linestyle", PyStr "--")];
    pyplot.Line2D
      [plots.fsub x (fmul kbb (np_cos (fneg alpha)));
       fadd x (fmul kbb (np_cos (fneg alpha)))]
      [plots.fsub z (fmul kbb (np_sin (fneg alpha)));
       fadd z (fmul kbb (np_sin (fneg alpha)))]
      None [("color", PyStr color); ("linestyle", PyStr "--")];
    pyplot.Line2D
      [plots.fsub x (fmul kaa (np_cos beta)); fadd x (fmul kaa (np_cos beta))]
      [plots.fsub z (fmul kaa (np_sin beta)); fadd z (fmul kaa (np_sin beta))]
      None [("color", PyStr color); ("linestyle", PyStr "--")] ].

(** The ellipse of [plot_body_principal_inertia_ellipsoid] of a
    Benchmark parameter set, of width [sqrt(5/2 (-kaa² + kyy² + kbb²))]
    and height [sqrt(5/2 (kaa² + kyy² - kbb²))], turned by [-alpha] in
    degrees. *)
Definition inertia_ellipse {F} `{Float64 F} `{Numpy F} `{OfInt F}
    `{Elementary F} (center : F * F) (k : F * F * F * F) (color : string)
    : pyplot.artist F :=
  let '(kaa, kbb, kyy, alpha) := k in
  pyplot.Ellipse center
    (np_sqrt (fmul (fdiv (of_int 5) (of_int 2))
                   (fadd (fadd (fneg (np_power kaa 2)) (np_power kyy 2))
                         (np_power kbb 2))))
    (np_sqrt (fmul (fdiv (of_int 5) (of_int 2))
                   (plots.fsub (fadd (np_power kaa 2) (np_power kyy 2))
                               (np_power kbb 2))))
    [("angle", PyFloat (fneg (np_rad2deg alpha))); ("fill", PyBool false);
     ("color", PyStr color)].

(** The radii drawn for the body [b] of a Benchmark instance, at the x
    and z of its mass center and in its color, for the decomposition
    [_planar_principal_radii_of_gyration] returns; no artist where any
    of them is missing. *)
Definition benchmark_radii {F} `{Float64 F} `{Numpy F} `{OfInt F}
    `{Elementary F} (self : plots.instance F) (b : string)
    : list (pyplot.artist F) :=
  match Meijaard2007ParameterSet.form_mass_center_vector
          (plots.parameters self) b,
        Meijaard2007ParameterSet._planar_principal_radii_of_gyration
          (plots.parameters self) b,
        plots.body_colors self !! b with
  | Ok (Arr2 1 [[x]; [y]; [z]]), Ok k, Some c => radii_artists (x, z) k c
  | _, _, _ => []
  end.

(** The ellipse drawn for the body [b] of a Benchmark instance. *)
Definition benchmark_ellipse {F} `{Float64 F} `{Numpy F} `{OfInt F}
    `{Elementary F} (self : plots.instance F) (b : string)
    : list (pyplot.artist F) :=
  match Meijaard2007ParameterSet.form_mass_center_vector
          (plots.parameters self) b,
        Meijaard2007ParameterSet._planar_principal_radii_of_gyration
          (plots.parameters self) b,
        plots.body_colors self !! b with
  | Ok (Arr2 1 [[x]; [y]; [z]]), Ok k, Some c => [inertia_ellipse (x, z) k c]
  | _, _, _ => []
  end.

(** * Properties *)

(** ** Exceptions and lookups *)

Lemma bind_Ok {A B} (a : A) (k : A -> result B) : (Ok a ≫= k) = k a.
Proof. reflexivity. Qed.

Lemma bind_Err {A B} (e : exn) (k : A -> result B) : (Err e ≫= k) = Err e.
Proof. reflexivity. Qed.

Lemma bind_assoc {A B C} (m : result A) (f : A -> result B)
    (g : B -> result C) :
  ((m ≫= f) ≫= g) = (m ≫= fun a => f a ≫= g).
Proof. by destruct m. Qed.

Lemma getitem_Some {V} (d : gmap string V) k v :
  d !! k = Some v -> getitem d k = Ok v.
Proof. unfold getitem. by intros ->. Qed.

Lemma getitem_None {V} (d : gmap string V) k :
  d !! k = None -> getitem d k = Err (KeyError k).
Proof. unfold getitem. by intros ->. Qed.

(** ** Validation *)

Section Validation.
Context {F : Type}.
Implicit Types (ps : list (string * string)) (p : gmap string (pyval F)).

Lemma isinstance_float_true (v : pyval F) :
  isinstance_float v = true <-> exists x, v = PyFloat x.
Proof.
  destruct v; simpl; split; intros Hv; eauto; try discriminate;
    destruct Hv as [x Hx]; discriminate.
Qed.

Lemma check_cons k lbl ps p :
  ParameterSet._check_parameters ((k, lbl) :: ps) p =
    match p !! k with
    | None => Err (ValueError_missing k)
    | Some v => if isinstance_float v
                then ParameterSet._check_parameters ps p
                else Err (ValueError_not_valid k)
    end.
Proof. reflexivity. Qed.

Lemma check_ok_iff ps p :
  ParameterSet._check_parameters ps p = Ok tt <->
  forall k, k ∈ ps.*1 -> is_float_at p k.
Proof.
  induction ps as [|[k lbl] ps IH].
  - simpl. split; [intros _ k Hk; inversion Hk | reflexivity].
  - rewrite check_cons, fmap_cons. simpl. split.
    + intros Hc k' Hk'. destruct (p !! k) as [v|] eqn:Hpk; [|discriminate].
      destruct (isinstance_float v) eqn:Hv; [|discriminate].
      apply elem_of_cons in Hk' as [->|Hk'].
      * apply isinstance_float_true in Hv as [x ->]. by exists x.
      * by apply IH.
    + intros Hall. destruct (Hall k) as [x Hx]; [left|].
      rewrite Hx. simpl. apply IH. intros k' Hk'. apply Hall. by right.
Qed.

Lemma check_err ps p e :
  ParameterSet._check_parameters ps p = Err e ->
  exists before k after,
    ps.*1 = (before ++ k :: after)%list /\
    (forall k', k' ∈ before -> is_float_at p k') /\
    ((p !! k = None /\ e = ValueError_missing k) \/
     (exists v, p !! k = Some v /\ isinstance_float v = false /\
                e = ValueError_not_valid k)).
Proof.
  induction ps as [|[k lbl] ps IH]; [discriminate|].
  rewrite check_cons, fmap_cons. simpl.
  destruct (p !! k) as [v|] eqn:Hpk.
  - destruct (isinstance_float v) eqn:Hv.
    + intros (before & k' & after & Heq & Hbefore & Hk')%IH.
      exists (k :: before), k', after. rewrite Heq. split; [done|]. split; [|done].
      intros k'' [->|Hin]%elem_of_cons; [|by apply Hbefore].
      apply isinstance_float_true in Hv as [x ->]. by exists x.
    + intros [= <-]. exists [], k, ps.*1. split; [done|].
      split; [intros k' Hk'; inversion Hk'|]. right. by exists v.
  - intros [= <-]. exists [], k, ps.*1. split; [done|].
    split; [intros k' Hk'; inversion Hk'|]. by left.
Qed.

Lemma check_insert_other ps p k v :
  k ∉ ps.*1 ->
  ParameterSet._check_parameters ps (<[k := v]> p) =
  ParameterSet._check_parameters ps p.
Proof.
  induction ps as [|[k' lbl] ps IH]; [done|].
  rewrite fmap_cons. simpl. intros Hk.
  apply not_elem_of_cons in Hk as [Hne Hk].
  rewrite lookup_insert_ne by done. rewrite IH by done. done.
Qed.

Lemma check_delete_other ps p k :
  k ∉ ps.*1 ->
  ParameterSet._check_parameters ps (delete k p) =
  ParameterSet._check_parameters ps p.
Proof.
  induction ps as [|[k' lbl] ps IH]; [done|].
  rewrite fmap_cons. simpl. intros Hk.
  apply not_elem_of_cons in Hk as [Hne Hk].
  rewrite lookup_delete_ne by done. rewrite IH by done. done.
Qed.

(** C2: construction succeeds exactly when every key of the schema
    table is present with a float value; otherwise it raises a
    [ValueError] that names the first key of the table, in the order of
    the table, that is missing or holds a value that is no float.  An
    integer under a required key makes it fail, and a key outside the
    table never changes the outcome. *)
Theorem check_parameters_spec ps p :
  (ParameterSet.__init__ ps p = Ok tt <->
     forall k, k ∈ ps.*1 -> is_float_at p k) /\
  (forall e, ParameterSet.__init__ ps p = Err e ->
     exists before k after,
       ps.*1 = (before ++ k :: after)%list /\
       (forall k', k' ∈ before -> is_float_at p k') /\
       ((p !! k = None /\ e = ValueError_missing k) \/
        (exists v, p !! k = Some v /\ isinstance_float v = false /\
                   e = ValueError_not_valid k))) /\
  (forall k n, k ∈ ps.*1 -> p !! k = Some (PyInt n) ->
     exists e, ParameterSet.__init__ ps p = Err e) /\
  (forall k v, k ∉ ps.*1 ->
     ParameterSet.__init__ ps (<[k := v]> p) = ParameterSet.__init__ ps p).
Proof.
  unfold ParameterSet.__init__. split; [apply check_ok_iff|].
  split; [apply check_err|]. split; [|intros; by apply check_insert_other].
  intros k n Hk Hpk.
  destruct (ParameterSet._check_parameters ps p) as [[]|e] eqn:Hc; [|by exists e].
  destruct (proj1 (check_ok_iff ps p) Hc k Hk) as [x Hx]. congruence.
Qed.

End Validation.

(** ** The schema tables *)

Lemma meijaard2007_keys_NoDup : NoDup Meijaard2007ParameterSet.par_strings.*1.
Proof. compute_done. Qed.

Lemma moore2019_keys_NoDup : NoDup Moore2019ParameterSet.par_strings.*1.
Proof. compute_done. Qed.

Lemma size_of_dom {F} (p : gmap string (pyval F)) (keys : list string) :
  NoDup keys -> dom p = list_to_set keys -> size p = length keys.
Proof.
  intros Hnd Hdom. rewrite <- size_dom, Hdom. by apply size_list_to_set.
Qed.

(** ** Derived parameters *)

Section Derived.
Context {F : Type} `{Float64 F}.
Implicit Types (p : gmap string (pyval F)).

Lemma valid_lookup p k :
  ParameterSet._check_parameters Meijaard2007ParameterSet.par_strings p = Ok tt ->
  bool_decide (k ∈ Meijaard2007ParameterSet.par_strings.*1) = true ->
  is_float_at p k.
Proof.
  intros Hc Hk. apply (proj1 (check_ok_iff _ p) Hc).
  by apply bool_decide_eq_true in Hk.
Qed.

(** The derived parameters of a validated set, entry by entry. *)
Lemma calc_derived_params_valid p :
  ParameterSet._check_parameters Meijaard2007ParameterSet.par_strings p = Ok tt ->
  exists IFxx IRxx w rF rR,
    p !! "IFxx" = Some (PyFloat IFxx) /\
    p !! "IRxx" = Some (PyFloat IRxx) /\
    p !! "w" = Some (PyFloat w) /\
    p !! "rF" = Some (PyFloat rF) /\
    p !! "rR" = Some (PyFloat rR) /\
    Meijaard2007ParameterSet._calc_derived_params p =
      Ok (list_to_map
            [ ("IFxz", PyFloat f0); ("IRxz", PyFloat f0);
              ("IFzz", PyFloat IFxx); ("IRzz", PyFloat IRxx);
              ("xF", PyFloat w); ("xR", PyFloat f0);
              ("yB", PyFloat f0); ("yF", PyFloat f0);
              ("yH", PyFloat f0); ("yR", PyFloat f0);
              ("zF", PyFloat (fneg rF)); ("zR", PyFloat (fneg rR)) ]).
Proof.
  intros Hc.
  destruct (valid_lookup p "IFxx" Hc eq_refl) as [IFxx HIFxx].
  destruct (valid_lookup p "IRxx" Hc eq_refl) as [IRxx HIRxx].
  destruct (valid_lookup p "w" Hc eq_refl) as [w Hw].
  destruct (valid_lookup p "rF" Hc eq_refl) as [rF HrF].
  destruct (valid_lookup p "rR" Hc eq_refl) as [rR HrR].
  exists IFxx, IRxx, w, rF, rR. repeat (split; [assumption|]).
  unfold Meijaard2007ParameterSet._calc_derived_params, getitem.
  rewrite HIFxx, HIRxx, Hw, HrF, HrR. reflexivity.
Qed.

(** C7: on a valid Benchmark parameter set the derived parameters are
    exactly these twelve: zero cross-inertia of the wheels, their
    z-inertia equal to their x-inertia, the front wheel at the
    wheelbase and the rear wheel at zero, all four y-offsets zero, and
    the wheel centres at minus their radii. *)
Theorem calc_derived_params_spec p :
  ParameterSet._check_parameters Meijaard2007ParameterSet.par_strings p = Ok tt ->
  exists IFxx IRxx w rF rR,
    p !! "IFxx" = Some (PyFloat IFxx) /\
    p !! "IRxx" = Some (PyFloat IRxx) /\
    p !! "w" = Some (PyFloat w) /\
    p !! "rF" = Some (PyFloat rF) /\
    p !! "rR" = Some (PyFloat rR) /\
    Meijaard2007ParameterSet._calc_derived_params p =
      Ok (list_to_map
            [ ("IFxz", PyFloat f0); ("IRxz", PyFloat f0);
              ("IFzz", PyFloat IFxx); ("IRzz", PyFloat IRxx);
              ("xF", PyFloat w); ("xR", PyFloat f0);
              ("yB", PyFloat f0); ("yF", PyFloat f0);
              ("yH", PyFloat f0); ("yR", PyFloat f0);
              ("zF", PyFloat (fneg rF)); ("zR", PyFloat (fneg rR)) ]).
Proof.
  intros Hc.
  destruct (calc_derived_params_valid p Hc)
    as (IFxx & IRxx & w & rF & rR & Hentries).
  by exists IFxx, IRxx, w, rF, rR.
Qed.

End Derived.

(** The derived parameters of the parameters of the tests. *)
Lemma calc_derived_params_witness :
  exists IFxx IRxx w rF rR,
    test_models.meijaard2007_parameters !! "IFxx" = Some (PyFloat IFxx) /\
    test_models.meijaard2007_parameters !! "IRxx" = Some (PyFloat IRxx) /\
    test_models.meijaard2007_parameters !! "w" = Some (PyFloat w) /\
    test_models.meijaard2007_parameters !! "rF" = Some (PyFloat rF) /\
    test_models.meijaard2007_parameters !! "rR" = Some (PyFloat rR) /\
    Meijaard2007ParameterSet._calc_derived_params
      test_models.meijaard2007_parameters =
      Ok (list_to_map
            [ ("IFxz", PyFloat f0); ("IRxz", PyFloat f0);
              ("IFzz", PyFloat IFxx); ("IRzz", PyFloat IRxx);
              ("xF", PyFloat w); ("xR", PyFloat f0);
              ("yB", PyFloat f0); ("yF", PyFloat f0);
              ("yH", PyFloat f0); ("yR", PyFloat f0);
              ("zF", PyFloat (fneg rF)); ("zR", PyFloat (fneg rR)) ]).
Proof.
  apply (calc_derived_params_spec test_models.meijaard2007_parameters).
  vm_compute. reflexivity.
Defined.

(** ** Mass centers *)

Section MassCenters.
Context {F : Type} `{Float64 F}.
Implicit Types (p : gmap string (pyval F)) (b body : string).

Lemma valid_with_derived p :
  valid_benchmark p ->
  exists pext,
    Meijaard2007ParameterSet._calc_derived_params p = Ok pext /\
    Meijaard2007ParameterSet.with_derived p = Ok (pext ∪ p) /\
    dom pext = list_to_set ["IFxz"; "IRxz"; "IFzz"; "IRzz"; "xF"; "xR";
                            "yB"; "yF"; "yH"; "yR"; "zF"; "zR"] /\
    forall k, k ∈ dom pext -> is_float_at pext k.
Proof.
  intros Hc.
  destruct (calc_derived_params_valid p Hc)
    as (IFxx & IRxx & w & rF & rR & _ & _ & _ & _ & _ & Hd).
  eexists. split; [exact Hd|]. split.
  { unfold Meijaard2007ParameterSet.with_derived. rewrite Hd. reflexivity. }
  split.
  { rewrite dom_list_to_map_L. reflexivity. }
  intros k. rewrite dom_list_to_map_L. simpl.
  rewrite !elem_of_union, !elem_of_singleton, elem_of_empty.
  unfold is_float_at.
  intros Hk. repeat (destruct Hk as [->|Hk]; [eexists; reflexivity|]).
  destruct Hk.
Qed.

Lemma body_label_cases b :
  b ∈ Meijaard2007ParameterSet.body_labels ->
  b = "B" \/ b = "F" \/ b = "H" \/ b = "R".
Proof.
  unfold Meijaard2007ParameterSet.body_labels.
  rewrite !elem_of_cons, elem_of_nil. tauto.
Qed.

Lemma union_float p pext k :
  valid_benchmark p ->
  (forall k, k ∈ dom pext -> is_float_at pext k) ->
  k ∈ dom pext \/ k ∈ Meijaard2007ParameterSet.par_strings.*1 ->
  is_float_at (pext ∪ p) k.
Proof.
  intros Hc Hpext Hk. unfold is_float_at.
  destruct (pext !! k) as [v|] eqn:Hv.
  - destruct (Hpext k) as [x Hx]; [apply elem_of_dom; eauto|].
    exists x. apply lookup_union_Some_l. exact Hx.
  - destruct Hk as [Hk|Hk]; [apply elem_of_dom in Hk as [? ?]; congruence|].
    destruct (proj1 (check_ok_iff _ p) Hc k Hk) as [x Hx].
    exists x. rewrite lookup_union_r; done.
Qed.

(** The entries a method reads for a body of [body_labels]. *)
Lemma label_entries p b :
  valid_benchmark p ->
  b ∈ Meijaard2007ParameterSet.body_labels ->
  exists pext,
    Meijaard2007ParameterSet.with_derived p = Ok (pext ∪ p) /\
    Forall (is_float_at (pext ∪ p))
      ["x" +:+ b; "y" +:+ b; "z" +:+ b; "m" +:+ b;
       "I" +:+ b +:+ "xx"; "I" +:+ b +:+ "xz";
       "I" +:+ b +:+ "yy"; "I" +:+ b +:+ "zz"] /\
    is_float_at p ("m" +:+ b) /\
    (pext ∪ p) !! ("m" +:+ b) = p !! ("m" +:+ b).
Proof.
  intros Hc Hb.
  destruct (valid_with_derived p Hc) as (pext & _ & Hwd & Hdom & Hfl).
  exists pext. split; [exact Hwd|].
  assert (forall k,
    bool_decide (k ∈ ["IFxz"; "IRxz"; "IFzz"; "IRzz"; "xF"; "xR";
                      "yB"; "yF"; "yH"; "yR"; "zF"; "zR"]
                 ∨ k ∈ Meijaard2007ParameterSet.par_strings.*1) = true ->
    is_float_at (pext ∪ p) k) as Hentry.
  { intros k Hk. apply bool_decide_eq_true in Hk.
    apply union_float; [done..|].
    rewrite Hdom, elem_of_list_to_set. exact Hk. }
  assert (forall k,
    bool_decide (k ∈ Meijaard2007ParameterSet.par_strings.*1) = true ->
    bool_decide (k ∈ ["IFxz"; "IRxz"; "IFzz"; "IRzz"; "xF"; "xR";
                      "yB"; "yF"; "yH"; "yR"; "zF"; "zR"]) = false ->
    is_float_at p k /\ (pext ∪ p) !! k = p !! k) as Hplain.
  { intros k Hk Hnk. apply bool_decide_eq_true in Hk.
    apply bool_decide_eq_false in Hnk.
    split; [apply (proj1 (check_ok_iff _ p) Hc k Hk)|].
    apply lookup_union_r, not_elem_of_dom.
    rewrite Hdom, elem_of_list_to_set. exact Hnk. }
  apply body_label_cases in Hb as [-> | [-> | [-> | ->]]];
    (split; [repeat (apply Forall_cons; split; [by apply Hentry|]);
             apply Forall_nil_2
            |by apply Hplain]).
Qed.

Lemma form_mass_center_vector_label p b :
  valid_benchmark p ->
  b ∈ Meijaard2007ParameterSet.body_labels ->
  exists mc, body_at p b mc.
Proof.
  intros Hc Hb.
  destruct (label_entries p b Hc Hb) as (pext & Hwd & Hall & [m Hm] & _).
  apply Forall_cons in Hall as [[x Hx] Hall].
  apply Forall_cons in Hall as [[y Hy] Hall].
  apply Forall_cons in Hall as [[z Hz] _].
  exists (m, (x, y, z)). split; [exact Hm|].
  unfold Meijaard2007ParameterSet.form_mass_center_vector.
  rewrite Hwd. simpl. unfold getitem.
  rewrite Hx. simpl. rewrite Hy. simpl. rewrite Hz. reflexivity.
Qed.

(** The loop of [mass_center_of]. *)
Lemma mass_center_loop p bodies mcs :
  Forall2 (body_at p) bodies mcs ->
  for_each (fun body =>
      m ← getitem p ("m" +:+ body);
      c ← Meijaard2007ParameterSet.form_mass_center_vector p body;
      Ok (m, squeeze c)) bodies
  = Ok (map (fun mc : F * (F * F * F) =>
               (PyFloat mc.1, Arr1 [mc.2.1.1; mc.2.1.2; mc.2.2])) mcs).
Proof.
  induction 1 as [|b mc bodies mcs [Hm Hv] _ IH]; [reflexivity|].
  cbn [for_each]. rewrite (getitem_Some _ _ _ Hm), bind_Ok, Hv, bind_Ok.
  rewrite bind_Ok, IH. reflexivity.
Qed.

Lemma rows_of_vectors {A} (f : A -> list F) (l : list A) :
  for_each (fun a : ndarray F =>
              match a with Arr1 v => Ok v | _ => Err TypeError end)
           (map (fun a => Arr1 (f a)) l)
  = Ok (map f l).
Proof.
  induction l as [|c l IH]; [reflexivity|].
  cbn [map for_each]. rewrite bind_Ok, IH. reflexivity.
Qed.

Lemma np_array_of_vectors {A} (f : A -> list F) (l : list A) (n : nat) :
  l <> [] -> (forall a, length (f a) = n) ->
  np_array_of (map (fun a => Arr1 (f a)) l) = Ok (Arr2 n (map f l)).
Proof.
  intros Hl Hn. destruct l as [|a l]; [done|].
  unfold np_array_of. cbn [map].
  change (Arr1 (f a) :: map (fun a => Arr1 (f a)) l)
    with (map (fun a => Arr1 (f a)) (a :: l)).
  rewrite rows_of_vectors, bind_Ok, Hn. reflexivity.
Qed.

Lemma columns_of_positions {A} (f g h : A -> F) (l : list A) :
  columns 3 (map (fun a => [f a; g a; h a]) l)
  = [map f l; map g l; map h l].
Proof.
  induction l as [|c l IH]; [reflexivity|].
  cbn in IH |- *. injection IH as H1 H2 H3.
  rewrite H1, H2, H3. reflexivity.
Qed.

Lemma masses_as_floats {A} (f : A -> F) (l : list A) :
  for_each (as_float64 "m") (map (fun a => PyFloat (f a)) l) = Ok (map f l).
Proof.
  induction l as [|m ms IH]; [reflexivity|].
  cbn [map for_each as_float64]. rewrite bind_Ok, IH. reflexivity.
Qed.

(** Two or more bodies: the mass-weighted average, axis by axis. *)
Lemma mass_center_of_average p bodies mcs :
  2 <= length bodies ->
  Forall2 (body_at p) bodies mcs ->
  Meijaard2007ParameterSet.mass_center_of p bodies
  = Ok (Arr1 [weighted_average (map fst mcs) (map (fun mc => mc.2.1.1) mcs);
              weighted_average (map fst mcs) (map (fun mc => mc.2.1.2) mcs);
              weighted_average (map fst mcs) (map (fun mc => mc.2.2) mcs)]).
Proof.
  intros Hlen Hall.
  pose proof (mass_center_loop p bodies mcs Hall) as Hloop.
  pose proof (Forall2_length _ _ _ Hall) as Hlen'.
  assert (mcs <> []) as Hne by (destruct mcs; [simpl in Hlen'; lia|done]).
  destruct bodies as [|b1 [|b2 bodies]]; simpl in Hlen; try lia.
  unfold Meijaard2007ParameterSet.mass_center_of.
  rewrite Hloop, bind_Ok. rewrite !map_map. cbn [fst snd].
  rewrite (np_array_of_vectors
             (fun x : F * (F * F * F) => [x.2.1.1; x.2.1.2; x.2.2]) mcs 3)
    by done.
  rewrite bind_Ok. cbn [transpose].
  rewrite (columns_of_positions
             (fun x : F * (F * F * F) => x.2.1.1) (fun x => x.2.1.2)
             (fun x => x.2.2)).
  unfold Meijaard2007ParameterSet.total_com.
  rewrite (masses_as_floats (fun x : F * (F * F * F) => x.1)), bind_Ok.
  reflexivity.
Qed.

Lemma mass_center_of_empty p :
  Meijaard2007ParameterSet.mass_center_of p [] = Err AxisError.
Proof. reflexivity. Qed.

(** Without keys beyond the schema's, the entries of a label outside
    [body_labels] are missing. *)
Lemma undefined_label_entries p b :
  valid_benchmark p ->
  dom p = list_to_set Meijaard2007ParameterSet.par_strings.*1 ->
  b ∉ Meijaard2007ParameterSet.body_labels ->
  p !! ("m" +:+ b) = None /\
  exists pext,
    Meijaard2007ParameterSet.with_derived p = Ok (pext ∪ p) /\
    (pext ∪ p) !! ("x" +:+ b) = None.
Proof.
  intros Hc Hdom Hb.
  destruct (valid_with_derived p Hc) as (pext & _ & Hwd & Hdomx & _).
  split.
  - apply not_elem_of_dom. rewrite Hdom, elem_of_list_to_set.
    intros Hin. apply Hb.
    unfold Meijaard2007ParameterSet.par_strings in Hin. simpl in Hin.
    change ("m" +:+ b) with (String "m"%char b) in Hin.
    repeat (apply elem_of_cons in Hin as [Hin|Hin];
            [try discriminate Hin; injection Hin as ->; compute_done|]).
    by apply elem_of_nil in Hin.
  - exists pext. split; [exact Hwd|].
    apply not_elem_of_dom. rewrite dom_union_L, Hdomx, Hdom.
    rewrite elem_of_union, !elem_of_list_to_set.
    change ("x" +:+ b) with (String "x"%char b).
    intros [Hin|Hin]; apply Hb.
    + simpl in Hin.
      repeat (apply elem_of_cons in Hin as [Hin|Hin];
              [try discriminate Hin; injection Hin as ->; compute_done|]).
      by apply elem_of_nil in Hin.
    + unfold Meijaard2007ParameterSet.par_strings in Hin. simpl in Hin.
      repeat (apply elem_of_cons in Hin as [Hin|Hin];
              [try discriminate Hin; injection Hin as ->; compute_done|]).
      by apply elem_of_nil in Hin.
Qed.

Lemma mass_center_loop_undefined p bodies b :
  valid_benchmark p ->
  dom p = list_to_set Meijaard2007ParameterSet.par_strings.*1 ->
  b ∈ bodies -> b ∉ Meijaard2007ParameterSet.body_labels ->
  exists k,
    for_each (fun body =>
        m ← getitem p ("m" +:+ body);
        c ← Meijaard2007ParameterSet.form_mass_center_vector p body;
        Ok (m, squeeze c)) bodies
    = Err (KeyError k).
Proof.
  intros Hc Hdom Hin Hb. induction bodies as [|b' bodies IH].
  { by apply elem_of_nil in Hin. }
  cbn [for_each].
  destruct (decide (b' ∈ Meijaard2007ParameterSet.body_labels)) as [Hl|Hl].
  - destruct (form_mass_center_vector_label p b' Hc Hl) as [mc [Hm Hv]].
    rewrite (getitem_Some _ _ _ Hm), bind_Ok, Hv, !bind_Ok.
    apply elem_of_cons in Hin as [->|Hin]; [done|].
    destruct (IH Hin) as [k ->]. by exists k.
  - destruct (undefined_label_entries p b' Hc Hdom Hl) as [Hm _].
    rewrite (getitem_None _ _ Hm). by eexists.
Qed.

(** No derived parameter is a mass. *)
Lemma with_derived_mass p pd b :
  Meijaard2007ParameterSet.with_derived p = Ok pd ->
  pd !! ("m" +:+ b) = p !! ("m" +:+ b).
Proof.
  unfold Meijaard2007ParameterSet.with_derived.
  destruct (Meijaard2007ParameterSet._calc_derived_params p) as [pext|e] eqn:Hd;
    [|discriminate].
  rewrite bind_Ok. intros [= <-]. apply lookup_union_r.
  revert Hd. unfold Meijaard2007ParameterSet._calc_derived_params.
  repeat match goal with
         | |- context [getitem ?d ?k] =>
             destruct (getitem d k) as [?|?];
             [rewrite bind_Ok|rewrite bind_Err; discriminate]
         | |- context [py_neg ?v] =>
             destruct (py_neg v) as [?|?];
             [rewrite bind_Ok|rewrite bind_Err; discriminate]
         end.
  intros [= <-]. change ("m" +:+ b) with (String "m"%char b).
  by rewrite !lookup_insert_ne by discriminate.
Qed.

(** [form_mass_center_vector] raises at the first of the three position
    entries that is missing. *)
Lemma form_mass_center_vector_missing p pd b k :
  Meijaard2007ParameterSet.with_derived p = Ok pd ->
  first_missing pd ["x" +:+ b; "y" +:+ b; "z" +:+ b] = Some k ->
  Meijaard2007ParameterSet.form_mass_center_vector p b = Err (KeyError k).
Proof.
  intros Hwd. unfold Meijaard2007ParameterSet.form_mass_center_vector.
  rewrite Hwd, bind_Ok. cbn [first_missing]. unfold getitem.
  destruct (pd !! ("x" +:+ b)); [|by intros [= <-]]. rewrite bind_Ok.
  destruct (pd !! ("y" +:+ b)); [|by intros [= <-]]. rewrite bind_Ok.
  destruct (pd !! ("z" +:+ b)); [|by intros [= <-]]. discriminate.
Qed.

Lemma form_mass_center_vector_floats p pd b x y z :
  Meijaard2007ParameterSet.with_derived p = Ok pd ->
  pd !! ("x" +:+ b) = Some (PyFloat x) ->
  pd !! ("y" +:+ b) = Some (PyFloat y) ->
  pd !! ("z" +:+ b) = Some (PyFloat z) ->
  Meijaard2007ParameterSet.form_mass_center_vector p b
  = Ok (Arr2 1 [[x]; [y]; [z]]).
Proof.
  intros Hwd Hx Hy Hz.
  unfold Meijaard2007ParameterSet.form_mass_center_vector.
  rewrite Hwd, bind_Ok, (getitem_Some _ _ _ Hx), bind_Ok.
  by rewrite (getitem_Some _ _ _ Hy), bind_Ok, (getitem_Some _ _ _ Hz).
Qed.

(** The loop of [mass_center_of] raises at the first entry that is
    missing, the mass of a body before its position. *)
Lemma mass_center_loop_missing p pd good mcs b rest k :
  Meijaard2007ParameterSet.with_derived p = Ok pd ->
  Forall2 (body_at p) good mcs ->
  first_missing pd ["m" +:+ b; "x" +:+ b; "y" +:+ b; "z" +:+ b] = Some k ->
  for_each (fun body =>
      m ← getitem p ("m" +:+ body);
      c ← Meijaard2007ParameterSet.form_mass_center_vector p body;
      Ok (m, squeeze c)) (good ++ b :: rest)
  = Err (KeyError k).
Proof.
  intros Hwd Hgood Hk.
  induction Hgood as [|g mc good mcs [Hm Hv] _ IH].
  - cbn [app for_each]. cbn [first_missing] in Hk.
    rewrite (with_derived_mass p pd b Hwd) in Hk.
    destruct (p !! ("m" +:+ b)) as [m|] eqn:Hm.
    + rewrite (getitem_Some _ _ _ Hm), bind_Ok.
      by rewrite (form_mass_center_vector_missing p pd b k Hwd Hk).
    + injection Hk as <-. by rewrite (getitem_None _ _ Hm).
  - cbn [app for_each].
    rewrite (getitem_Some _ _ _ Hm), bind_Ok, Hv, !bind_Ok, IH. reflexivity.
Qed.

(** C8, amended, on a validated Benchmark parameter set: one body gives
    that body's own mass-center vector, which is returned for every
    label whose three position entries are floats and fails with the
    [KeyError] of the first of them that is missing, the mass not being
    read; two or more bodies whose masses and positions the mapping
    holds give the mass-weighted average [Σ(mᵢ·pᵢ)/Σ(mᵢ)] of the
    positions, axis by axis, and the bodies of [body_labels] are such
    bodies; two or more bodies fail with the [KeyError] of the first
    entry that is missing, the mass of a body before its position, when
    the bodies before that one are such bodies; the empty body set
    fails; and when the mapping holds no key beyond the schema's every
    call with a label outside [body_labels] fails with a [KeyError]. *)
Theorem mass_center_of_spec p :
  valid_benchmark p ->
  (forall b,
     Meijaard2007ParameterSet.mass_center_of p [b]
     = Meijaard2007ParameterSet.form_mass_center_vector p b) /\
  (forall bodies mcs,
     2 <= length bodies -> Forall2 (body_at p) bodies mcs ->
     Meijaard2007ParameterSet.mass_center_of p bodies
     = Ok (Arr1
             [weighted_average (map fst mcs) (map (fun mc => mc.2.1.1) mcs);
              weighted_average (map fst mcs) (map (fun mc => mc.2.1.2) mcs);
              weighted_average (map fst mcs) (map (fun mc => mc.2.2) mcs)])) /\
  (forall b, b ∈ Meijaard2007ParameterSet.body_labels ->
     exists mc, body_at p b mc) /\
  Meijaard2007ParameterSet.mass_center_of p [] = Err AxisError /\
  (exists pd,
     Meijaard2007ParameterSet.with_derived p = Ok pd /\
     (forall b, pd !! ("m" +:+ b) = p !! ("m" +:+ b)) /\
     (forall b x y z,
        pd !! ("x" +:+ b) = Some (PyFloat x) ->
        pd !! ("y" +:+ b) = Some (PyFloat y) ->
        pd !! ("z" +:+ b) = Some (PyFloat z) ->
        Meijaard2007ParameterSet.mass_center_of p [b]
        = Ok (Arr2 1 [[x]; [y]; [z]])) /\
     (forall b k,
        first_missing pd ["x" +:+ b; "y" +:+ b; "z" +:+ b] = Some k ->
        Meijaard2007ParameterSet.mass_center_of p [b] = Err (KeyError k)) /\
     (forall good mcs b rest k,
        1 <= length good + length rest ->
        Forall2 (body_at p) good mcs ->
        first_missing pd ["m" +:+ b; "x" +:+ b; "y" +:+ b; "z" +:+ b]
        = Some k ->
        Meijaard2007ParameterSet.mass_center_of p (good ++ b :: rest)
        = Err (KeyError k))) /\
  (dom p = list_to_set Meijaard2007ParameterSet.par_strings.*1 ->
   forall bodies b,
     b ∈ bodies -> b ∉ Meijaard2007ParameterSet.body_labels ->
     exists k, Meijaard2007ParameterSet.mass_center_of p bodies
               = Err (KeyError k)).
Proof.
  intros Hc. split; [reflexivity|].
  split; [apply mass_center_of_average|].
  split; [intros b; by apply form_mass_center_vector_label|].
  split; [reflexivity|]. split.
  - destruct (valid_with_derived p Hc) as (pext & _ & Hwd & _).
    exists (pext ∪ p). split; [exact Hwd|].
    split; [intros b; by apply with_derived_mass|].
    split; [intros b x y z; by apply form_mass_center_vector_floats|].
    split; [intros b k; by apply form_mass_center_vector_missing|].
    intros good mcs b rest k Hlen Hgood Hk.
    pose proof (mass_center_loop_missing p _ good mcs b rest k Hwd Hgood Hk)
      as Hloop.
    unfold Meijaard2007ParameterSet.mass_center_of.
    destruct good as [|g [|g' good]]; destruct rest as [|r rest];
      cbn [app] in *; try (simpl in Hlen; lia); by rewrite Hloop.
  - intros Hdom bodies b Hin Hb.
    destruct bodies as [|b1 [|b2 bodies]].
    + by apply elem_of_nil in Hin.
    + apply list_elem_of_singleton in Hin as ->.
      destruct (undefined_label_entries p b1 Hc Hdom Hb) as (_ & pext & Hwd & Hx).
      exists ("x" +:+ b1).
      unfold Meijaard2007ParameterSet.mass_center_of,
        Meijaard2007ParameterSet.form_mass_center_vector.
      rewrite Hwd, bind_Ok, (getitem_None _ _ Hx). reflexivity.
    + destruct (mass_center_loop_undefined p _ b Hc Hdom Hin Hb) as [k Hk].
      exists k. unfold Meijaard2007ParameterSet.mass_center_of.
      rewrite Hk. reflexivity.
Qed.

(** C10: on a validated Benchmark parameter set, the center of mass of
    one body of [body_labels] is a (3, 1) array and that of two or more
    of them a (3,) array. *)
Theorem mass_center_of_shapes p :
  valid_benchmark p ->
  (forall b, b ∈ Meijaard2007ParameterSet.body_labels ->
     exists com, Meijaard2007ParameterSet.mass_center_of p [b] = Ok com /\
                 Meijaard2007ParameterSet.form_mass_center_vector p b = Ok com /\
                 shape com = [3; 1]) /\
  (forall bodies,
     2 <= length bodies ->
     Forall (fun b => b ∈ Meijaard2007ParameterSet.body_labels) bodies ->
     exists com, Meijaard2007ParameterSet.mass_center_of p bodies = Ok com /\
                 shape com = [3]).
Proof.
  intros Hc. split.
  - intros b Hb. destruct (form_mass_center_vector_label p b Hc Hb) as [mc [_ Hv]].
    eexists. split; [exact Hv|]. split; [exact Hv|reflexivity].
  - intros bodies Hlen Hall.
    assert (exists mcs, Forall2 (body_at p) bodies mcs) as [mcs Hmcs].
    { clear Hlen. induction Hall as [|b bodies Hb _ [mcs IH]].
      - exists []. constructor.
      - destruct (form_mass_center_vector_label p b Hc Hb) as [mc Hmc].
        exists (mc :: mcs). by constructor. }
    rewrite (mass_center_of_average p bodies mcs Hlen Hmcs).
    eexists. split; reflexivity.
Qed.

End MassCenters.

(** Two unit masses at (0, 0, 0) and (2, 0, 0) have their center of mass
    at (1, 0, 0), in binary64. *)
Lemma mass_center_of_two_unit_masses :
  valid_benchmark test_models.two_unit_masses /\
  Meijaard2007ParameterSet.form_mass_center_vector
    test_models.two_unit_masses "B"
  = Ok (Arr2 1 [[0%float]; [0%float]; [0%float]]) /\
  Meijaard2007ParameterSet.form_mass_center_vector
    test_models.two_unit_masses "H"
  = Ok (Arr2 1 [[2%float]; [0%float]; [0%float]]) /\
  Meijaard2007ParameterSet.mass_center_of
    test_models.two_unit_masses ["B"; "H"]
  = Ok (Arr1 [1%float; 0%float; 0%float]).
Proof.
  assert (valid_benchmark test_models.two_unit_masses) as Hc
    by (vm_compute; reflexivity).
  split; [exact Hc|].
  split; [vm_compute; reflexivity|].
  split; [vm_compute; reflexivity|].
  destruct (mass_center_of_spec test_models.two_unit_masses Hc)
    as (_ & Havg & _).
  rewrite (Havg ["B"; "H"]
             [(1%float, (0%float, 0%float, 0%float));
              (1%float, (2%float, 0%float, 0%float))]).
  - vm_compute. reflexivity.
  - simpl. lia.
  - repeat constructor; vm_compute; reflexivity.
Defined.

(** C8, as stated, fails: a validated parameter set may hold extra keys,
    and with the entries of a body [Q] among them the center of mass of
    [Q], a label outside [body_labels], is returned, alone or with
    another body. *)
Lemma mass_center_of_counterexample :
  valid_benchmark test_models.with_body_Q /\
  ("Q" ∉ Meijaard2007ParameterSet.body_labels) /\
  Meijaard2007ParameterSet.mass_center_of test_models.with_body_Q ["Q"]
  = Ok (Arr2 1 [[1%float]; [0%float]; [0%float]]) /\
  is_Ok (Meijaard2007ParameterSet.mass_center_of
           test_models.with_body_Q ["Q"; "B"]) = true.
Proof.
  split; [vm_compute; reflexivity|].
  split; [compute_done|].
  split; vm_compute; reflexivity.
Qed.

(** The two shapes, on the parameters of the tests. *)
Lemma mass_center_of_shapes_witness :
  (forall b, b ∈ Meijaard2007ParameterSet.body_labels ->
     exists com,
       Meijaard2007ParameterSet.mass_center_of
         test_models.meijaard2007_parameters [b] = Ok com /\
       Meijaard2007ParameterSet.form_mass_center_vector
         test_models.meijaard2007_parameters b = Ok com /\
       shape com = [3; 1]) /\
  (forall bodies,
     2 <= length bodies ->
     Forall (fun b => b ∈ Meijaard2007ParameterSet.body_labels) bodies ->
     exists com,
       Meijaard2007ParameterSet.mass_center_of
         test_models.meijaard2007_parameters bodies = Ok com /\
       shape com = [3]).
Proof.
  apply (mass_center_of_shapes test_models.meijaard2007_parameters).
  vm_compute. reflexivity.
Defined.

(** ** Principal radii of gyration *)

#[global] Instance binary64_positive_nonzero : PositiveNonzero float.
Proof.
  split. intros m. unfold fltb, feqb, f0. simpl.
  rewrite (FloatAxioms.ltb_spec 0 m), (FloatAxioms.eqb_spec m 0).
  change (Prim2SF 0) with (S754_zero false).
  destruct (Prim2SF m) as [s|s| |s mm e]; try destruct s; cbv; congruence.
Qed.

#[global] Instance exact_positive_nonzero : PositiveNonzero R.
Proof.
  split. intros m. unfold fltb, feqb, f0. simpl.
  destruct (Rlt_dec 0 m), (Req_dec_T m 0); try done. lra.
Qed.

#[global] Instance exact_laws : OrderLaws R.
Proof.
  split; unfold finite, fltb, fleb, feqb, fdiv, f0, np_sqrt; simpl.
  - intros x y. destruct (Rlt_dec x y), (Rle_dec x y); try done. lra.
  - intros x y _ _. destruct (Rlt_dec y x), (Rle_dec x y); try done. lra.
  - intros x y m _ _. destruct (Rlt_dec 0 m) as [Hm|]; [|done].
    destruct (Rle_dec x y) as [Hxy|]; [|done]. intros _ _.
    destruct (Rle_dec (x / m) (y / m)) as [|Hn]; [done|]. exfalso. apply Hn.
    apply Rmult_le_compat_r; [|exact Hxy].
    left. by apply Rinv_0_lt_compat.
  - intros x m _. destruct (Rlt_dec 0 m) as [Hm|]; [|done].
    destruct (Rle_dec 0 x) as [Hx|]; [|done]. intros _ _.
    destruct (Rle_dec 0 (x / m)) as [|Hn]; [done|]. exfalso. apply Hn.
    apply Rmult_le_pos; [exact Hx|]. left. by apply Rinv_0_lt_compat.
  - intros x y. destruct (Rle_dec 0 x) as [Hx|]; [|done].
    destruct (Rle_dec x y) as [Hxy|]; [|done]. intros _ _.
    destruct (Rle_dec (R_sqrt.sqrt x) (R_sqrt.sqrt y)) as [|Hn]; [done|].
    exfalso. apply Hn. by apply sqrt_le_1_alt.
  - intros x. destruct (Rle_dec 0 x) as [Hx|]; [|done]. intros _.
    destruct (Rle_dec 0 (R_sqrt.sqrt x)) as [|Hn]; [done|].
    exfalso. apply Hn. apply sqrt_pos.
Qed.

(** Every real number is finite. *)
Lemma finite_exact (x : R) : finite x.
Proof.
  unfold finite, feqb, fmul, f0. simpl.
  destruct (Req_dec_T (x * 0) 0) as [|Hn]; [done|]. exfalso. apply Hn. lra.
Qed.

Section PrincipalRadii.
Context {F : Type} `{Float64 F} `{Numpy F}.
Implicit Types (p : gmap string (pyval F)) (b : string).

Lemma form_inertia_tensor_label p b :
  valid_benchmark p ->
  b ∈ Meijaard2007ParameterSet.body_labels ->
  exists pext Ixx Ixz Iyy Izz,
    Meijaard2007ParameterSet.with_derived p = Ok (pext ∪ p) /\
    (pext ∪ p) !! ("I" +:+ b +:+ "xx") = Some (PyFloat Ixx) /\
    (pext ∪ p) !! ("I" +:+ b +:+ "xz") = Some (PyFloat Ixz) /\
    (pext ∪ p) !! ("I" +:+ b +:+ "yy") = Some (PyFloat Iyy) /\
    (pext ∪ p) !! ("I" +:+ b +:+ "zz") = Some (PyFloat Izz) /\
    (pext ∪ p) !! ("m" +:+ b) = p !! ("m" +:+ b) /\
    Meijaard2007ParameterSet.form_inertia_tensor p b
    = Ok (Arr2 3 [[Ixx; f0; Ixz]; [f0; Iyy; f0]; [Ixz; f0; Izz]]).
Proof.
  intros Hc Hb.
  destruct (label_entries p b Hc Hb) as (pext & Hwd & Hall & _ & Hm).
  do 4 apply Forall_cons in Hall as [_ Hall].
  apply Forall_cons in Hall as [[Ixx Hxx] Hall].
  apply Forall_cons in Hall as [[Ixz Hxz] Hall].
  apply Forall_cons in Hall as [[Iyy Hyy] Hall].
  apply Forall_cons in Hall as [[Izz Hzz] _].
  exists pext, Ixx, Ixz, Iyy, Izz. repeat (split; [assumption|]).
  unfold Meijaard2007ParameterSet.form_inertia_tensor.
  rewrite Hwd, bind_Ok.
  rewrite (getitem_Some _ _ _ Hxx), bind_Ok, (getitem_Some _ _ _ Hxz), bind_Ok.
  rewrite (getitem_Some _ _ _ Hyy), bind_Ok, (getitem_Some _ _ _ Hzz), bind_Ok.
  reflexivity.
Qed.

Lemma delete_y_column (a b c d e f g h i : F) :
  np_delete (Arr2 3 [[a; b; c]; [d; e; f]; [g; h; i]]) 1 1
  = Ok (Arr2 2 [[a; c]; [d; f]; [g; i]]).
Proof. reflexivity. Qed.

Lemma delete_y_row (a c d f g i : F) :
  np_delete (Arr2 2 [[a; c]; [d; f]; [g; i]]) 1 0
  = Ok (Arr2 2 [[a; c]; [g; i]]).
Proof. reflexivity. Qed.

(** The run of [_planar_principal_radii_of_gyration] up to the call of
    the eigen-solver, and the result for each outcome of the solver. *)
Lemma planar_principal_radii_eig p b m :
  valid_benchmark p ->
  b ∈ Meijaard2007ParameterSet.body_labels ->
  p !! ("m" +:+ b) = Some (PyFloat m) ->
  exists pd Ixx Ixz Iyy Izz,
    Meijaard2007ParameterSet.with_derived p = Ok pd /\
    (pd !! ("I" +:+ b +:+ "xx") = Some (PyFloat Ixx) /\
     pd !! ("I" +:+ b +:+ "xz") = Some (PyFloat Ixz) /\
     pd !! ("I" +:+ b +:+ "yy") = Some (PyFloat Iyy) /\
     pd !! ("I" +:+ b +:+ "zz") = Some (PyFloat Izz)) /\
    Meijaard2007ParameterSet.form_inertia_tensor p b
    = Ok (Arr2 3 [[Ixx; f0; Ixz]; [f0; Iyy; f0]; [Ixz; f0; Izz]]) /\
    Meijaard2007ParameterSet._planar_principal_radii_of_gyration p b
    = match np_linalg_eig Ixx Ixz Ixz Izz with
      | Err e => Err e
      | Ok eig =>
          if feqb m f0 then Err ZeroDivisionError
          else Ok (decompose_planar_inertia eig Iyy m)
      end.
Proof.
  intros Hc Hb Hm.
  destruct (form_inertia_tensor_label p b Hc Hb)
    as (pext & Ixx & Ixz & Iyy & Izz & Hwd & Hxx & Hxz & Hyy & Hzz & Hmu & Ht).
  exists (pext ∪ p), Ixx, Ixz, Iyy, Izz.
  split; [exact Hwd|]. split; [done|]. split; [exact Ht|].
  assert ((pext ∪ p) !! ("m" +:+ b) = Some (PyFloat m)) as Hm'
    by (rewrite Hmu; exact Hm).
  unfold Meijaard2007ParameterSet._planar_principal_radii_of_gyration.
  rewrite Hwd, bind_Ok, Ht, bind_Ok.
  rewrite delete_y_column, bind_Ok, delete_y_row, bind_Ok. cbv beta iota.
  destruct (np_linalg_eig Ixx Ixz Ixz Izz)
    as [[[e0 e1] [[v00 v01] [v10 v11]]]|e]; [|reflexivity].
  rewrite bind_Ok.
  unfold decompose_planar_inertia, sorted_eigenpairs,
    Meijaard2007ParameterSet.argsort2.
  rewrite !(getitem_Some _ _ _ Hm'), (getitem_Some _ _ _ Hyy).
  unfold py_truediv. cbn [as_float64 mbind result_bind].
  destruct (feqb m f0); [reflexivity|].
  cbn [mbind result_bind fst snd].
  destruct (fltb e1 e0); reflexivity.
Qed.


End PrincipalRadii.


(** ** Stored state *)

Section Store.
Context {F : Type} `{Float64 F}.
Implicit Types (σ : gmap Heap.loc (Heap.object F)) (l lp self : Heap.loc).
Implicit Types (d dd : gmap string (pyval F)).

Lemma St_bind_run {A B} (m : Heap.St F A) (k : A -> Heap.St F B) σ :
  (m ≫= k) σ =
  match m σ with
  | (Ok a, σ') => k a σ'
  | (Err e, σ') => (Err e, σ')
  end.
Proof. reflexivity. Qed.

Lemma getattr_ref_run σ self lp d :
  holds σ self lp d ->
  Heap.getattr_ref self "parameters" σ = (Ok lp, σ).
Proof.
  intros (attrs & Hself & Hattr & _). unfold Heap.getattr_ref.
  rewrite Hself, Hattr. reflexivity.
Qed.

Lemma read_dict_run σ l d :
  σ !! l = Some (Heap.ODict d) -> Heap.read_dict l σ = (Ok d, σ).
Proof. unfold Heap.read_dict. by intros ->. Qed.

Lemma dict_getitem_run σ l d k :
  σ !! l = Some (Heap.ODict d) ->
  Heap.dict_getitem l k σ = (getitem d k, σ).
Proof.
  intros Hl. unfold Heap.dict_getitem.
  rewrite St_bind_run, (read_dict_run _ _ _ Hl). reflexivity.
Qed.

Lemma dict_setitem_new σ l dd k v :
  Heap.dict_setitem l k v (<[l := Heap.ODict dd]> σ)
  = (Ok tt, <[l := Heap.ODict (<[k := v]> dd)]> σ).
Proof.
  unfold Heap.dict_setitem.
  rewrite St_bind_run, (read_dict_run _ l dd) by apply lookup_insert_eq.
  unfold Heap.store. by rewrite insert_insert_eq.
Qed.

Lemma dict_getitem_old σ l dd lp d k :
  σ !! l = None -> σ !! lp = Some (Heap.ODict d) ->
  Heap.dict_getitem lp k (<[l := Heap.ODict dd]> σ)
  = (getitem d k, <[l := Heap.ODict dd]> σ).
Proof.
  intros Hl Hlp. apply dict_getitem_run.
  rewrite lookup_insert_ne; [done|]. intros ->. congruence.
Qed.

Lemma fresh_loc σ : σ !! fresh (dom σ) = None.
Proof. apply not_elem_of_dom, is_fresh. Qed.

Lemma holds_weaken σ σ' self lp d :
  holds σ self lp d -> σ ⊆ σ' -> holds σ' self lp d.
Proof.
  intros (attrs & Hself & Hattr & Hlp) Hsub. exists attrs.
  split; [by eapply lookup_weaken|]. split; [done|by eapply lookup_weaken].
Qed.

Lemma builds_Err σ l dd e :
  builds σ l (Err e) (Err e, <[l := Heap.ODict dd]> σ).
Proof. exists dd. split; [reflexivity|]. intros pext [=]. Qed.

Lemma builds_Ok σ l dd :
  builds σ l (Ok dd) (Ok l, <[l := Heap.ODict dd]> σ).
Proof. exists dd. split; [reflexivity|]. by intros pext [= ->]. Qed.

Ltac step_setitem :=
  rewrite St_bind_run, dict_setitem_new; cbv beta iota.

Ltac step_getitem Hl Hlp :=
  rewrite St_bind_run, (dict_getitem_old _ _ _ _ _ _ Hl Hlp);
  match goal with
  | |- context [getitem ?d ?k] =>
      destruct (getitem d k) as [?|?];
      [rewrite bind_Ok; cbv beta iota | rewrite bind_Err; apply builds_Err]
  end.

Ltac step_neg :=
  rewrite St_bind_run; unfold Heap.lift;
  match goal with
  | |- context [py_neg ?v] =>
      destruct (py_neg v) as [?|?];
      [rewrite bind_Ok; cbv beta iota | rewrite bind_Err; apply builds_Err]
  end.

Lemma meijaard2007_calc_derived_run σ self lp d :
  holds σ self lp d ->
  builds σ (fresh (dom σ))
    (Meijaard2007ParameterSet._calc_derived_params d)
    (Heap.Meijaard2007ParameterSet._calc_derived_params self σ).
Proof.
  intros Hh. pose proof (fresh_loc σ) as Hl.
  destruct Hh as (attrs & Hself & Hattr & Hlp).
  unfold Heap.Meijaard2007ParameterSet._calc_derived_params,
    Meijaard2007ParameterSet._calc_derived_params.
  rewrite St_bind_run, (getattr_ref_run σ self lp d) by (by exists attrs).
  cbv beta iota zeta.
  rewrite St_bind_run. unfold Heap.dict_new, Heap.alloc. cbv beta iota zeta.
  step_setitem. step_getitem Hl Hlp.
  step_setitem. step_setitem. step_getitem Hl Hlp.
  step_setitem. step_getitem Hl Hlp.
  do 6 step_setitem.
  step_getitem Hl Hlp. step_neg. step_setitem.
  step_getitem Hl Hlp. step_neg. step_setitem.
  apply builds_Ok.
Qed.

Lemma moore2019_calc_derived_run σ self lp d :
  holds σ self lp d ->
  builds σ (fresh (dom σ))
    (Moore2019ParameterSet._calc_derived_params d)
    (Heap.Moore2019ParameterSet._calc_derived_params self σ).
Proof.
  intros Hh. pose proof (fresh_loc σ) as Hl.
  destruct Hh as (attrs & Hself & Hattr & Hlp).
  unfold Heap.Moore2019ParameterSet._calc_derived_params,
    Moore2019ParameterSet._calc_derived_params.
  rewrite St_bind_run, (getattr_ref_run σ self lp d) by (by exists attrs).
  cbv beta iota zeta.
  rewrite St_bind_run. unfold Heap.dict_new, Heap.alloc. cbv beta iota zeta.
  do 8 step_setitem.
  step_getitem Hl Hlp. step_setitem.
  step_getitem Hl Hlp. step_neg. step_setitem.
  step_getitem Hl Hlp. step_neg. step_setitem.
  step_getitem Hl Hlp. step_setitem.
  step_getitem Hl Hlp. step_setitem.
  apply builds_Ok.
Qed.

(** [p = self.parameters.copy(); p.update(self._calc_derived_params())]
    leaves the copy, with the derived entries, at a reference new to the
    store, and the objects of the store as they were. *)
Lemma with_derived_run σ self lp d :
  holds σ self lp d ->
  exists r σ',
    Heap.Meijaard2007ParameterSet.with_derived self σ = (r, σ') /\
    σ ⊆ σ' /\
    match Meijaard2007ParameterSet.with_derived d with
    | Ok pd => exists l, r = Ok l /\ σ' !! l = Some (Heap.ODict pd)
    | Err e => r = Err e
    end.
Proof.
  intros Hh. unfold Heap.Meijaard2007ParameterSet.with_derived,
    Meijaard2007ParameterSet.with_derived.
  rewrite St_bind_run, (getattr_ref_run σ self lp d Hh). cbv beta iota.
  assert (σ !! lp = Some (Heap.ODict d)) as Hlp by (by destruct Hh as (? & ? & ? & ?)).
  rewrite St_bind_run. unfold Heap.dict_copy.
  rewrite St_bind_run, (read_dict_run _ _ _ Hlp). cbv beta iota.
  unfold Heap.alloc. cbv beta iota zeta.
  set (l1 := fresh (dom σ)). pose proof (fresh_loc σ) as Hl1. fold l1 in Hl1.
  set (σ1 := <[l1 := Heap.ODict d]> σ).
  assert (σ ⊆ σ1) as Hsub1 by (by apply insert_subseteq).
  pose proof (holds_weaken _ _ _ _ _ Hh Hsub1) as Hh1.
  destruct (meijaard2007_calc_derived_run σ1 self lp d Hh1) as (dd & Hrun & Hdd).
  set (l2 := fresh (dom σ1)) in *. pose proof (fresh_loc σ1) as Hl2. fold l2 in Hl2.
  rewrite St_bind_run, Hrun.
  assert (σ1 ⊆ <[l2 := Heap.ODict dd]> σ1) as Hsub2 by (by apply insert_subseteq).
  destruct (Meijaard2007ParameterSet._calc_derived_params d) as [pext|e].
  - rewrite (Hdd pext eq_refl) in *. cbv beta iota.
    assert (l1 <> l2) as Hne.
    { intros Heq. rewrite <- Heq in Hl2. unfold σ1 in Hl2.
      by rewrite lookup_insert_eq in Hl2. }
    rewrite St_bind_run. unfold Heap.dict_update.
    rewrite St_bind_run, (read_dict_run _ l2 pext) by apply lookup_insert_eq.
    cbv beta iota.
    rewrite St_bind_run, (read_dict_run _ l1 d).
    2:{ rewrite lookup_insert_ne by done. apply lookup_insert_eq. }
    cbv beta iota. unfold Heap.store. cbv beta iota.
    eexists _, _. split; [reflexivity|]. split.
    + apply insert_subseteq_r; [done|]. by etrans.
    + rewrite bind_Ok. exists l1. split; [done|]. apply lookup_insert_eq.
  - cbv beta iota. eexists _, _. split; [reflexivity|].
    split; [by etrans|]. by rewrite bind_Err.
Qed.

Lemma refines_bind {A B} (m : Heap.St F A) (k : A -> Heap.St F B)
    (r : result A) (g : A -> result B) σ :
  refines m σ r ->
  (forall a σ', r = Ok a -> σ ⊆ σ' -> refines (k a) σ' (g a)) ->
  refines (m ≫= k) σ (r ≫= g).
Proof.
  intros (σ1 & Hm & Hsub) Hk. unfold refines. rewrite St_bind_run, Hm.
  destruct r as [a|e].
  - destruct (Hk a σ1 eq_refl Hsub) as (σ2 & Hka & Hsub2).
    exists σ2. split; [by rewrite bind_Ok|]. by etrans.
  - exists σ1. by rewrite bind_Err.
Qed.

Lemma refines_lift {A} (r : result A) σ : refines (Heap.lift r) σ r.
Proof. by exists σ. Qed.

Lemma refines_ret {A} (a : A) σ : refines (mret a) σ (Ok a).
Proof. by exists σ. Qed.

Lemma refines_getitem σ l d k :
  σ !! l = Some (Heap.ODict d) ->
  refines (Heap.dict_getitem l k) σ (getitem d k).
Proof. intros Hl. exists σ. by rewrite (dict_getitem_run _ _ _ _ Hl). Qed.

Lemma refines_getattr {A} (k : Heap.loc -> Heap.St F A) (r : result A)
    σ self lp d :
  holds σ self lp d ->
  refines (k lp) σ r ->
  refines (Heap.getattr_ref self "parameters" ≫= k) σ r.
Proof.
  intros Hh Hk. unfold refines.
  by rewrite St_bind_run, (getattr_ref_run σ self lp d Hh).
Qed.

Lemma refines_with_derived {A} (k : Heap.loc -> Heap.St F A)
    (g : gmap string (pyval F) -> result A) σ self lp d :
  holds σ self lp d ->
  (forall l pd σ', σ ⊆ σ' -> σ' !! l = Some (Heap.ODict pd) ->
     refines (k l) σ' (g pd)) ->
  refines (Heap.Meijaard2007ParameterSet.with_derived self ≫= k) σ
          (Meijaard2007ParameterSet.with_derived d ≫= g).
Proof.
  intros Hh Hk.
  destruct (with_derived_run σ self lp d Hh) as (r & σ1 & Hrun & Hsub & Hr).
  unfold refines. rewrite St_bind_run, Hrun.
  destruct (Meijaard2007ParameterSet.with_derived d) as [pd|e].
  - destruct Hr as (l & -> & Hl).
    destruct (Hk l pd σ1 Hsub Hl) as (σ2 & Hka & Hsub2).
    exists σ2. split; [by rewrite bind_Ok|]. by etrans.
  - subst r. exists σ1. by rewrite bind_Err.
Qed.

Lemma form_mass_center_vector_run σ self lp d body :
  holds σ self lp d ->
  refines (Heap.Meijaard2007ParameterSet.form_mass_center_vector self body) σ
          (Meijaard2007ParameterSet.form_mass_center_vector d body).
Proof.
  intros Hh.
  unfold Heap.Meijaard2007ParameterSet.form_mass_center_vector,
    Meijaard2007ParameterSet.form_mass_center_vector.
  apply (refines_with_derived _ _ σ self lp d Hh). intros l pd σ1 Hsub Hl.
  eapply refines_bind; [by apply refines_getitem|]. intros x σ2 _ Hsub2.
  eapply refines_bind;
    [apply refines_getitem; by eapply lookup_weaken|]. intros y σ3 _ Hsub3.
  eapply refines_bind;
    [apply refines_getitem; eapply lookup_weaken; [exact Hl|by etrans]|].
  intros z σ4 _ Hsub4.
  eapply refines_bind; [apply refines_lift|]. intros x' σ5 _ _.
  eapply refines_bind; [apply refines_lift|]. intros y' σ6 _ _.
  eapply refines_bind; [apply refines_lift|]. intros z' σ7 _ _.
  apply refines_ret.
Qed.

Lemma mass_center_of_loop_run σ self lp d bodies :
  holds σ self lp d ->
  refines (Heap.Meijaard2007ParameterSet.mass_center_of_loop self bodies) σ
    (for_each (fun body =>
       m ← getitem d ("m" +:+ body);
       c ← Meijaard2007ParameterSet.form_mass_center_vector d body;
       Ok (m, squeeze c)) bodies).
Proof.
  revert σ. induction bodies as [|body bodies IH]; intros σ Hh.
  { apply refines_ret. }
  cbn [Heap.Meijaard2007ParameterSet.mass_center_of_loop for_each].
  rewrite !bind_assoc.
  apply (refines_getattr _ _ σ self lp d Hh).
  eapply refines_bind.
  { apply refines_getitem. by destruct Hh as (? & ? & ? & ?). }
  intros m σ1 _ Hsub1. rewrite bind_assoc.
  eapply refines_bind.
  { apply (form_mass_center_vector_run _ self lp d). by eapply holds_weaken. }
  intros c σ2 _ Hsub2. rewrite bind_Ok.
  eapply refines_bind.
  { apply IH. eapply holds_weaken; [exact Hh|by etrans]. }
  intros mcs σ3 _ _. apply refines_ret.
Qed.

Lemma mass_center_of_run σ self lp d bodies :
  holds σ self lp d ->
  refines (Heap.Meijaard2007ParameterSet.mass_center_of self bodies) σ
          (Meijaard2007ParameterSet.mass_center_of d bodies).
Proof.
  intros Hh.
  assert (refines
    (mcs ← Heap.Meijaard2007ParameterSet.mass_center_of_loop self bodies;
     let masses := map fst mcs in
     coordinates ← Heap.lift (np_array_of (map snd mcs));
     let coordinates := transpose coordinates in
     '(mass, com) ← Heap.lift (Meijaard2007ParameterSet.total_com
                                 coordinates masses);
     mret com) σ
    (mcs ← for_each (fun body =>
         m ← getitem d ("m" +:+ body);
         c ← Meijaard2007ParameterSet.form_mass_center_vector d body;
         Ok (m, squeeze c)) bodies;
     let masses := map fst mcs in
     coordinates ← np_array_of (map snd mcs);
     let coordinates := transpose coordinates in
     '(mass, com) ← Meijaard2007ParameterSet.total_com coordinates masses;
     Ok com)) as Helse.
  { eapply refines_bind; [by apply (mass_center_of_loop_run σ self lp d)|].
    intros mcs σ1 _ _. cbv zeta.
    eapply refines_bind; [apply refines_lift|]. intros cs σ2 _ _.
    eapply refines_bind; [apply refines_lift|]. intros [mass com] σ3 _ _.
    apply refines_ret. }
  destruct bodies as [|b1 [|b2 bodies]]; [exact Helse| |exact Helse].
  by apply (form_mass_center_vector_run _ self lp d).
Qed.

Lemma form_inertia_tensor_run σ self lp d body :
  holds σ self lp d ->
  refines (Heap.Meijaard2007ParameterSet.form_inertia_tensor self body) σ
          (Meijaard2007ParameterSet.form_inertia_tensor d body).
Proof.
  intros Hh.
  unfold Heap.Meijaard2007ParameterSet.form_inertia_tensor,
    Meijaard2007ParameterSet.form_inertia_tensor.
  apply (refines_with_derived _ _ σ self lp d Hh). intros l pd σ1 Hsub Hl.
  eapply refines_bind; [by apply refines_getitem|]. intros Ixx σ2 _ Hsub2.
  eapply refines_bind;
    [apply refines_getitem; by eapply lookup_weaken|]. intros Ixz σ3 _ Hsub3.
  assert (σ3 !! l = Some (Heap.ODict pd)) as Hl3
    by (eapply lookup_weaken; [exact Hl|by etrans]).
  eapply refines_bind; [by apply refines_getitem|]. intros Iyy σ4 _ Hsub4.
  eapply refines_bind;
    [apply refines_getitem; by eapply lookup_weaken|]. intros Izz σ5 _ _.
  do 4 (eapply refines_bind; [apply refines_lift|]; intros ? ? _ _).
  apply refines_ret.
Qed.

End Store.

Section StoreNumpy.
Context {F : Type} `{Float64 F} `{Numpy F}.
Implicit Types (σ : gmap Heap.loc (Heap.object F)) (l lp self : Heap.loc).
Implicit Types (d : gmap string (pyval F)).

Lemma planar_principal_radii_run σ self lp d body :
  holds σ self lp d ->
  refines
    (Heap.Meijaard2007ParameterSet._planar_principal_radii_of_gyration
       self body) σ
    (Meijaard2007ParameterSet._planar_principal_radii_of_gyration d body).
Proof.
  intros Hh.
  unfold Heap.Meijaard2007ParameterSet._planar_principal_radii_of_gyration,
    Meijaard2007ParameterSet._planar_principal_radii_of_gyration.
  apply (refines_with_derived _ _ σ self lp d Hh). intros l pd σ1 Hsub Hl.
  eapply refines_bind.
  { apply (form_inertia_tensor_run _ self lp d). by eapply holds_weaken. }
  intros IH σ2 _ Hsub2.
  assert (σ2 !! l = Some (Heap.ODict pd)) as Hl2 by (by eapply lookup_weaken).
  clear Hl Hsub Hsub2 σ1.
  eapply refines_bind; [apply refines_lift|]. intros IH' σ3 _ Hsub3.
  eapply refines_bind; [apply refines_lift|]. intros IHxz σ4 _ Hsub4.
  eapply refines_bind; [apply refines_lift|]. intros [evals evecs] σ5 _ Hsub5.
  cbv zeta.
  assert (σ5 !! l = Some (Heap.ODict pd)) as Hl5.
  { eapply lookup_weaken; [exact Hl2|]. etrans; [exact Hsub3|]. by etrans. }
  clear Hl2 Hsub3 Hsub4 Hsub5 σ2 σ3 σ4.
  eapply refines_bind; [by apply refines_getitem|]. intros m1 σ6 _ Hsub6.
  eapply refines_bind; [apply refines_lift|]. intros m1' σ7 _ Hsub7.
  assert (σ7 !! l = Some (Heap.ODict pd)) as Hl7
    by (eapply lookup_weaken; [exact Hl5|by etrans]).
  clear Hl5 Hsub6 Hsub7 σ5 σ6.
  eapply refines_bind; [by apply refines_getitem|]. intros m2 σ8 _ Hsub8.
  eapply refines_bind; [apply refines_lift|]. intros m2' σ9 _ Hsub9.
  assert (σ9 !! l = Some (Heap.ODict pd)) as Hl9
    by (eapply lookup_weaken; [exact Hl7|by etrans]).
  clear Hl7 Hsub8 Hsub9 σ7 σ8.
  eapply refines_bind; [by apply refines_getitem|]. intros Iyy σ10 _ Hsub10.
  eapply refines_bind;
    [apply refines_getitem; by eapply lookup_weaken|]. intros m3 σ11 _ _.
  do 3 (eapply refines_bind; [apply refines_lift|]; intros ? ? _ _).
  apply refines_ret.
Qed.

Lemma call_query_run σ self lp d q :
  holds σ self lp d ->
  refines (call_query q self) σ (query_of q d).
Proof.
  intros Hh. destruct q as [body|bodies|body|body|]; unfold call_query, query_of.
  - eapply refines_bind; [by apply (form_mass_center_vector_run σ self lp d)|].
    intros; apply refines_ret.
  - eapply refines_bind; [by apply (mass_center_of_run σ self lp d)|].
    intros; apply refines_ret.
  - eapply refines_bind; [by apply (form_inertia_tensor_run σ self lp d)|].
    intros; apply refines_ret.
  - eapply refines_bind; [by apply (planar_principal_radii_run σ self lp d)|].
    intros; apply refines_ret.
  - destruct (meijaard2007_calc_derived_run σ self lp d Hh) as (dd & Hrun & Hdd).
    pose proof (fresh_loc σ) as Hl. unfold refines.
    rewrite St_bind_run, Hrun.
    destruct (Meijaard2007ParameterSet._calc_derived_params d) as [pext|e].
    + rewrite (Hdd pext eq_refl).
      rewrite St_bind_run, (read_dict_run _ _ pext) by apply lookup_insert_eq.
      eexists. split; [reflexivity|]. by apply insert_subseteq.
    + eexists. split; [reflexivity|]. by apply insert_subseteq.
Qed.

Lemma call_moore2019_derived_run σ self lp d :
  holds σ self lp d ->
  refines (call_moore2019_derived self) σ
          (Moore2019ParameterSet._calc_derived_params d).
Proof.
  intros Hh.
  destruct (moore2019_calc_derived_run σ self lp d Hh) as (dd & Hrun & Hdd).
  pose proof (fresh_loc σ) as Hl. unfold refines, call_moore2019_derived.
  rewrite St_bind_run, Hrun.
  destruct (Moore2019ParameterSet._calc_derived_params d) as [pext|e].
  - rewrite (Hdd pext eq_refl).
    rewrite (read_dict_run _ _ pext) by apply lookup_insert_eq.
    eexists. split; [reflexivity|]. by apply insert_subseteq.
  - eexists. split; [reflexivity|]. by apply insert_subseteq.
Qed.

(** A call of the store that refines a function of the stored dictionary
    can be repeated with the same result, and the instance and its
    dictionary stay what they were. *)
Lemma refines_twice {A} (m : Heap.St F A) (g : result A) σ self lp d :
  holds σ self lp d ->
  (forall σ, holds σ self lp d -> refines m σ g) ->
  exists σ',
    m σ = (g, σ') /\ σ ⊆ σ' /\
    σ' !! self = σ !! self /\ σ' !! lp = σ !! lp /\
    (m σ').1 = g.
Proof.
  intros Hh Hm. destruct (Hm σ Hh) as (σ1 & Hrun & Hsub).
  exists σ1. split; [exact Hrun|]. split; [exact Hsub|].
  destruct Hh as (attrs & Hself & Hattr & Hlp).
  split; [rewrite Hself; by eapply lookup_weaken|].
  split; [rewrite Hlp; by eapply lookup_weaken|].
  destruct (Hm σ1) as (σ2 & Hrun2 & _).
  { apply (holds_weaken σ); [by exists attrs|done]. }
  by rewrite Hrun2.
Qed.

(** C9: a query on a parameter set returns what the function of the
    stored dictionary returns; every object of the store, and so the
    attributes of the instance and the entries of its dictionary, is
    after the call what it was before, the call only adding the copies
    and the new dictionaries it built; and the same query called again
    returns the same result.  The queries are the mass-center vector,
    the center of mass, the inertia tensor, the principal radii and the
    derived parameters of a Benchmark set and the derived parameters of a
    Principal set. *)
Theorem queries_leave_stored_state σ self lp d :
  holds σ self lp d ->
  (forall q, exists σ',
     call_query q self σ = (query_of q d, σ') /\ σ ⊆ σ' /\
     σ' !! self = σ !! self /\ σ' !! lp = σ !! lp /\
     (call_query q self σ').1 = query_of q d) /\
  (exists σ',
     call_moore2019_derived self σ
     = (Moore2019ParameterSet._calc_derived_params d, σ') /\ σ ⊆ σ' /\
     σ' !! self = σ !! self /\ σ' !! lp = σ !! lp /\
     (call_moore2019_derived self σ').1
     = Moore2019ParameterSet._calc_derived_params d).
Proof.
  intros Hh. split.
  - intros q. apply (refines_twice _ _ σ self lp d Hh).
    intros σ0 Hh0. by apply (call_query_run σ0 self lp d).
  - apply (refines_twice _ _ σ self lp d Hh).
    intros σ0 Hh0. by apply (call_moore2019_derived_run σ0 self lp d).
Qed.

End StoreNumpy.

(** The queries on the instance of [test_models.store]. *)
Lemma queries_leave_stored_state_witness :
  (forall q, exists σ',
     call_query q 1 test_models.store
     = (query_of q test_models.all_ones, σ') /\
     test_models.store ⊆ σ' /\
     σ' !! 1 = test_models.store !! 1 /\
     σ' !! 0 = test_models.store !! 0 /\
     (call_query q 1 σ').1 = query_of q test_models.all_ones) /\
  (exists σ',
     call_moore2019_derived 1 test_models.store
     = (Moore2019ParameterSet._calc_derived_params test_models.all_ones, σ') /\
     test_models.store ⊆ σ' /\
     σ' !! 1 = test_models.store !! 1 /\
     σ' !! 0 = test_models.store !! 0 /\
     (call_moore2019_derived 1 σ').1
     = Moore2019ParameterSet._calc_derived_params test_models.all_ones).
Proof.
  apply (queries_leave_stored_state test_models.store 1 0 test_models.all_ones).
  eexists. split; [reflexivity|]. split; reflexivity.
Defined.

(** ** The linearised model *)

Section ModelProperties.
Context {F : Type} `{Float64 F}.
Variable closed_form : gmap string (pyval F)
                       -> Meijaard2007Model.quad (Meijaard2007Model.mat2 F).
Variable eig4 : list (list F)
                -> option (Meijaard2007Model.quad (F * F)
                           * Meijaard2007Model.quad (Meijaard2007Model.quad (F * F))).
Implicit Types (p : gmap string (pyval F)).
Implicit Types (ov : gmap string (Meijaard2007Model.override F)).

Lemma for_each_err {A B} (f : A -> result B) (l : list A) e :
  for_each f l = Err e -> exists x, x ∈ l /\ f x = Err e.
Proof.
  induction l as [|x l IH]; [discriminate|]. cbn [for_each].
  destruct (f x) as [y|e'] eqn:Hfx.
  - rewrite bind_Ok. destruct (for_each f l) as [ys|e'']; [discriminate|].
    rewrite bind_Err. intros [= ->]. destruct (IH eq_refl) as (x' & Hin & Hx').
    exists x'. split; [by right|done].
  - rewrite bind_Err. intros [= ->]. exists x. split; [by left|done].
Qed.

Lemma for_each_ok {A B} (f : A -> result B) (l : list A) :
  (forall x, x ∈ l -> exists y, f x = Ok y) ->
  exists ys, for_each f l = Ok ys /\ Forall2 (fun x y => f x = Ok y) l ys.
Proof.
  induction l as [|x l IH]; intros Hall.
  { exists []. split; [reflexivity|constructor]. }
  destruct (Hall x) as [y Hy]; [by left|].
  destruct IH as (ys & Hys & Hall2); [intros x' Hx'; apply Hall; by right|].
  exists (y :: ys). cbn [for_each]. rewrite Hy, bind_Ok, Hys, bind_Ok.
  split; [reflexivity|by constructor].
Qed.

Lemma calc_derived_not_conflict p e :
  Meijaard2007ParameterSet._calc_derived_params p = Err e ->
  e <> SweepConflictError.
Proof.
  unfold Meijaard2007ParameterSet._calc_derived_params, getitem.
  intros Hc ->.
  repeat match type of Hc with
         | context [match ?d !! ?k with _ => _ end] =>
             destruct (d !! k); cbn [mbind result_bind] in Hc;
             [|discriminate Hc]
         | context [py_neg ?v] =>
             destruct v; cbn [py_neg mbind result_bind] in Hc;
             try discriminate Hc
         end.
Qed.

Lemma canonical_at_not_conflict p e :
  Meijaard2007Model.canonical_at closed_form p = Err e ->
  e <> SweepConflictError.
Proof.
  unfold Meijaard2007Model.canonical_at.
  destruct (Meijaard2007ParameterSet._calc_derived_params p) as [pext|e'] eqn:Hd;
    [discriminate|].
  rewrite bind_Err. intros [= <-]. by eapply calc_derived_not_conflict.
Qed.

Lemma state_space_at_not_conflict p e :
  Meijaard2007Model.state_space_at closed_form p = Err e ->
  e <> SweepConflictError.
Proof.
  unfold Meijaard2007Model.state_space_at.
  destruct (Meijaard2007Model.canonical_at closed_form p)
    as [[[[M C1] K0] K2]|e'] eqn:Hc.
  - rewrite bind_Ok. unfold getitem.
    destruct (p !! "v") as [v|]; [|by intros [= <-]].
    rewrite bind_Ok. destruct v; cbn [as_float64]; try by intros [= <-].
    rewrite bind_Ok. unfold Meijaard2007Model.inv2.
    destruct (feqb _ _); [by intros [= <-]|discriminate].
  - rewrite bind_Err. intros [= <-]. by eapply canonical_at_not_conflict.
Qed.

Lemma eigen_at_not_conflict p e :
  Meijaard2007Model.eigen_at closed_form eig4 p = Err e ->
  e <> SweepConflictError.
Proof.
  unfold Meijaard2007Model.eigen_at.
  destruct (Meijaard2007Model.state_space_at closed_form p) as [[A B]|e'] eqn:Hs.
  - rewrite bind_Ok. destruct (eig4 A) as [[evals evecs]|];
      [discriminate|by intros [= <-]].
  - rewrite bind_Err. intros [= <-]. by eapply state_space_at_not_conflict.
Qed.

Lemma samples_conflict p ov :
  2 <= size (Meijaard2007Model.vectors ov) ->
  Meijaard2007Model.samples p ov = Err SweepConflictError.
Proof.
  rewrite <- length_map_to_list. unfold Meijaard2007Model.samples.
  destruct (map_to_list (Meijaard2007Model.vectors ov)) as [|[k xs] [|kv l]];
    simpl; intros Hlen; try lia. reflexivity.
Qed.

Lemma samples_none p ov :
  Meijaard2007Model.vectors ov = ∅ ->
  Meijaard2007Model.samples p ov
  = Ok (Meijaard2007Model.Single (Meijaard2007Model.scalars ov ∪ p)).
Proof.
  intros Hv. unfold Meijaard2007Model.samples.
  rewrite Hv, map_to_list_empty. reflexivity.
Qed.

Lemma samples_one p ov k xs :
  Meijaard2007Model.vectors ov = {[k := xs]} ->
  Meijaard2007Model.samples p ov
  = Ok (Meijaard2007Model.Batch
          (map (fun x => <[k := PyFloat x]> (Meijaard2007Model.scalars ov ∪ p))
               xs)).
Proof.
  intros Hv. unfold Meijaard2007Model.samples.
  rewrite Hv, map_to_list_singleton. reflexivity.
Qed.

Lemma samples_at_most_one p ov :
  size (Meijaard2007Model.vectors ov) <= 1 ->
  exists sw, Meijaard2007Model.samples p ov = Ok sw.
Proof.
  rewrite <- length_map_to_list. unfold Meijaard2007Model.samples.
  destruct (map_to_list (Meijaard2007Model.vectors ov)) as [|[k xs] [|kv l]];
    simpl; intros Hlen; try lia; eauto.
Qed.

Lemma over_sweep_conflict {A} (f : gmap string (pyval F) -> result A) p ov :
  2 <= size (Meijaard2007Model.vectors ov) ->
  Meijaard2007Model.over_sweep f p ov = Err SweepConflictError.
Proof.
  intros Hv. unfold Meijaard2007Model.over_sweep.
  by rewrite (samples_conflict p ov Hv).
Qed.

Lemma over_sweep_not_conflict {A} (f : gmap string (pyval F) -> result A) p ov :
  (forall q e, f q = Err e -> e <> SweepConflictError) ->
  size (Meijaard2007Model.vectors ov) <= 1 ->
  Meijaard2007Model.over_sweep f p ov <> Err SweepConflictError.
Proof.
  intros Hf Hv. unfold Meijaard2007Model.over_sweep.
  destruct (samples_at_most_one p ov Hv) as [[q|qs] ->]; rewrite bind_Ok.
  - destruct (f q) as [a|e] eqn:Hq; [discriminate|].
    rewrite bind_Err. intros [= ->]. by eapply Hf.
  - destruct (for_each f qs) as [l|e] eqn:Hq; [discriminate|].
    rewrite bind_Err. intros [= ->].
    apply for_each_err in Hq as (q & _ & Hq). by eapply Hf.
Qed.


Lemma over_sweep_none {A} (f : gmap string (pyval F) -> result A) p ov :
  Meijaard2007Model.vectors ov = ∅ ->
  Meijaard2007Model.over_sweep f p ov
  = (a ← f (Meijaard2007Model.scalars ov ∪ p); Ok (Meijaard2007Model.Single a)).
Proof.
  intros Hv. unfold Meijaard2007Model.over_sweep.
  by rewrite (samples_none p ov Hv).
Qed.

Lemma over_sweep_one {A} (f : gmap string (pyval F) -> result A) p ov k xs :
  Meijaard2007Model.vectors ov = {[k := xs]} ->
  Meijaard2007Model.over_sweep f p ov
  = (l ← for_each f
           (map (fun x => <[k := PyFloat x]> (Meijaard2007Model.scalars ov ∪ p))
                xs);
     Ok (Meijaard2007Model.Batch l)).
Proof.
  intros Hv. unfold Meijaard2007Model.over_sweep.
  by rewrite (samples_one p ov k xs Hv).
Qed.

(** The sample of a sweep is the mapping of the call in which the swept
    parameter is overridden by that scalar. *)
Lemma over_sweep_sample {A} (f : gmap string (pyval F) -> result A)
    p ov k xs x :
  Meijaard2007Model.vectors ov = {[k := xs]} ->
  Meijaard2007Model.over_sweep f p (<[k := Meijaard2007Model.Scalar x]> ov)
  = (a ← f (<[k := PyFloat x]> (Meijaard2007Model.scalars ov ∪ p));
     Ok (Meijaard2007Model.Single a)).
Proof.
  intros Hv. rewrite over_sweep_none.
  - unfold Meijaard2007Model.scalars.
    rewrite (omap_insert_Some _ _ _ _ (PyFloat x)) by done.
    by rewrite insert_union_l.
  - unfold Meijaard2007Model.vectors in *.
    rewrite omap_insert_None by done. rewrite Hv. apply delete_singleton_eq.
Qed.

Lemma map_lookup {A B} (f : A -> B) (l : list A) i :
  map f l !! i = f <$> l !! i.
Proof. apply list_lookup_fmap. Qed.

Lemma valid_merged p ov :
  valid_benchmark p -> valid_benchmark (Meijaard2007Model.scalars ov ∪ p).
Proof.
  unfold valid_benchmark. rewrite !check_ok_iff. intros Hp k Hk.
  destruct (Hp k Hk) as [x Hx]. unfold is_float_at.
  destruct (Meijaard2007Model.scalars ov !! k) as [v|] eqn:Hs.
  - pose proof Hs as Hs'.
    unfold Meijaard2007Model.scalars in Hs'. rewrite lookup_omap in Hs'.
    destruct (ov !! k) as [[y|ys]|]; try discriminate.
    injection Hs' as <-. exists y. by apply lookup_union_Some_l.
  - exists x. by rewrite lookup_union_r.
Qed.

Lemma valid_insert p k x :
  valid_benchmark p -> valid_benchmark (<[k := PyFloat x]> p).
Proof.
  unfold valid_benchmark. rewrite !check_ok_iff. intros Hp k' Hk'.
  destruct (decide (k = k')) as [->|Hne].
  - exists x. apply lookup_insert_eq.
  - destruct (Hp k' Hk') as [y Hy]. exists y. by rewrite lookup_insert_ne.
Qed.

Lemma canonical_at_valid p :
  valid_benchmark p ->
  exists ms, Meijaard2007Model.canonical_at closed_form p = Ok ms.
Proof.
  intros Hc.
  destruct (calc_derived_params_valid p Hc)
    as (? & ? & ? & ? & ? & _ & _ & _ & _ & _ & Hd).
  unfold Meijaard2007Model.canonical_at. rewrite Hd. by eexists.
Qed.

Lemma state_space_at_valid p :
  valid_benchmark p -> nonsingular closed_form p ->
  exists A B,
    Meijaard2007Model.state_space_at closed_form p = Ok (A, B) /\
    length A = 4 /\ length B = 4.
Proof.
  intros Hc ([[[M C1] K0] K2] & Minv & Hms & Hinv).
  destruct (valid_lookup p "v" Hc eq_refl) as [v Hv].
  unfold Meijaard2007Model.state_space_at.
  rewrite Hms, bind_Ok, (getitem_Some _ _ _ Hv), bind_Ok.
  cbn [as_float64]. rewrite bind_Ok. cbn [fst] in Hinv.
  rewrite Hinv, bind_Ok. eexists _, _. split; [reflexivity|]. by split.
Qed.

Lemma eigen_at_valid p :
  valid_benchmark p -> nonsingular closed_form p ->
  converges closed_form eig4 p ->
  exists evals evecs,
    Meijaard2007Model.eigen_at closed_form eig4 p = Ok (evals, evecs) /\
    length evals = 4 /\ length evecs = 4.
Proof.
  intros Hc Hn Hcv.
  destruct (state_space_at_valid p Hc Hn) as (A & B & Hs & _).
  destruct (Hcv A B Hs) as [[[[[e0 e1] e2] e3] [[[v0 v1] v2] v3]] He].
  unfold Meijaard2007Model.eigen_at. rewrite Hs, bind_Ok, He.
  eexists _, _. split; [reflexivity|]. by split.
Qed.

(** Whatever a sample of a valid set fails with is a numeric error. *)
Lemma state_space_at_singular p :
  valid_benchmark p -> ~ nonsingular closed_form p ->
  Meijaard2007Model.state_space_at closed_form p = Err NumericError.
Proof.
  intros Hc Hn.
  destruct (canonical_at_valid p Hc) as [[[[M C1] K0] K2] Hms].
  destruct (valid_lookup p "v" Hc eq_refl) as [v Hv].
  unfold Meijaard2007Model.state_space_at.
  rewrite Hms, bind_Ok, (getitem_Some _ _ _ Hv), bind_Ok.
  cbn [as_float64]. rewrite bind_Ok.
  destruct (Meijaard2007Model.inv2 M) as [Minv|e] eqn:Hinv.
  - exfalso. apply Hn. by exists (M, C1, K0, K2), Minv.
  - rewrite bind_Err. revert Hinv. unfold Meijaard2007Model.inv2.
    destruct (feqb _ _); [by intros [= <-]|discriminate].
Qed.

Lemma state_space_at_numeric p e :
  valid_benchmark p ->
  Meijaard2007Model.state_space_at closed_form p = Err e ->
  e = NumericError.
Proof.
  intros Hc He.
  destruct (canonical_at_valid p Hc) as [[[[M C1] K0] K2] Hms].
  destruct (Meijaard2007Model.inv2 M) as [Minv|e'] eqn:Hinv.
  - destruct (state_space_at_valid p Hc) as (A & B & HAB & _).
    { by exists (M, C1, K0, K2), Minv. }
    congruence.
  - rewrite state_space_at_singular in He; [congruence|done|].
    intros (ms & Minv & Hms' & Hinv'). rewrite Hms in Hms'.
    injection Hms' as <-. cbn [fst] in Hinv'. congruence.
Qed.

Lemma eigen_at_singular p :
  valid_benchmark p -> ~ nonsingular closed_form p ->
  Meijaard2007Model.eigen_at closed_form eig4 p = Err NumericError.
Proof.
  intros Hc Hn. unfold Meijaard2007Model.eigen_at.
  by rewrite (state_space_at_singular p Hc Hn).
Qed.

Lemma eigen_at_diverges p :
  valid_benchmark p -> ~ converges closed_form eig4 p ->
  Meijaard2007Model.eigen_at closed_form eig4 p = Err NumericError.
Proof.
  intros Hc Hn. unfold Meijaard2007Model.eigen_at.
  destruct (Meijaard2007Model.state_space_at closed_form p)
    as [[A B]|e] eqn:Hs.
  - rewrite bind_Ok. destruct (eig4 A) as [[evals evecs]|] eqn:He;
      [|reflexivity].
    exfalso. apply Hn. intros A' B' Hs'. rewrite Hs in Hs'.
    injection Hs' as <- <-. by rewrite He.
  - exfalso. apply Hn. intros A' B' Hs'. rewrite Hs in Hs'. discriminate.
Qed.

Lemma eigen_at_numeric p e :
  valid_benchmark p ->
  Meijaard2007Model.eigen_at closed_form eig4 p = Err e ->
  e = NumericError.
Proof.
  intros Hc. unfold Meijaard2007Model.eigen_at.
  destruct (Meijaard2007Model.state_space_at closed_form p)
    as [[A B]|e'] eqn:Hs.
  - rewrite bind_Ok. destruct (eig4 A) as [[evals evecs]|];
      [discriminate|by intros [= <-]].
  - rewrite bind_Err. intros [= <-]. by eapply state_space_at_numeric.
Qed.

Lemma for_each_ok_inv {A B} (f : A -> result B) (l : list A) ys :
  for_each f l = Ok ys -> forall x, x ∈ l -> exists y, f x = Ok y.
Proof.
  revert ys. induction l as [|x l IH]; intros ys Hl x' Hx'.
  { by apply elem_of_nil in Hx'. }
  cbn [for_each] in Hl. destruct (f x) as [y|e] eqn:Hfx; [|discriminate].
  rewrite bind_Ok in Hl.
  destruct (for_each f l) as [ys'|e]; [|discriminate].
  apply elem_of_cons in Hx' as [->|Hx']; [by exists y|by eapply IH].
Qed.

(** The batch of a sweep: one result per sample, in the order of the
    samples, each the result of the call with that scalar. *)
Lemma over_sweep_batch {A} (f : gmap string (pyval F) -> result A)
    p ov k xs :
  Meijaard2007Model.vectors ov = {[k := xs]} ->
  (forall x, x ∈ xs ->
     exists a, f (<[k := PyFloat x]> (Meijaard2007Model.scalars ov ∪ p)) = Ok a) ->
  exists l,
    Meijaard2007Model.over_sweep f p ov = Ok (Meijaard2007Model.Batch l) /\
    length l = length xs /\
    Forall (fun a => exists x,
              x ∈ xs /\
              f (<[k := PyFloat x]> (Meijaard2007Model.scalars ov ∪ p))
              = Ok a) l /\
    forall i x, xs !! i = Some x ->
      exists a, l !! i = Some a /\
        Meijaard2007Model.over_sweep f p (<[k := Meijaard2007Model.Scalar x]> ov)
        = Ok (Meijaard2007Model.Single a).
Proof.
  intros Hv Hall.
  destruct (for_each_ok f
    (map (fun x => <[k := PyFloat x]> (Meijaard2007Model.scalars ov ∪ p)) xs))
    as (l & Hl & Hall2).
  { intros q (x & -> & Hx)%list_elem_of_fmap. by apply Hall. }
  exists l. rewrite (over_sweep_one f p ov k xs Hv), Hl, bind_Ok.
  split; [reflexivity|].
  pose proof (Forall2_length _ _ _ Hall2) as Hlen.
  rewrite length_map in Hlen. split; [done|]. split.
  - apply Forall_forall. intros a Ha.
    apply list_elem_of_lookup in Ha as [i Hi].
    destruct (Forall2_lookup_r _ _ _ i a Hall2 Hi) as (q & Hq & Hfq).
    rewrite map_lookup in Hq.
    destruct (xs !! i) as [x|] eqn:Hx; [|discriminate].
    injection Hq as <-. exists x. split; [|exact Hfq].
    by eapply list_elem_of_lookup_2.
  - intros i x Hi.
    destruct (Forall2_lookup_l _ _ _ i
                (<[k := PyFloat x]> (Meijaard2007Model.scalars ov ∪ p)) Hall2)
      as (a & Ha & Hfa).
    { rewrite map_lookup, Hi. reflexivity. }
    exists a. split; [exact Ha|].
    by rewrite (over_sweep_sample f p ov k xs x Hv), Hfa, bind_Ok.
Qed.

(** A sweep with a failing sample fails, with the error of a sample. *)
Lemma over_sweep_batch_err {A} (f : gmap string (pyval F) -> result A)
    p ov k xs e0 :
  Meijaard2007Model.vectors ov = {[k := xs]} ->
  (forall x e, x ∈ xs ->
     f (<[k := PyFloat x]> (Meijaard2007Model.scalars ov ∪ p)) = Err e ->
     e = e0) ->
  (exists x e, x ∈ xs /\
     f (<[k := PyFloat x]> (Meijaard2007Model.scalars ov ∪ p)) = Err e) ->
  Meijaard2007Model.over_sweep f p ov = Err e0.
Proof.
  intros Hv Hall (x & e & Hx & Hfx).
  rewrite (over_sweep_one f p ov k xs Hv).
  destruct (for_each f _) as [l|e'] eqn:Hl.
  - destruct (for_each_ok_inv _ _ _ Hl
                (<[k := PyFloat x]> (Meijaard2007Model.scalars ov ∪ p)))
      as [a Ha]; [|congruence].
    apply list_elem_of_fmap. by exists x.
  - apply for_each_err in Hl as (q & (x' & -> & Hx')%list_elem_of_fmap & Hq).
    by rewrite bind_Err, (Hall x' e' Hx' Hq).
Qed.

Lemma regular_rows2 {G} (m : Meijaard2007Model.mat2 G) :
  regular (Arr2 2 (Meijaard2007Model.rows2 m)) = true.
Proof. reflexivity. Qed.

Lemma regular_Arr2_map {A G} (g : A -> list G) c (l : list A) :
  Forall (fun a => length (g a) = c) l ->
  regular (Arr2 c (map g l)) = true.
Proof.
  intros Hl. cbn [regular]. apply forallb_forall.
  intros row (a & <- & Ha)%in_map_iff. apply Nat.eqb_eq.
  rewrite Forall_forall in Hl. apply Hl. by apply list_elem_of_In.
Qed.

Lemma regular_Arr3_map {A G} (g : A -> list (list G)) r c (l : list A) :
  Forall (fun a => length (g a) = r /\ regular (Arr2 c (g a)) = true) l ->
  regular (Arr3 r c (map g l)) = true.
Proof.
  intros Hl. cbn [regular]. apply forallb_forall.
  intros m (a & <- & Ha)%in_map_iff.
  rewrite Forall_forall in Hl.
  destruct (Hl a) as [Hr Hc]; [by apply list_elem_of_In|].
  apply andb_true_iff. split; [by apply Nat.eqb_eq|exact Hc].
Qed.

(** What a sample of a valid set returns fills its shape. *)
Lemma state_space_at_regular p A B :
  Meijaard2007Model.state_space_at closed_form p = Ok (A, B) ->
  (length A = 4 /\ regular (Arr2 4 A) = true) /\
  (length B = 4 /\ regular (Arr2 2 B) = true).
Proof.
  unfold Meijaard2007Model.state_space_at.
  destruct (Meijaard2007Model.canonical_at closed_form p)
    as [[[[M C1] K0] K2]|e]; [|discriminate].
  rewrite bind_Ok. destruct (getitem p "v") as [v|e]; [|discriminate].
  rewrite bind_Ok. destruct (as_float64 "v" v) as [v'|e]; [|discriminate].
  rewrite bind_Ok. destruct (Meijaard2007Model.inv2 M) as [Minv|e];
    [|discriminate].
  rewrite bind_Ok. intros [= <- <-]. by repeat split.
Qed.

Lemma eigen_at_regular p evals evecs :
  Meijaard2007Model.eigen_at closed_form eig4 p = Ok (evals, evecs) ->
  length evals = 4 /\ length evecs = 4 /\ regular (Arr2 4 evecs) = true.
Proof.
  unfold Meijaard2007Model.eigen_at.
  destruct (Meijaard2007Model.state_space_at closed_form p) as [[A B]|e];
    [|discriminate].
  rewrite bind_Ok.
  destruct (eig4 A) as [[[[[e0 e1] e2] e3] [[[v0 v1] v2] v3]]|];
    [|discriminate].
  destruct v0 as [[[? ?] ?] ?], v1 as [[[? ?] ?] ?],
    v2 as [[[? ?] ?] ?], v3 as [[[? ?] ?] ?].
  intros [= <- <-]. by repeat split.
Qed.


End ModelProperties.



(** ** The decomposition and the reconstruction *)

Section RoundTrip.
Local Open Scope R_scope.

Lemma unit_inv_sqrt (x y : R) :
  x <> 0 -> x * x + y * y = 1 -> R_sqrt.sqrt (1 + (y / x)²) = / Rabs x.
Proof.
  intros Hx Hu.
  replace (1 + (y / x)²) with (/ (x²)).
  - rewrite sqrt_inv, sqrt_Rsqr_abs. reflexivity.
  - unfold Rsqr. field_simplify_eq; [|done]. lra.
Qed.

Lemma cos_sin_atan_unit (x y : R) :
  x <> 0 -> x * x + y * y = 1 ->
  cos (atan (y / x)) = Rabs x /\ sin (atan (y / x)) = y / x * Rabs x.
Proof.
  intros Hx Hu. rewrite cos_atan, sin_atan, (unit_inv_sqrt x y Hx Hu).
  assert (Rabs x <> 0) by (by apply Rabs_no_R0).
  split; field; done.
Qed.

(** [arctan2] gives the angle of a unit vector. *)
Lemma arctan2_unit (x y : R) :
  x * x + y * y = 1 ->
  cos (arctan2 y x) = x /\ sin (arctan2 y x) = y.
Proof.
  intros Hu. unfold arctan2.
  destruct (Rlt_dec 0 x) as [Hpos|Hnpos].
  - destruct (cos_sin_atan_unit x y) as [Hc Hs]; [lra|done|].
    rewrite Hc, Hs, Rabs_right by lra. split; [done|]. field. lra.
  - destruct (Rlt_dec x 0) as [Hneg|Hnneg].
    + destruct (cos_sin_atan_unit x y) as [Hc Hs]; [lra|done|].
      rewrite Rabs_left in Hc, Hs by lra.
      destruct (Rle_dec 0 y).
      * rewrite neg_cos, neg_sin, Hc, Hs. split; [lra|]. field. lra.
      * rewrite cos_minus, sin_minus, cos_PI, sin_PI, Hc, Hs.
        split; [lra|]. field. lra.
    + assert (x = 0) as -> by lra.
      assert (y * y = 1) as Hy by lra.
      destruct (Rlt_dec 0 y).
      * rewrite cos_PI2, sin_PI2. split; [done|]. nra.
      * destruct (Rlt_dec y 0); [|nra].
        rewrite cos_neg, sin_neg, cos_PI2, sin_PI2. split; [done|]. nra.
Qed.

Lemma radius_square (l m : R) :
  0 < m -> 0 <= l -> m * (R_sqrt.sqrt (l / m) * R_sqrt.sqrt (l / m)) = l.
Proof.
  intros Hm Hl. rewrite sqrt_sqrt.
  - field. lra.
  - apply Rmult_le_pos; [done|]. left. by apply Rinv_0_lt_compat.
Qed.

(** The reconstruction from the principal moments [lmax] and [lmin] and
    the unit eigenvector [(ex, ez)] of [lmax]. *)
Lemma reconstruct_from_eigen (m lmax lmin Iyy ex ez : R) :
  0 < m -> 0 <= lmax -> 0 <= lmin -> 0 <= Iyy ->
  ex * ex + ez * ez = 1 ->
  conversions.reconstruct_planar_inertia m
    (R_sqrt.sqrt (lmax / m)) (R_sqrt.sqrt (lmin / m))
    (R_sqrt.sqrt (Iyy / m)) (arctan2 (- ez) ex)
  = (lmax * (ex * ex) + lmin * (ez * ez),
     (lmax - lmin) * (ex * ez),
     Iyy,
     lmax * (ez * ez) + lmin * (ex * ex)).
Proof.
  intros Hm Hmax Hmin Hyy Hu.
  destruct (arctan2_unit ex (- ez)) as [Hc Hs]; [lra|].
  unfold conversions.reconstruct_planar_inertia.
  cbn [np_cos np_sin exact_elementary fmul fadd fneg exact].
  rewrite Hc, Hs.
  pose proof (radius_square lmax m Hm Hmax) as H1.
  pose proof (radius_square lmin m Hm Hmin) as H2.
  pose proof (radius_square Iyy m Hm Hyy) as H3.
  set (ka := R_sqrt.sqrt (lmax / m) * R_sqrt.sqrt (lmax / m)) in *.
  set (kb := R_sqrt.sqrt (lmin / m) * R_sqrt.sqrt (lmin / m)) in *.
  set (ky := R_sqrt.sqrt (Iyy / m) * R_sqrt.sqrt (Iyy / m)) in *.
  rewrite !pair_equal_spec. repeat split; nra.
Qed.

Lemma fltb_exact (x y : R) :
  @fltb R exact x y = if Rlt_dec x y then true else false.
Proof. reflexivity. Qed.

(** The eigenvalues of two independent eigenvectors add up to the
    trace. *)
Lemma eigen_trace (a b d e0 e1 v00 v01 v10 v11 : R) :
  a * v00 + b * v10 = e0 * v00 -> b * v00 + d * v10 = e0 * v10 ->
  a * v01 + b * v11 = e1 * v01 -> b * v01 + d * v11 = e1 * v11 ->
  v00 * v11 - v01 * v10 <> 0 ->
  e0 + e1 = a + d.
Proof.
  intros E1 E2 E3 E4 Hdet.
  assert ((e0 + e1 - (a + d)) * (v00 * v11 - v01 * v10) = 0) as Hz.
  { replace ((e0 + e1 - (a + d)) * (v00 * v11 - v01 * v10))
      with (v11 * (e0 * v00 - (a * v00 + b * v10))
            - v01 * (e0 * v10 - (b * v00 + d * v10))
            + v00 * (e1 * v11 - (b * v01 + d * v11))
            - v10 * (e1 * v01 - (a * v01 + b * v11))) by ring.
    rewrite E1, E2, E3, E4. ring. }
  apply Rmult_integral in Hz as [Hz|Hz]; [lra|contradiction].
Qed.

(** A symmetric array is its principal moments on the axes of a unit
    eigenvector. *)
Lemma eigen_reconstruction (a b d l l' x z : R) :
  a * x + b * z = l * x -> b * x + d * z = l * z ->
  x * x + z * z = 1 -> l + l' = a + d ->
  l * (x * x) + l' * (z * z) = a /\
  (l - l') * (x * z) = b /\
  l * (z * z) + l' * (x * x) = d.
Proof.
  intros E1 E2 Hu Ht.
  assert (l' = a + d - l) as -> by lra.
  assert (b * (z * z) = (l - a) * (x * z)) as Hbz.
  { replace (b * (z * z)) with (z * (a * x + b * z) - a * (x * z)) by ring.
    rewrite E1. ring. }
  assert (b * (x * x) = (l - d) * (x * z)) as Hbx.
  { replace (b * (x * x)) with (x * (b * x + d * z) - d * (x * z)) by ring.
    rewrite E2. ring. }
  assert ((a - l) * (x * x) = (d - l) * (z * z)) as Hxz.
  { replace ((a - l) * (x * x)) with (x * (a * x + b * z - l * x) - b * (x * z))
      by ring.
    replace ((d - l) * (z * z)) with (z * (b * x + d * z - l * z) - b * (x * z))
      by ring.
    rewrite E1, E2. ring. }
  assert (b = b * (x * x) + b * (z * z)) as Hb
    by (replace b with (b * (x * x + z * z)) at 1 by (rewrite Hu; ring); ring).
  assert (a = a * (x * x) + a * (z * z)) as Ha
    by (replace a with (a * (x * x + z * z)) at 1 by (rewrite Hu; ring); ring).
  assert (d = d * (x * x) + d * (z * z)) as Hd
    by (replace d with (d * (x * x + z * z)) at 1 by (rewrite Hu; ring); ring).
  repeat split; lra.
Qed.

(** The eigenvalue of a unit eigenvector of a positive-definite array is
    not negative. *)
Lemma eigen_nonneg (a b d l x z : R) :
  0 < a -> b * b < a * d ->
  a * x + b * z = l * x -> b * x + d * z = l * z ->
  x * x + z * z = 1 -> 0 <= l.
Proof.
  intros Ha Hdet E1 E2 Hu.
  assert (l = a * (x * x) + 2 * b * (x * z) + d * (z * z)) as ->.
  { replace l with (l * (x * x + z * z)) by (rewrite Hu; ring).
    replace (l * (x * x + z * z)) with (x * (l * x) + z * (l * z)) by ring.
    rewrite <- E1, <- E2. ring. }
  assert (0 <= a * (a * (x * x) + 2 * b * (x * z) + d * (z * z))) as Hq.
  { replace (a * (a * (x * x) + 2 * b * (x * z) + d * (z * z)))
      with ((a * x + b * z) * (a * x + b * z) + (a * d - b * b) * (z * z))
      by ring.
    assert (0 <= (a * x + b * z) * (a * x + b * z)) by apply Rle_0_sqr.
    assert (0 <= z * z) by apply Rle_0_sqr.
    assert (0 <= (a * d - b * b) * (z * z))
      by (apply Rmult_le_pos; lra).
    lra. }
  nra.
Qed.



End RoundTrip.

#[local] Set Warnings "-inexact-float".


(** ** The loop over the colors *)

Lemma generate_body_colors_from_ok (colors : list string) labels :
  forall i bc0,
  i + length labels <= length colors ->
  exists bc,
    plots.ParameterSet._generate_body_colors_from colors i labels bc0 = Ok bc /\
    dom bc = list_to_set labels ∪ dom bc0 /\
    (forall b, b ∉ labels -> bc !! b = bc0 !! b) /\
    (NoDup labels ->
     forall j b, labels !! j = Some b -> bc !! b = colors !! (i + j)).
Proof.
  induction labels as [|b labels IH]; intros i bc0 Hlen.
  - exists bc0. split; [done|]. split; [by rewrite list_to_set_nil, (left_id_L ∅ (∪))|].
    split; [done|]. intros _ j b Hj. by rewrite lookup_nil in Hj.
  - simpl in Hlen. cbn [plots.ParameterSet._generate_body_colors_from].
    destruct (colors !! i) as [c|] eqn:Hc.
    2:{ apply lookup_ge_None in Hc. lia. }
    destruct (IH (S i) (<[b := c]> bc0)) as (bc & Hrun & Hdom & Hout & Hin);
      [lia|].
    exists bc. split; [done|]. split.
    { rewrite Hdom, dom_insert_L, list_to_set_cons.
      rewrite (assoc_L (∪)), (comm_L (∪) _ {[b]}). done. }
    split.
    { intros b' Hb'. apply not_elem_of_cons in Hb' as [Hne Hb'].
      rewrite Hout by done. by rewrite lookup_insert_ne. }
    intros Hnd j b' Hj. apply NoDup_cons in Hnd as [Hb Hnd].
    destruct j as [|j]; simpl in Hj.
    + injection Hj as <-. rewrite Hout by done.
      rewrite lookup_insert_eq, Nat.add_0_r. done.
    + rewrite (Hin Hnd j b' Hj). f_equal. lia.
Qed.

Lemma generate_body_colors_from_err (colors : list string) labels :
  forall i bc0,
  i <= length colors ->
  length colors < i + length labels ->
  plots.ParameterSet._generate_body_colors_from colors i labels bc0
  = Err IndexError.
Proof.
  induction labels as [|b labels IH]; intros i bc0 Hi Hlen.
  - simpl in Hlen. lia.
  - simpl in Hlen. cbn [plots.ParameterSet._generate_body_colors_from].
    destruct (colors !! i) as [c|] eqn:Hc; [|done].
    apply lookup_lt_Some in Hc. apply IH; lia.
Qed.

(** ** Further properties of the parameter sets *)

Section Further.
Context {F : Type} `{Float64 F}.
Implicit Types (p d : gmap string (pyval F)).
Implicit Types (σ : gmap Heap.loc (Heap.object F)).

(** On a validated Principal parameter set the derived parameters are
    exactly these thirteen: zero tilt angles of the wheels, zero
    y-offsets of the five bodies, the rear wheel at zero and the front
    wheel at the wheelbase, the wheel centres at minus their radii, and
    the [bb] radius of each wheel equal to its [aa] radius. *)
Theorem moore2019_calc_derived_params_spec p :
  valid_principal p ->
  exists w rR rF kRaa kFaa,
    p !! "w" = Some (PyFloat w) /\
    p !! "rR" = Some (PyFloat rR) /\
    p !! "rF" = Some (PyFloat rF) /\
    p !! "kRaa" = Some (PyFloat kRaa) /\
    p !! "kFaa" = Some (PyFloat kFaa) /\
    Moore2019ParameterSet._calc_derived_params p =
      Ok (list_to_map
            [ ("alphaF", PyFloat f0); ("alphaR", PyFloat f0);
              ("yD", PyFloat f0); ("yP", PyFloat f0); ("yH", PyFloat f0);
              ("yR", PyFloat f0); ("yF", PyFloat f0);
              ("xR", PyFloat f0); ("xF", PyFloat w);
              ("zR", PyFloat (fneg rR)); ("zF", PyFloat (fneg rF));
              ("kRbb", PyFloat kRaa); ("kFbb", PyFloat kFaa) ]).
Proof.
  intros Hc. pose proof (proj1 (check_ok_iff _ p) Hc) as Hall.
  destruct (Hall "w") as [w Hw]; [compute_done|].
  destruct (Hall "rR") as [rR HrR]; [compute_done|].
  destruct (Hall "rF") as [rF HrF]; [compute_done|].
  destruct (Hall "kRaa") as [kRaa HkRaa]; [compute_done|].
  destruct (Hall "kFaa") as [kFaa HkFaa]; [compute_done|].
  exists w, rR, rF, kRaa, kFaa. repeat (split; [assumption|]).
  unfold Moore2019ParameterSet._calc_derived_params, getitem.
  rewrite Hw, HrR, HrF, HkRaa, HkFaa. reflexivity.
Qed.

(** X3: on a validated Benchmark parameter set the inertia tensor of
    the rear frame [B] and of the front frame [H] is the symmetric (3, 3)
    array [[Ixx, 0, Ixz], [0, Iyy, 0], [Ixz, 0, Izz]] of the body's four
    entries of the dictionary, and that of a wheel, [F] or [R], is the
    diagonal array of [Ixx], [Iyy] and [Ixx] again. *)
Theorem form_inertia_tensor_spec p :
  valid_benchmark p ->
  exists IBxx IBxz IByy IBzz IHxx IHxz IHyy IHzz IFxx IFyy IRxx IRyy,
    (p !! "IBxx" = Some (PyFloat IBxx) /\ p !! "IBxz" = Some (PyFloat IBxz) /\
     p !! "IByy" = Some (PyFloat IByy) /\ p !! "IBzz" = Some (PyFloat IBzz) /\
     p !! "IHxx" = Some (PyFloat IHxx) /\ p !! "IHxz" = Some (PyFloat IHxz) /\
     p !! "IHyy" = Some (PyFloat IHyy) /\ p !! "IHzz" = Some (PyFloat IHzz) /\
     p !! "IFxx" = Some (PyFloat IFxx) /\ p !! "IFyy" = Some (PyFloat IFyy) /\
     p !! "IRxx" = Some (PyFloat IRxx) /\ p !! "IRyy" = Some (PyFloat IRyy)) /\
    Meijaard2007ParameterSet.form_inertia_tensor p "B"
    = Ok (Arr2 3 [[IBxx; f0; IBxz]; [f0; IByy; f0]; [IBxz; f0; IBzz]]) /\
    Meijaard2007ParameterSet.form_inertia_tensor p "H"
    = Ok (Arr2 3 [[IHxx; f0; IHxz]; [f0; IHyy; f0]; [IHxz; f0; IHzz]]) /\
    Meijaard2007ParameterSet.form_inertia_tensor p "F"
    = Ok (Arr2 3 [[IFxx; f0; f0]; [f0; IFyy; f0]; [f0; f0; IFxx]]) /\
    Meijaard2007ParameterSet.form_inertia_tensor p "R"
    = Ok (Arr2 3 [[IRxx; f0; f0]; [f0; IRyy; f0]; [f0; f0; IRxx]]).
Proof.
  intros Hc.
  destruct (calc_derived_params_valid p Hc)
    as (IFxx & IRxx & w & rF & rR & HIFxx & HIRxx & _ & _ & _ & Hd).
  destruct (valid_lookup p "IBxx" Hc eq_refl) as [IBxx HIBxx].
  destruct (valid_lookup p "IBxz" Hc eq_refl) as [IBxz HIBxz].
  destruct (valid_lookup p "IByy" Hc eq_refl) as [IByy HIByy].
  destruct (valid_lookup p "IBzz" Hc eq_refl) as [IBzz HIBzz].
  destruct (valid_lookup p "IHxx" Hc eq_refl) as [IHxx HIHxx].
  destruct (valid_lookup p "IHxz" Hc eq_refl) as [IHxz HIHxz].
  destruct (valid_lookup p "IHyy" Hc eq_refl) as [IHyy HIHyy].
  destruct (valid_lookup p "IHzz" Hc eq_refl) as [IHzz HIHzz].
  destruct (valid_lookup p "IFyy" Hc eq_refl) as [IFyy HIFyy].
  destruct (valid_lookup p "IRyy" Hc eq_refl) as [IRyy HIRyy].
  exists IBxx, IBxz, IByy, IBzz, IHxx, IHxz, IHyy, IHzz, IFxx, IFyy, IRxx, IRyy.
  split; [by repeat split|].
  unfold Meijaard2007ParameterSet.form_inertia_tensor,
    Meijaard2007ParameterSet.with_derived.
  rewrite Hd, !bind_Ok. cbv [String.append].
  set (pext := list_to_map _).
  assert (forall k v, pext !! k = None -> p !! k = Some v ->
            getitem (pext ∪ p) k = Ok v) as Hplain.
  { intros k v Hk Hv. apply getitem_Some. by rewrite lookup_union_r. }
  assert (forall k v, pext !! k = Some v -> getitem (pext ∪ p) k = Ok v)
    as Hder.
  { intros k v Hk. apply getitem_Some. by apply lookup_union_Some_l. }
  repeat split.
  - rewrite (Hplain "IBxx" (PyFloat IBxx)) by done.
    rewrite bind_Ok, (Hplain "IBxz" (PyFloat IBxz)) by done.
    rewrite bind_Ok, (Hplain "IByy" (PyFloat IByy)) by done.
    rewrite bind_Ok, (Hplain "IBzz" (PyFloat IBzz)) by done.
    reflexivity.
  - rewrite (Hplain "IHxx" (PyFloat IHxx)) by done.
    rewrite bind_Ok, (Hplain "IHxz" (PyFloat IHxz)) by done.
    rewrite bind_Ok, (Hplain "IHyy" (PyFloat IHyy)) by done.
    rewrite bind_Ok, (Hplain "IHzz" (PyFloat IHzz)) by done.
    reflexivity.
  - rewrite (Hplain "IFxx" (PyFloat IFxx)) by done.
    rewrite bind_Ok, (Hder "IFxz" (PyFloat f0)) by done.
    rewrite bind_Ok, (Hplain "IFyy" (PyFloat IFyy)) by done.
    rewrite bind_Ok, (Hder "IFzz" (PyFloat IFxx)) by done.
    reflexivity.
  - rewrite (Hplain "IRxx" (PyFloat IRxx)) by done.
    rewrite bind_Ok, (Hder "IRxz" (PyFloat f0)) by done.
    rewrite bind_Ok, (Hplain "IRyy" (PyFloat IRyy)) by done.
    rewrite bind_Ok, (Hder "IRzz" (PyFloat IRxx)) by done.
    reflexivity.
Qed.

Lemma alloc_run σ (o : Heap.object F) :
  Heap.alloc o σ = (Ok (fresh (dom σ)), <[fresh (dom σ) := o]> σ).
Proof. reflexivity. Qed.

Lemma setattr_run σ self attrs name (v : Heap.value F) :
  Heap.setattr self name v (<[self := Heap.OInstance attrs]> σ)
  = (Ok tt, <[self := Heap.OInstance (<[name := v]> attrs)]> σ).
Proof.
  unfold Heap.setattr. by rewrite lookup_insert_eq, insert_insert_eq.
Qed.

(** The loop of [_generate_body_colors] on the store fills the
    dictionary of the instance as the loop on dictionaries fills its
    argument, and stops where it stops. *)
Lemma generate_body_colors_from_run colors labels :
  forall i σ self attrs lc (bc0 : gmap string string),
    self <> lc ->
    attrs !! "body_colors" = Some (Heap.VRef lc) ->
    exists bc,
      Heap.ParameterSet._generate_body_colors_from colors i labels self
        (<[lc := Heap.ODict (PyStr <$> bc0)]>
           (<[self := Heap.OInstance attrs]> σ))
      = (match plots.ParameterSet._generate_body_colors_from
                 colors i labels bc0 with
         | Ok _ => Ok tt
         | Err e => Err e
         end,
         <[lc := Heap.ODict bc]> (<[self := Heap.OInstance attrs]> σ)) /\
      forall r,
        plots.ParameterSet._generate_body_colors_from colors i labels bc0
        = Ok r ->
        bc = PyStr <$> r.
Proof.
  induction labels as [|b labels IH]; intros i σ self attrs lc bc0 Hne Hattr.
  - exists (PyStr <$> bc0). split; [reflexivity|]. by intros r [= <-].
  - cbn [Heap.ParameterSet._generate_body_colors_from
         plots.ParameterSet._generate_body_colors_from].
    rewrite St_bind_run. unfold Heap.lift at 1.
    destruct (colors !! i) as [c|].
    2:{ exists (PyStr <$> bc0). split; [reflexivity|]. intros r [=]. }
    cbv beta iota. rewrite St_bind_run.
    unfold Heap.getattr_ref at 1.
    rewrite lookup_insert_ne by done. rewrite lookup_insert_eq, Hattr.
    cbv beta iota. rewrite St_bind_run, dict_setitem_new. cbv beta iota.
    rewrite <- fmap_insert.
    apply (IH (S i) σ self attrs lc (<[b := c]> bc0) Hne Hattr).
Qed.

(** X4: construction keeps a reference to the caller's dictionary, not
    a copy.  On a validated dictionary and with four colors or more in
    the color cycle it returns a new instance that holds the
    dictionary and a new dictionary of the colors of the bodies, and
    leaves the store otherwise as it was; an entry the caller sets
    afterwards is the one the queries read, without a new validation.
    With fewer colors it raises [IndexError]. *)
Theorem init_shares_the_dictionary colors σ lp d includes_rider :
  σ !! lp = Some (Heap.ODict d) ->
  valid_benchmark d ->
  (4 <= length colors ->
   exists self σ',
     Heap.Meijaard2007ParameterSet.new colors lp includes_rider σ
     = (Ok self, σ') /\
     σ !! self = None /\ σ ⊆ σ' /\ holds σ' self lp d /\
     (exists attrs lc bc,
        σ' !! self = Some (Heap.OInstance attrs) /\
        attrs !! "body_colors" = Some (Heap.VRef lc) /\
        σ !! lc = None /\ σ' !! lc = Some (Heap.ODict bc) /\
        forall i b,
          Meijaard2007ParameterSet.body_labels !! i = Some b ->
          bc !! b = PyStr <$> colors !! i) /\
     forall k v, exists σ'',
       Heap.dict_setitem lp k v σ' = (Ok tt, σ'') /\
       holds σ'' self lp (<[k := v]> d)) /\
  (length colors < 4 ->
   exists σ',
     Heap.Meijaard2007ParameterSet.new colors lp includes_rider σ
     = (Err IndexError, σ') /\ σ ⊆ σ').
Proof.
  intros Hlp Hc.
  pose proof (fresh_loc σ) as Hself. set (self := fresh (dom σ)) in *.
  assert (self <> lp) as Hne by (intros ->; congruence).
  set (attrs := <["includes_rider" := Heap.VPy (PyBool includes_rider)]>
                  (<["parameters" := Heap.VRef lp]> (∅ : gmap string (Heap.value F)))).
  set (σ1 := <[self := Heap.OInstance attrs]> σ).
  pose proof (fresh_loc σ1) as Hlc. set (lc := fresh (dom σ1)) in *.
  assert (self <> lc) as Hnc.
  { intros Heq. rewrite <- Heq in Hlc. unfold σ1 in Hlc.
    by rewrite lookup_insert_eq in Hlc. }
  assert (σ !! lc = None) as Hlc0.
  { unfold σ1 in Hlc. by rewrite lookup_insert_ne in Hlc. }
  assert (lc <> lp) as Hnp by (intros ->; congruence).
  set (attrs' := <["body_colors" := Heap.VRef lc]> attrs).
  assert (attrs' !! "body_colors" = Some (Heap.VRef lc)) as Hattr
    by apply lookup_insert_eq.
  assert (attrs' !! "parameters" = Some (Heap.VRef lp)) as Hpar by reflexivity.
  destruct (generate_body_colors_from_run colors
              Meijaard2007ParameterSet.body_labels 0 σ self attrs' lc ∅
              Hnc Hattr) as (bc & Hloop & Hbc).
  rewrite fmap_empty in Hloop.
  assert (Heap.Meijaard2007ParameterSet.new colors lp includes_rider σ
          = (match plots.ParameterSet._generate_body_colors colors
                     Meijaard2007ParameterSet.body_labels with
             | Ok _ => Ok self
             | Err e => Err e
             end,
             <[lc := Heap.ODict bc]> (<[self := Heap.OInstance attrs']> σ)))
    as Hrun.
  { unfold Heap.Meijaard2007ParameterSet.new.
    rewrite St_bind_run, alloc_run. fold self. cbv beta iota.
    rewrite St_bind_run.
    unfold Heap.Meijaard2007ParameterSet.__init__.
    rewrite St_bind_run. unfold Heap.ParameterSet.__init__.
    rewrite St_bind_run, (read_dict_run _ lp d)
      by (by rewrite lookup_insert_ne).
    cbv beta iota. unfold Heap.lift at 1.
    unfold valid_benchmark in Hc. rewrite Hc. cbv beta iota.
    rewrite St_bind_run, setattr_run. cbv beta iota.
    rewrite St_bind_run, setattr_run. cbv beta iota.
    unfold Heap.ParameterSet._generate_body_colors.
    rewrite St_bind_run. unfold Heap.dict_new. rewrite alloc_run.
    fold attrs. fold σ1. fold lc. cbv beta iota.
    rewrite St_bind_run. unfold σ1.
    rewrite (insert_insert_ne σ lc self) by done.
    rewrite setattr_run. cbv beta iota. fold attrs'.
    rewrite (insert_insert_ne _ self lc) by done.
    rewrite Hloop. unfold plots.ParameterSet._generate_body_colors.
    destruct (plots.ParameterSet._generate_body_colors_from _ _ _ _);
      reflexivity. }
  assert (σ ⊆ <[lc := Heap.ODict bc]> (<[self := Heap.OInstance attrs']> σ))
    as Hsub.
  { etrans; [by apply (insert_subseteq σ self)|].
    apply insert_subseteq. by rewrite lookup_insert_ne. }
  split.
  - intros Hlen.
    destruct (generate_body_colors_from_ok colors
                Meijaard2007ParameterSet.body_labels 0 ∅ Hlen)
      as (r & Hr & _ & _ & Hin).
    unfold plots.ParameterSet._generate_body_colors in Hrun.
    rewrite Hr in Hrun. rewrite (Hbc r Hr) in *.
    eexists _, _. split; [exact Hrun|]. split; [exact Hself|].
    split; [exact Hsub|].
    assert (holds (<[lc := Heap.ODict (PyStr <$> r)]>
                     (<[self := Heap.OInstance attrs']> σ)) self lp d) as Hh.
    { exists attrs'. split.
      - rewrite lookup_insert_ne by done. apply lookup_insert_eq.
      - split; [exact Hpar|]. by eapply lookup_weaken. }
    split; [exact Hh|]. split.
    + exists attrs', lc, (PyStr <$> r).
      split; [rewrite lookup_insert_ne by done; apply lookup_insert_eq|].
      split; [exact Hattr|]. split; [exact Hlc0|].
      split; [apply lookup_insert_eq|].
      intros i b Hi. rewrite lookup_fmap.
      by rewrite (Hin ltac:(compute_done) i b Hi).
    + intros k v. eexists. split.
      * unfold Heap.dict_setitem.
        rewrite St_bind_run, (read_dict_run _ lp d)
          by (by eapply lookup_weaken).
        reflexivity.
      * exists attrs'. split.
        { rewrite lookup_insert_ne by done.
          rewrite lookup_insert_ne by done. apply lookup_insert_eq. }
        split; [exact Hpar|]. apply lookup_insert_eq.
  - intros Hlen.
    unfold plots.ParameterSet._generate_body_colors in Hrun.
    rewrite generate_body_colors_from_err in Hrun; [|lia|simpl; lia].
    eexists. split; [exact Hrun|exact Hsub].
Qed.

End Further.

(** The derived parameters of the set [moore2019_ones]. *)
Lemma moore2019_calc_derived_params_witness :
  exists w rR rF kRaa kFaa,
    test_models.moore2019_ones !! "w" = Some (PyFloat w) /\
    test_models.moore2019_ones !! "rR" = Some (PyFloat rR) /\
    test_models.moore2019_ones !! "rF" = Some (PyFloat rF) /\
    test_models.moore2019_ones !! "kRaa" = Some (PyFloat kRaa) /\
    test_models.moore2019_ones !! "kFaa" = Some (PyFloat kFaa) /\
    Moore2019ParameterSet._calc_derived_params test_models.moore2019_ones =
      Ok (list_to_map
            [ ("alphaF", PyFloat f0); ("alphaR", PyFloat f0);
              ("yD", PyFloat f0); ("yP", PyFloat f0); ("yH", PyFloat f0);
              ("yR", PyFloat f0); ("yF", PyFloat f0);
              ("xR", PyFloat f0); ("xF", PyFloat w);
              ("zR", PyFloat (fneg rR)); ("zF", PyFloat (fneg rF));
              ("kRbb", PyFloat kRaa); ("kFbb", PyFloat kFaa) ]).
Proof.
  apply (moore2019_calc_derived_params_spec test_models.moore2019_ones).
  vm_compute. reflexivity.
Defined.

(** The four tensors of the parameters of the tests. *)
Lemma form_inertia_tensor_witness :
  exists IBxx IBxz IByy IBzz IHxx IHxz IHyy IHzz IFxx IFyy IRxx IRyy,
    (test_models.meijaard2007_parameters !! "IBxx" = Some (PyFloat IBxx) /\
     test_models.meijaard2007_parameters !! "IBxz" = Some (PyFloat IBxz) /\
     test_models.meijaard2007_parameters !! "IByy" = Some (PyFloat IByy) /\
     test_models.meijaard2007_parameters !! "IBzz" = Some (PyFloat IBzz) /\
     test_models.meijaard2007_parameters !! "IHxx" = Some (PyFloat IHxx) /\
     test_models.meijaard2007_parameters !! "IHxz" = Some (PyFloat IHxz) /\
     test_models.meijaard2007_parameters !! "IHyy" = Some (PyFloat IHyy) /\
     test_models.meijaard2007_parameters !! "IHzz" = Some (PyFloat IHzz) /\
     test_models.meijaard2007_parameters !! "IFxx" = Some (PyFloat IFxx) /\
     test_models.meijaard2007_parameters !! "IFyy" = Some (PyFloat IFyy) /\
     test_models.meijaard2007_parameters !! "IRxx" = Some (PyFloat IRxx) /\
     test_models.meijaard2007_parameters !! "IRyy" = Some (PyFloat IRyy)) /\
    Meijaard2007ParameterSet.form_inertia_tensor
      test_models.meijaard2007_parameters "B"
    = Ok (Arr2 3 [[IBxx; f0; IBxz]; [f0; IByy; f0]; [IBxz; f0; IBzz]]) /\
    Meijaard2007ParameterSet.form_inertia_tensor
      test_models.meijaard2007_parameters "H"
    = Ok (Arr2 3 [[IHxx; f0; IHxz]; [f0; IHyy; f0]; [IHxz; f0; IHzz]]) /\
    Meijaard2007ParameterSet.form_inertia_tensor
      test_models.meijaard2007_parameters "F"
    = Ok (Arr2 3 [[IFxx; f0; f0]; [f0; IFyy; f0]; [f0; f0; IFxx]]) /\
    Meijaard2007ParameterSet.form_inertia_tensor
      test_models.meijaard2007_parameters "R"
    = Ok (Arr2 3 [[IRxx; f0; f0]; [f0; IRyy; f0]; [f0; f0; IRxx]]).
Proof.
  apply (form_inertia_tensor_spec test_models.meijaard2007_parameters).
  vm_compute. reflexivity.
Defined.

(** Construction on the parameters of the tests with the default
    colors, after which the caller sets the speed [v]. *)
Lemma init_shares_the_dictionary_witness :
  exists self σ',
    Heap.Meijaard2007ParameterSet.new samples.tab10 0 true
      (<[0 := Heap.ODict test_models.meijaard2007_parameters]> ∅)
    = (Ok self, σ') /\
    holds σ' self 0 test_models.meijaard2007_parameters /\
    exists σ'',
      Heap.dict_setitem 0 "v" (PyFloat 6%float) σ' = (Ok tt, σ'') /\
      holds σ'' self 0
        (<["v" := PyFloat 6%float]> test_models.meijaard2007_parameters).
Proof.
  destruct (init_shares_the_dictionary samples.tab10
              (<[0 := Heap.ODict test_models.meijaard2007_parameters]> ∅)
              0 test_models.meijaard2007_parameters true)
    as [Hok _].
  { apply lookup_insert_eq. }
  { vm_compute. reflexivity. }
  destruct Hok as (self & σ' & Hinit & _ & _ & Hh & _ & Hset).
  { simpl. lia. }
  exists self, σ'. split; [exact Hinit|]. split; [exact Hh|].
  apply Hset.
Defined.

(** ** The colors of the bodies *)

(** X5: [_generate_body_colors] gives the body at index [i] of the
    labels the color at index [i] of the color cycle: with at least as
    many colors as labels it returns a dictionary whose keys are the
    labels, and, the labels being distinct, each label maps to the
    color at its index; with fewer colors than labels it raises
    [IndexError]. *)
Theorem generate_body_colors_spec (colors labels : list string) :
  (length labels <= length colors ->
   exists body_colors,
     plots.ParameterSet._generate_body_colors colors labels = Ok body_colors /\
     dom body_colors = list_to_set labels /\
     (NoDup labels ->
      forall i b, labels !! i = Some b -> body_colors !! b = colors !! i)) /\
  (length colors < length labels ->
   plots.ParameterSet._generate_body_colors colors labels = Err IndexError).
Proof.
  unfold plots.ParameterSet._generate_body_colors. split.
  - intros Hlen.
    destruct (generate_body_colors_from_ok colors labels 0 ∅ Hlen)
      as (bc & Hrun & Hdom & _ & Hin).
    exists bc. split; [done|]. split.
    + by rewrite Hdom, dom_empty_L, (right_id_L ∅ (∪)).
    + intros Hnd i b Hi. by rewrite (Hin Hnd i b Hi).
  - intros Hlen. apply generate_body_colors_from_err; simpl; lia.
Qed.

(** ** Drawing on an axes

    What each primitive of the axes does to a store that holds the axes
    at [l], as equations to run a method by rewriting. *)

Section Drawing.
Context {F : Type}.
Implicit Types (σ : gmap pyplot.loc (pyplot.Axes F)) (l : pyplot.loc).
Implicit Types (a : pyplot.Axes F).

Lemma draw_bind {A B} (m : pyplot.St F A) (k : A -> pyplot.St F B) σ :
  (m ≫= k) σ =
  match m σ with
  | (Ok a, σ') => k a σ'
  | (Err e, σ') => (Err e, σ')
  end.
Proof. reflexivity. Qed.

Lemma draw_lift {A} (r : result A) σ : pyplot.lift r σ = (r, σ).
Proof. reflexivity. Qed.

Lemma draw_ret {A} (v : A) σ : (mret v : pyplot.St F A) σ = (Ok v, σ).
Proof. reflexivity. Qed.

Lemma read_run σ l a : pyplot.read l (<[l := a]> σ) = (Ok a, <[l := a]> σ).
Proof. unfold pyplot.read. by rewrite lookup_insert_eq. Qed.

Lemma add_artist_run σ l a (x : pyplot.artist F) :
  pyplot.add_artist l x (<[l := a]> σ) = (Ok tt, <[l := drawn a [x]]> σ).
Proof.
  unfold pyplot.add_artist. rewrite draw_bind, read_run.
  unfold pyplot.write. by rewrite insert_insert_eq.
Qed.

Lemma add_patch_run σ l a (x : pyplot.artist F) :
  pyplot.add_patch l x (<[l := a]> σ) = (Ok tt, <[l := drawn a [x]]> σ).
Proof. apply add_artist_run. Qed.

Lemma plot_run σ l a (xdata ydata : list F) fmt kwargs :
  pyplot.plot l xdata ydata fmt kwargs (<[l := a]> σ)
  = (Ok tt, <[l := drawn a [pyplot.Line2D xdata ydata fmt kwargs]]> σ).
Proof. apply add_artist_run. Qed.

Lemma axhline_run σ l a (y : F) kwargs :
  pyplot.axhline l y kwargs (<[l := a]> σ)
  = (Ok tt, <[l := drawn a [pyplot.AxHLine y kwargs]]> σ).
Proof. apply add_artist_run. Qed.

Lemma text_run σ l a (x y : F) s :
  pyplot.text l x y s (<[l := a]> σ)
  = (Ok tt, <[l := drawn a [pyplot.Text x y s]]> σ).
Proof. apply add_artist_run. Qed.

Lemma drawn_drawn a (xs ys : list (pyplot.artist F)) :
  drawn (drawn a xs) ys = drawn a (xs ++ ys).
Proof. unfold drawn. simpl. by rewrite app_assoc. Qed.

Lemma drawn_nil a : drawn a [] = a.
Proof. destruct a. unfold drawn. simpl. by rewrite app_nil_r. Qed.

Lemma finalized_idemp a : finalized (finalized a) = finalized a.
Proof. reflexivity. Qed.

Lemma finalized_drawn a (xs : list (pyplot.artist F)) :
  drawn (finalized a) xs = finalized (drawn a xs).
Proof. reflexivity. Qed.

Lemma invert_yaxis_run σ l a :
  plots.ParameterSet._invert_yaxis l (<[l := a]> σ)
  = (Ok l, <[l := {| pyplot.artists := pyplot.artists a;
                     pyplot.inverted := true;
                     pyplot.aspect := pyplot.aspect a;
                     pyplot.xlabel := pyplot.xlabel a;
                     pyplot.ylabel := pyplot.ylabel a |}]> σ).
Proof.
  unfold plots.ParameterSet._invert_yaxis, pyplot.yaxis_inverted.
  rewrite !draw_bind, read_run. cbv beta iota.
  destruct a as [xs [] asp xl yl]; simpl; [reflexivity|].
  unfold pyplot.invert_yaxis. rewrite !draw_bind, read_run.
  unfold pyplot.write. simpl. by rewrite insert_insert_eq.
Qed.

Lemma set_aspect_run σ l a s :
  pyplot.set_aspect l s (<[l := a]> σ)
  = (Ok tt, <[l := {| pyplot.artists := pyplot.artists a;
                      pyplot.inverted := pyplot.inverted a;
                      pyplot.aspect := s;
                      pyplot.xlabel := pyplot.xlabel a;
                      pyplot.ylabel := pyplot.ylabel a |}]> σ).
Proof.
  unfold pyplot.set_aspect. rewrite draw_bind, read_run.
  unfold pyplot.write. by rewrite insert_insert_eq.
Qed.

Lemma set_xlabel_run σ l a s :
  pyplot.set_xlabel l s (<[l := a]> σ)
  = (Ok tt, <[l := {| pyplot.artists := pyplot.artists a;
                      pyplot.inverted := pyplot.inverted a;
                      pyplot.aspect := pyplot.aspect a;
                      pyplot.xlabel := s;
                      pyplot.ylabel := pyplot.ylabel a |}]> σ).
Proof.
  unfold pyplot.set_xlabel. rewrite draw_bind, read_run.
  unfold pyplot.write. by rewrite insert_insert_eq.
Qed.

Lemma set_ylabel_run σ l a s :
  pyplot.set_ylabel l s (<[l := a]> σ)
  = (Ok tt, <[l := {| pyplot.artists := pyplot.artists a;
                      pyplot.inverted := pyplot.inverted a;
                      pyplot.aspect := pyplot.aspect a;
                      pyplot.xlabel := pyplot.xlabel a;
                      pyplot.ylabel := s |}]> σ).
Proof.
  unfold pyplot.set_ylabel. rewrite draw_bind, read_run.
  unfold pyplot.write. by rewrite insert_insert_eq.
Qed.

Lemma finalize_plot_run σ l a :
  plots.ParameterSet._finalize_plot l (<[l := a]> σ)
  = (Ok tt, <[l := finalized a]> σ).
Proof.
  unfold plots.ParameterSet._finalize_plot.
  rewrite draw_bind, invert_yaxis_run. cbv beta iota.
  rewrite draw_bind, set_aspect_run. cbv beta iota.
  rewrite draw_bind, set_xlabel_run. cbv beta iota.
  rewrite draw_bind, set_ylabel_run. reflexivity.
Qed.

Lemma or_subplots_run σ (ax : option pyplot.loc) :
  pyplot.or_subplots ax σ =
  match ax with
  | Some l => (Ok l, σ)
  | None => (Ok (fresh (dom σ)), <[fresh (dom σ) := pyplot.new_axes]> σ)
  end.
Proof. by destruct ax. Qed.

Lemma finalize_plot_at σ l a :
  σ !! l = Some a ->
  plots.ParameterSet._finalize_plot l σ = (Ok tt, <[l := finalized a]> σ).
Proof.
  intros Hl. rewrite <- (insert_id σ l a Hl) at 1. apply finalize_plot_run.
Qed.

(** X6: [_finalize_plot] leaves the axes with the artists it had, the y
    axis inverted whichever way it pointed before, equal scales and the
    labels of the x and z axes; a second call changes nothing, so a
    method that finalizes never turns the y axis back. *)
Theorem finalize_plot_spec σ l a :
  σ !! l = Some a ->
  plots.ParameterSet._finalize_plot l σ = (Ok tt, <[l := finalized a]> σ) /\
  pyplot.artists (finalized a) = pyplot.artists a /\
  pyplot.inverted (finalized a) = true /\
  (forall σ', plots.ParameterSet._finalize_plot l σ = (Ok tt, σ') ->
     plots.ParameterSet._finalize_plot l σ' = (Ok tt, σ')).
Proof.
  intros Hl. rewrite (finalize_plot_at σ l a Hl).
  split; [done|]. split; [done|]. split; [done|].
  intros σ' [= <-]. by rewrite finalize_plot_run.
Qed.

End Drawing.

(** ** What construction establishes *)

Section Benchmark.
Context {F : Type} `{Float64 F} `{OfInt F}.
Implicit Types (σ : gmap pyplot.loc (pyplot.Axes F)) (l : pyplot.loc).
Implicit Types (a : pyplot.Axes F) (self : plots.instance F).
Implicit Types (p : gmap string (pyval F)) (b : string).

Lemma meijaard2007_init_inv colors p rider self :
  plots.Meijaard2007ParameterSet.__init__ colors p rider = Ok self ->
  valid_benchmark p /\
  plots.parameters self = p /\
  plots.includes_rider self = Some rider /\
  plots.body_labels self = Meijaard2007ParameterSet.body_labels /\
  plots.ParameterSet._generate_body_colors colors
    Meijaard2007ParameterSet.body_labels = Ok (plots.body_colors self).
Proof.
  unfold plots.Meijaard2007ParameterSet.__init__, ParameterSet.__init__.
  unfold valid_benchmark.
  destruct (ParameterSet._check_parameters _ p) as [[]|e]; [|discriminate].
  rewrite bind_Ok.
  destruct (plots.ParameterSet._generate_body_colors _ _) as [bc|e];
    [|discriminate].
  rewrite bind_Ok. intros [= <-]. done.
Qed.

Lemma body_colors_dom colors labels (bc : gmap string string) b :
  plots.ParameterSet._generate_body_colors colors labels = Ok bc ->
  is_Some (bc !! b) <-> b ∈ labels.
Proof.
  intros Hbc. unfold plots.ParameterSet._generate_body_colors in Hbc.
  destruct (decide (length labels <= length colors)) as [Hlen|Hlen].
  - destruct (generate_body_colors_from_ok colors labels 0 ∅ Hlen)
      as (bc' & Hrun & Hdom & _).
    rewrite Hrun in Hbc. injection Hbc as ->.
    rewrite <- elem_of_dom, Hdom, dom_empty_L, (right_id_L ∅ (∪)).
    apply elem_of_list_to_set.
  - rewrite generate_body_colors_from_err in Hbc; [done|lia|simpl; lia].
Qed.

(** The entries the symbol of a body label is drawn from. *)
Lemma mass_center_entries p b :
  valid_benchmark p ->
  b ∈ Meijaard2007ParameterSet.body_labels ->
  exists pd x y z w,
    Meijaard2007ParameterSet.with_derived p = Ok pd /\
    pd !! ("x" +:+ b) = Some (PyFloat x) /\
    pd !! ("y" +:+ b) = Some (PyFloat y) /\
    pd !! ("z" +:+ b) = Some (PyFloat z) /\
    pd !! "w" = Some (PyFloat w) /\
    p !! "w" = Some (PyFloat w) /\
    Meijaard2007ParameterSet.form_mass_center_vector p b
    = Ok (Arr2 1 [[x]; [y]; [z]]).
Proof.
  intros Hc Hb.
  destruct (label_entries p b Hc Hb) as (pext & Hwd & Hall & _).
  apply Forall_cons in Hall as [[x Hx] Hall].
  apply Forall_cons in Hall as [[y Hy] Hall].
  apply Forall_cons in Hall as [[z Hz] _].
  destruct (valid_with_derived p Hc) as (pext' & Hd & Hwd' & Hdom & Hfl).
  rewrite Hwd in Hwd'. injection Hwd' as Hpe.
  destruct (valid_lookup p "w" Hc eq_refl) as [w Hw].
  assert ((pext ∪ p) !! "w" = Some (PyFloat w)) as Hw'.
  { rewrite Hpe. rewrite lookup_union_r; [done|].
    apply not_elem_of_dom. rewrite Hdom. compute_done. }
  exists (pext ∪ p), x, y, z, w. repeat (split; [done|]).
  unfold Meijaard2007ParameterSet.form_mass_center_vector.
  rewrite Hwd, bind_Ok.
  rewrite (getitem_Some _ _ _ Hx), (getitem_Some _ _ _ Hy),
    (getitem_Some _ _ _ Hz). reflexivity.
Qed.

Lemma com_symbol_run σ l a (center : F * F) radius color label :
  plots._com_symbol l center radius color (Some label) (<[l := a]> σ)
  = (Ok l, <[l := drawn a (com_symbol center radius color label)]> σ).
Proof.
  unfold plots._com_symbol. cbv zeta.
  rewrite draw_bind, add_patch_run. cbv beta iota.
  rewrite draw_bind, add_patch_run. cbv beta iota.
  rewrite draw_bind, add_patch_run. cbv beta iota.
  rewrite draw_bind, text_run. cbv beta iota.
  rewrite !drawn_drawn. reflexivity.
Qed.

Lemma plot_body_mass_center_label self b c σ l a :
  valid_benchmark (plots.parameters self) ->
  b ∈ Meijaard2007ParameterSet.body_labels ->
  plots.body_colors self !! b = Some c ->
  exists x y z w,
    Meijaard2007ParameterSet.form_mass_center_vector (plots.parameters self) b
    = Ok (Arr2 1 [[x]; [y]; [z]]) /\
    plots.parameters self !! "w" = Some (PyFloat w) /\
    plots.Meijaard2007ParameterSet.plot_body_mass_center self b (Some l)
      (<[l := a]> σ)
    = (Ok l, <[l := finalized
                      (drawn a (com_symbol (x, z) (fdiv w (of_int 10)) c b))]> σ).
Proof.
  intros Hc Hb Hcol.
  destruct (mass_center_entries _ b Hc Hb)
    as (pd & x & y & z & w & Hwd & Hx & Hy & Hz & Hw & Hw' & Hv).
  exists x, y, z, w. split; [done|]. split; [done|].
  unfold plots.Meijaard2007ParameterSet.plot_body_mass_center.
  rewrite draw_bind, or_subplots_run. cbv beta iota.
  rewrite draw_bind, draw_lift, Hwd. cbv beta iota.
  rewrite draw_bind, draw_lift, (getitem_Some _ _ _ Hx). cbv beta iota.
  rewrite draw_bind, draw_lift, (getitem_Some _ _ _ Hz). cbv beta iota.
  rewrite draw_bind, draw_lift. unfold plots.item.
  rewrite (getitem_Some _ _ _ Hw), bind_Ok. cbn [as_float64]. cbv beta iota zeta.
  rewrite draw_bind, draw_lift, (getitem_Some _ _ _ Hcol). cbv beta iota.
  rewrite draw_bind, draw_lift. cbn [as_float64]. cbv beta iota.
  rewrite draw_bind, draw_lift. cbn [as_float64]. cbv beta iota.
  rewrite draw_bind, com_symbol_run. cbv beta iota.
  rewrite draw_bind, finalize_plot_run. reflexivity.
Qed.

Lemma plot_body_mass_center_unknown self b :
  valid_benchmark (plots.parameters self) ->
  plots.body_colors self !! b = None ->
  exists k, forall σ ax,
    plots.Meijaard2007ParameterSet.plot_body_mass_center self b ax σ
    = (Err (KeyError k), (pyplot.or_subplots ax σ).2).
Proof.
  intros Hc Hcol.
  destruct (valid_with_derived _ Hc) as (pext & Hd & Hwd & Hdom & Hfl).
  destruct (valid_lookup _ "w" Hc eq_refl) as [w Hw].
  assert ((pext ∪ plots.parameters self) !! "w" = Some (PyFloat w)) as Hw'.
  { rewrite lookup_union_r; [done|].
    apply not_elem_of_dom. rewrite Hdom. compute_done. }
  unfold plots.Meijaard2007ParameterSet.plot_body_mass_center.
  destruct ((pext ∪ plots.parameters self) !! ("x" +:+ b)) as [x|] eqn:Hx.
  2:{ exists ("x" +:+ b). intros σ ax.
      rewrite draw_bind. destruct (pyplot.or_subplots ax σ) as [r σ'] eqn:Hax.
      rewrite or_subplots_run in Hax.
      assert (exists l, r = Ok l) as [l ->] by (destruct ax; injection Hax; eauto).
      rewrite draw_bind, draw_lift, Hwd. cbv beta iota.
      rewrite draw_bind, draw_lift, (getitem_None _ _ Hx). reflexivity. }
  destruct ((pext ∪ plots.parameters self) !! ("z" +:+ b)) as [z|] eqn:Hz.
  2:{ exists ("z" +:+ b). intros σ ax.
      rewrite draw_bind. destruct (pyplot.or_subplots ax σ) as [r σ'] eqn:Hax.
      rewrite or_subplots_run in Hax.
      assert (exists l, r = Ok l) as [l ->] by (destruct ax; injection Hax; eauto).
      rewrite draw_bind, draw_lift, Hwd. cbv beta iota.
      rewrite draw_bind, draw_lift, (getitem_Some _ _ _ Hx). cbv beta iota.
      rewrite draw_bind, draw_lift, (getitem_None _ _ Hz). reflexivity. }
  exists b. intros σ ax.
  rewrite draw_bind. destruct (pyplot.or_subplots ax σ) as [r σ'] eqn:Hax.
  rewrite or_subplots_run in Hax.
  assert (exists l, r = Ok l) as [l ->] by (destruct ax; injection Hax; eauto).
  rewrite draw_bind, draw_lift, Hwd. cbv beta iota.
  rewrite draw_bind, draw_lift, (getitem_Some _ _ _ Hx). cbv beta iota.
  rewrite draw_bind, draw_lift, (getitem_Some _ _ _ Hz). cbv beta iota.
  rewrite draw_bind, draw_lift. unfold plots.item.
  rewrite (getitem_Some _ _ _ Hw'), bind_Ok. cbn [as_float64]. cbv beta iota zeta.
  rewrite draw_bind, draw_lift, (getitem_None _ _ Hcol). reflexivity.
Qed.

End Benchmark.

(** ** Loops over the bodies *)

Section Loops.
Context {F : Type} {B : Type}.
Implicit Types (σ : gmap pyplot.loc (pyplot.Axes F)) (l : pyplot.loc).
Implicit Types (a : pyplot.Axes F) (bodies : list B).

Lemma after_bodies_cons (xs : B -> list (pyplot.artist F)) b bodies a :
  after_bodies xs bodies (finalized (drawn a (xs b)))
  = after_bodies xs (b :: bodies) a.
Proof.
  destruct bodies as [|b' bodies]; cbn [after_bodies map concat].
  - by rewrite app_nil_r.
  - rewrite <- finalized_drawn, finalized_idemp, finalized_drawn.
    by rewrite drawn_drawn.
Qed.

Lemma for_ax_run (f : B -> option pyplot.loc -> pyplot.St F pyplot.loc)
    (xs : B -> list (pyplot.artist F)) bodies l :
  (forall b σ a, b ∈ bodies ->
     f b (Some l) (<[l := a]> σ)
     = (Ok l, <[l := finalized (drawn a (xs b))]> σ)) ->
  forall σ a,
    pyplot.for_ax f bodies l (<[l := a]> σ)
    = (Ok l, <[l := after_bodies xs bodies a]> σ).
Proof.
  induction bodies as [|b bodies IH]; intros Hf σ a; [reflexivity|].
  cbn [pyplot.for_ax]. rewrite draw_bind, Hf by left. cbv beta iota.
  rewrite IH by (intros; apply Hf; by right).
  by rewrite after_bodies_cons.
Qed.

Lemma for_ax_stop (f : B -> option pyplot.loc -> pyplot.St F pyplot.loc)
    (xs : B -> list (pyplot.artist F)) good bad rest l e :
  (forall b σ a, b ∈ good ->
     f b (Some l) (<[l := a]> σ)
     = (Ok l, <[l := finalized (drawn a (xs b))]> σ)) ->
  (forall σ, f bad (Some l) σ = (Err e, σ)) ->
  forall σ a,
    pyplot.for_ax f (good ++ bad :: rest)%list l (<[l := a]> σ)
    = (Err e, <[l := after_bodies xs good a]> σ).
Proof.
  intros Hf Hbad. induction good as [|b good IH]; intros σ a.
  - cbn [app pyplot.for_ax]. by rewrite draw_bind, Hbad.
  - cbn [app pyplot.for_ax]. rewrite draw_bind, Hf by left. cbv beta iota.
    rewrite IH by (intros; apply Hf; by right).
    by rewrite after_bodies_cons.
Qed.

End Loops.

(** ** The mass centers of the Benchmark class *)

Section MassCenterPlots.
Context {F : Type} `{Float64 F} `{OfInt F}.
Implicit Types (σ : gmap pyplot.loc (pyplot.Axes F)) (l : pyplot.loc).
Implicit Types (a : pyplot.Axes F) (self : plots.instance F).
Implicit Types (p : gmap string (pyval F)) (b : string).

Lemma plot_body_mass_center_symbol self b σ l a :
  valid_benchmark (plots.parameters self) ->
  b ∈ Meijaard2007ParameterSet.body_labels ->
  is_Some (plots.body_colors self !! b) ->
  length (benchmark_com_symbol self b) = 4 /\
  plots.Meijaard2007ParameterSet.plot_body_mass_center self b (Some l)
    (<[l := a]> σ)
  = (Ok l, <[l := finalized (drawn a (benchmark_com_symbol self b))]> σ).
Proof.
  intros Hc Hb [c Hcol].
  destruct (plot_body_mass_center_label self b c σ l a Hc Hb Hcol)
    as (x & y & z & w & Hv & Hw & Hrun).
  unfold benchmark_com_symbol. rewrite Hv, Hw, Hcol. done.
Qed.

(** X7: on an instance that construction returned,
    [plot_body_mass_center] of the Benchmark class draws for a body of
    [body_labels] the symbol of [_com_symbol] (two wedges, a circle and
    the label) at the x and z of [form_mass_center_vector], with radius
    [w / 10] and in the color of the body, finalizes the plot and
    returns the axes it was given; for any other label it raises a
    [KeyError] and leaves the axes as they were, also when the
    dictionary holds entries for that label. *)
Theorem plot_body_mass_center_spec colors p rider self b σ l a :
  plots.Meijaard2007ParameterSet.__init__ colors p rider = Ok self ->
  σ !! l = Some a ->
  (b ∈ Meijaard2007ParameterSet.body_labels ->
   exists x y z w c,
     Meijaard2007ParameterSet.form_mass_center_vector p b
     = Ok (Arr2 1 [[x]; [y]; [z]]) /\
     p !! "w" = Some (PyFloat w) /\
     plots.body_colors self !! b = Some c /\
     plots.Meijaard2007ParameterSet.plot_body_mass_center self b (Some l) σ
     = (Ok l, <[l := finalized
                       (drawn a (com_symbol (x, z) (fdiv w (of_int 10)) c b))]>
                σ)) /\
  (b ∉ Meijaard2007ParameterSet.body_labels ->
   exists k,
     plots.Meijaard2007ParameterSet.plot_body_mass_center self b (Some l) σ
     = (Err (KeyError k), σ)).
Proof.
  intros Hinit Hl.
  destruct (meijaard2007_init_inv _ _ _ _ Hinit) as (Hc & Hp & _ & _ & Hbc).
  subst p. split.
  - intros Hb.
    destruct (proj2 (body_colors_dom _ _ _ b Hbc) Hb) as [c Hcol].
    destruct (plot_body_mass_center_label self b c σ l a Hc Hb Hcol)
      as (x & y & z & w & Hv & Hw & Hrun).
    exists x, y, z, w, c. repeat (split; [done|]).
    rewrite <- Hrun. by rewrite insert_id.
  - intros Hb.
    assert (plots.body_colors self !! b = None) as Hcol.
    { apply eq_None_not_Some. by rewrite (body_colors_dom _ _ _ b Hbc). }
    destruct (plot_body_mass_center_unknown self b Hc Hcol) as [k Hk].
    exists k. by rewrite Hk.
Qed.

(** X8: [plot_mass_centers] of the Benchmark class draws the symbols of
    the bodies it is given, in their order, four artists each, on the
    one axes, and leaves it finalized (untouched for no body); without
    a list of bodies it draws those of [body_labels]; at the first
    label outside [body_labels] it raises a [KeyError], and the symbols
    of the bodies before it stay on the axes. *)
Theorem plot_mass_centers_spec colors p rider self σ l a :
  plots.Meijaard2007ParameterSet.__init__ colors p rider = Ok self ->
  σ !! l = Some a ->
  (forall bodies,
     Forall (fun b => b ∈ Meijaard2007ParameterSet.body_labels) bodies ->
     length (concat (map (benchmark_com_symbol self) bodies))
     = 4 * length bodies /\
     plots.Meijaard2007ParameterSet.plot_mass_centers self (Some bodies)
       (Some l) σ
     = (Ok l, <[l := after_bodies (benchmark_com_symbol self) bodies a]> σ)) /\
  plots.Meijaard2007ParameterSet.plot_mass_centers self None (Some l) σ
  = plots.Meijaard2007ParameterSet.plot_mass_centers self
      (Some Meijaard2007ParameterSet.body_labels) (Some l) σ /\
  (forall good bad rest,
     Forall (fun b => b ∈ Meijaard2007ParameterSet.body_labels) good ->
     bad ∉ Meijaard2007ParameterSet.body_labels ->
     exists k,
       plots.Meijaard2007ParameterSet.plot_mass_centers self
         (Some (good ++ bad :: rest)%list) (Some l) σ
       = (Err (KeyError k),
          <[l := after_bodies (benchmark_com_symbol self) good a]> σ)).
Proof.
  intros Hinit Hl.
  destruct (meijaard2007_init_inv _ _ _ _ Hinit) as (Hc & Hp & _ & Hlab & Hbc).
  subst p.
  assert (forall b σ a, b ∈ Meijaard2007ParameterSet.body_labels ->
    plots.Meijaard2007ParameterSet.plot_body_mass_center self b (Some l)
      (<[l := a]> σ)
    = (Ok l, <[l := finalized (drawn a (benchmark_com_symbol self b))]> σ))
    as Hstep.
  { intros b σ1 a1 Hb.
    apply plot_body_mass_center_symbol; [done..|].
    by apply (body_colors_dom _ _ _ b Hbc). }
  split; [|split].
  - intros bodies Hall. split.
    + induction Hall as [|b bodies Hb _ IH]; [done|].
      cbn [map concat]. rewrite length_app, IH.
      destruct (plot_body_mass_center_symbol self b ∅ l a Hc Hb) as [-> _].
      { by apply (body_colors_dom _ _ _ b Hbc). }
      simpl. lia.
    + unfold plots.Meijaard2007ParameterSet.plot_mass_centers.
      rewrite draw_bind, or_subplots_run. cbv beta iota zeta.
      cbn [default]. rewrite <- (insert_id σ l a Hl) at 1.
      rewrite draw_bind, (for_ax_run _ (benchmark_com_symbol self)).
      * reflexivity.
      * intros b σ1 a1 Hb. apply Hstep.
        by apply (proj1 (Forall_forall _ _) Hall).
  - unfold plots.Meijaard2007ParameterSet.plot_mass_centers.
    by rewrite Hlab.
  - intros good bad rest Hall Hbad.
    assert (plots.body_colors self !! bad = None) as Hcol.
    { apply eq_None_not_Some. by rewrite (body_colors_dom _ _ _ bad Hbc). }
    destruct (plot_body_mass_center_unknown self bad Hc Hcol) as [k Hk].
    exists k. unfold plots.Meijaard2007ParameterSet.plot_mass_centers.
    rewrite draw_bind, or_subplots_run. cbv beta iota zeta.
    cbn [default]. rewrite <- (insert_id σ l a Hl) at 1.
    rewrite draw_bind,
      (for_ax_stop _ (benchmark_com_symbol self) good bad rest l (KeyError k)).
    + reflexivity.
    + intros b σ1 a1 Hb. apply Hstep.
      by apply (proj1 (Forall_forall _ _) Hall).
    + intros σ1. by rewrite Hk.
Qed.

End MassCenterPlots.

(** ** The geometry of the Benchmark class *)

Section Geometry.
Context {F : Type} `{Float64 F} `{OfInt F}.
Implicit Types (σ : gmap pyplot.loc (pyplot.Axes F)) (l : pyplot.loc).
Implicit Types (a : pyplot.Axes F) (self : plots.instance F).
Implicit Types (p : gmap string (pyval F)) (b : string).
Implicit Types (fg : gmap string (pyval F) -> result (list F * list F)).

Lemma item_Some p k (x : F) :
  p !! k = Some (PyFloat x) -> plots.item p k = Ok x.
Proof. intros Hk. unfold plots.item. by rewrite (getitem_Some _ _ _ Hk). Qed.

(** The steer axis as the source computes it from the points 1 and 2. *)
Lemma plot_geometry_from_benchmark_run fg p show σ l a rR rF w :
  p !! "rR" = Some (PyFloat rR) ->
  p !! "rF" = Some (PyFloat rF) ->
  p !! "w" = Some (PyFloat w) ->
  plots._plot_geometry_from_benchmark fg l p show (<[l := a]> σ) =
  match fg p with
  | Err e => (Err e, <[l := drawn a (ground_and_wheels rR rF w)]> σ)
  | Ok (deex, deez) =>
      let a' := drawn a (ground_and_wheels rR rF w
                           ++ [fundamental_line deex deez]) in
      if show then
        match deex !! 1, deex !! 2, deez !! 1, deez !! 2 with
        | Some x1, Some x2, Some z1, Some z2 =>
            (Ok l,
             <[l := drawn a'
                      [pyplot.Line2D
                         [x2; plots.fsub x2
                                (fdiv (fmul z2 (plots.fsub x2 x1))
                                      (fadd (fneg z1) z2))]
                         [z2; f0] (Some "k--") []]]> σ)
        | _, _, _, _ => (Err IndexError, <[l := a']> σ)
        end
      else (Ok l, <[l := a']> σ)
  end.
Proof.
  intros HrR HrF Hw. unfold plots._plot_geometry_from_benchmark. cbv zeta.
  rewrite (item_Some _ _ _ HrR), (item_Some _ _ _ HrF),
    (getitem_Some _ _ _ Hw).
  rewrite draw_bind, axhline_run. cbv beta iota.
  do 2 (rewrite draw_bind, draw_lift; cbv beta iota).
  rewrite draw_bind, add_patch_run. cbv beta iota.
  do 4 (rewrite draw_bind, draw_lift; cbv beta iota). cbn [as_float64].
  rewrite draw_bind, add_patch_run. cbv beta iota.
  rewrite !drawn_drawn. cbn [app].
  rewrite draw_bind, draw_lift.
  destruct (fg p) as [[deex deez]|e]; [|reflexivity]. cbv beta iota.
  rewrite draw_bind, plot_run. cbv beta iota.
  rewrite !drawn_drawn. cbn [app].
  destruct show; [|reflexivity].
  unfold plots.index.
  destruct (deex !! 2) as [x2|]; [|by destruct (deex !! 1)].
  rewrite draw_bind, draw_lift. cbv beta iota.
  destruct (deez !! 2) as [z2|];
    [|by destruct (deex !! 1), (deez !! 1)].
  rewrite draw_bind, draw_lift. cbv beta iota.
  rewrite draw_bind, draw_lift. cbv beta iota.
  destruct (deex !! 1) as [x1|]; [|reflexivity].
  rewrite draw_bind, draw_lift. cbv beta iota.
  destruct (deez !! 1) as [z1|]; [|reflexivity].
  rewrite draw_bind, draw_lift. cbv beta iota.
  rewrite draw_bind, draw_lift. cbv beta iota.
  rewrite draw_bind, draw_lift. cbv beta iota.
  rewrite draw_bind, draw_lift. cbv beta iota.
  rewrite draw_bind, plot_run. cbv beta iota.
  reflexivity.
Qed.

(** The mass-center vectors of the four bodies. *)
Lemma mass_center_vectors p :
  valid_benchmark p ->
  exists xB zB xH zH w rF rR,
    (p !! "xB" = Some (PyFloat xB) /\ p !! "zB" = Some (PyFloat zB) /\
     p !! "xH" = Some (PyFloat xH) /\ p !! "zH" = Some (PyFloat zH) /\
     p !! "w" = Some (PyFloat w) /\ p !! "rF" = Some (PyFloat rF) /\
     p !! "rR" = Some (PyFloat rR)) /\
    Meijaard2007ParameterSet.form_mass_center_vector p "B"
    = Ok (Arr2 1 [[xB]; [f0]; [zB]]) /\
    Meijaard2007ParameterSet.form_mass_center_vector p "F"
    = Ok (Arr2 1 [[w]; [f0]; [fneg rF]]) /\
    Meijaard2007ParameterSet.form_mass_center_vector p "H"
    = Ok (Arr2 1 [[xH]; [f0]; [zH]]) /\
    Meijaard2007ParameterSet.form_mass_center_vector p "R"
    = Ok (Arr2 1 [[f0]; [f0]; [fneg rR]]).
Proof.
  intros Hc.
  destruct (calc_derived_params_valid p Hc)
    as (IFxx & IRxx & w & rF & rR & _ & _ & Hw & HrF & HrR & Hd).
  destruct (valid_lookup p "xB" Hc eq_refl) as [xB HxB].
  destruct (valid_lookup p "zB" Hc eq_refl) as [zB HzB].
  destruct (valid_lookup p "xH" Hc eq_refl) as [xH HxH].
  destruct (valid_lookup p "zH" Hc eq_refl) as [zH HzH].
  exists xB, zB, xH, zH, w, rF, rR. split; [done|].
  unfold Meijaard2007ParameterSet.form_mass_center_vector,
    Meijaard2007ParameterSet.with_derived.
  rewrite Hd, !bind_Ok. cbv [String.append].
  set (pext := list_to_map _).
  assert (forall k v, pext !! k = None -> p !! k = Some v ->
            getitem (pext ∪ p) k = Ok v) as Hplain.
  { intros k v Hk Hv. apply getitem_Some. by rewrite lookup_union_r. }
  assert (forall k v, pext !! k = Some v -> getitem (pext ∪ p) k = Ok v)
    as Hder.
  { intros k v Hk. apply getitem_Some. by apply lookup_union_Some_l. }
  repeat split.
  - rewrite (Hplain "xB" (PyFloat xB)) by done.
    rewrite bind_Ok, (Hder "yB" (PyFloat f0)) by done.
    rewrite bind_Ok, (Hplain "zB" (PyFloat zB)) by done.
    reflexivity.
  - rewrite (Hder "xF" (PyFloat w)) by done.
    rewrite bind_Ok, (Hder "yF" (PyFloat f0)) by done.
    rewrite bind_Ok, (Hder "zF" (PyFloat (fneg rF))) by done.
    reflexivity.
  - rewrite (Hplain "xH" (PyFloat xH)) by done.
    rewrite bind_Ok, (Hder "yH" (PyFloat f0)) by done.
    rewrite bind_Ok, (Hplain "zH" (PyFloat zH)) by done.
    reflexivity.
  - rewrite (Hder "xR" (PyFloat f0)) by done.
    rewrite bind_Ok, (Hder "yR" (PyFloat f0)) by done.
    rewrite bind_Ok, (Hder "zR" (PyFloat (fneg rR))) by done.
    reflexivity.
Qed.

(** X9: on a validated Benchmark parameter set the mass-center vectors
    are [(xB, 0, zB)], [(w, 0, -rF)], [(xH, 0, zH)] and [(0, 0, -rR)]:
    the y component is the literal zero and the wheels sit at their
    axles; an entry the dictionary holds under the name of a derived
    parameter ([yB], [xF], [zR], ...) is never read. *)
Theorem form_mass_center_vector_spec p :
  valid_benchmark p ->
  (exists xB zB xH zH w rF rR,
     (p !! "xB" = Some (PyFloat xB) /\ p !! "zB" = Some (PyFloat zB) /\
      p !! "xH" = Some (PyFloat xH) /\ p !! "zH" = Some (PyFloat zH) /\
      p !! "w" = Some (PyFloat w) /\ p !! "rF" = Some (PyFloat rF) /\
      p !! "rR" = Some (PyFloat rR)) /\
     Meijaard2007ParameterSet.form_mass_center_vector p "B"
     = Ok (Arr2 1 [[xB]; [f0]; [zB]]) /\
     Meijaard2007ParameterSet.form_mass_center_vector p "F"
     = Ok (Arr2 1 [[w]; [f0]; [fneg rF]]) /\
     Meijaard2007ParameterSet.form_mass_center_vector p "H"
     = Ok (Arr2 1 [[xH]; [f0]; [zH]]) /\
     Meijaard2007ParameterSet.form_mass_center_vector p "R"
     = Ok (Arr2 1 [[f0]; [f0]; [fneg rR]])) /\
  (forall b k v,
     b ∈ Meijaard2007ParameterSet.body_labels ->
     k ∈ ["yB"; "yF"; "yH"; "yR"; "xF"; "xR"; "zF"; "zR"] ->
     Meijaard2007ParameterSet.form_mass_center_vector (<[k := v]> p) b
     = Meijaard2007ParameterSet.form_mass_center_vector p b).
Proof.
  intros Hc. split; [by apply mass_center_vectors|].
  intros b k v Hb Hk.
  assert (k ∉ Meijaard2007ParameterSet.par_strings.*1) as Hkn.
  { rewrite !elem_of_cons, elem_of_nil in Hk.
    destruct Hk as [->|[->|[->|[->|[->|[->|[->|[->|[]]]]]]]]]; compute_done. }
  assert (valid_benchmark (<[k := v]> p)) as Hc'.
  { unfold valid_benchmark. by rewrite check_insert_other. }
  destruct (mass_center_vectors p Hc)
    as (xB & zB & xH & zH & w & rF & rR & Hp & HB & HF & HH & HR).
  destruct (mass_center_vectors _ Hc')
    as (xB' & zB' & xH' & zH' & w' & rF' & rR' & Hp' & HB' & HF' & HH' & HR').
  destruct Hp as (H1 & H2 & H3 & H4 & H5 & H6 & H7).
  destruct Hp' as (H1' & H2' & H3' & H4' & H5' & H6' & H7').
  assert (forall k', k' ∈ Meijaard2007ParameterSet.par_strings.*1 ->
            <[k := v]> p !! k' = p !! k') as Hsame.
  { intros k' Hk'. apply lookup_insert_ne. intros ->. done. }
  rewrite Hsame in H1', H2', H3', H4', H5', H6', H7' by compute_done.
  assert (xB' = xB) as -> by congruence.
  assert (zB' = zB) as -> by congruence.
  assert (xH' = xH) as -> by congruence.
  assert (zH' = zH) as -> by congruence.
  assert (w' = w) as -> by congruence.
  assert (rF' = rF) as -> by congruence.
  assert (rR' = rR) as -> by congruence.
  apply body_label_cases in Hb as [-> | [-> | [-> | ->]]]; congruence.
Qed.

Lemma plot_geometry_run fg self show σ l a rR rF w :
  plots.parameters self !! "rR" = Some (PyFloat rR) ->
  plots.parameters self !! "rF" = Some (PyFloat rF) ->
  plots.parameters self !! "w" = Some (PyFloat w) ->
  plots.Meijaard2007ParameterSet.plot_geometry fg self show (Some l)
    (<[l := a]> σ) =
  match fg (plots.parameters self) with
  | Err e => (Err e, <[l := drawn a (ground_and_wheels rR rF w)]> σ)
  | Ok (deex, deez) =>
      let a' := drawn a (ground_and_wheels rR rF w
                           ++ [fundamental_line deex deez]) in
      if show then
        match deex !! 1, deex !! 2, deez !! 1, deez !! 2 with
        | Some x1, Some x2, Some z1, Some z2 =>
            (Ok l, <[l := finalized (drawn a' [steer_axis x1 z1 x2 z2])]> σ)
        | _, _, _, _ => (Err IndexError, <[l := a']> σ)
        end
      else (Ok l, <[l := finalized a']> σ)
  end.
Proof.
  intros HrR HrF Hw.
  unfold plots.Meijaard2007ParameterSet.plot_geometry. cbv zeta.
  rewrite draw_bind, or_subplots_run. cbv beta iota.
  rewrite draw_bind,
    (plot_geometry_from_benchmark_run fg _ show _ l a rR rF w) by done.
  destruct (fg _) as [[deex deez]|e]; [|done].
  cbv zeta. destruct show.
  - destruct (deex !! 1) as [x1|]; [|done].
    destruct (deex !! 2) as [x2|]; [|done].
    destruct (deez !! 1) as [z1|]; [|done].
    destruct (deez !! 2) as [z2|]; [|done].
    cbv beta iota. by rewrite draw_bind, finalize_plot_run.
  - cbv beta iota. by rewrite draw_bind, finalize_plot_run.
Qed.

(** X10: [plot_geometry] of the Benchmark class first draws the ground
    line at zero and the circles of the two wheels, about the mass
    centers of [R] and [F] and one radius above the ground, whatever the
    fundamental geometry does: an exception of it is raised with these
    three artists on the axes.  When it returns, its points are joined
    by one line; without the steer axis the plot is then finalized; with
    it, the dashed line of the steer axis follows when both coordinate
    arrays hold three points, and an [IndexError] is raised, the plot
    not finalized, when one does not. *)
Theorem plot_geometry_spec colors p rider self :
  plots.Meijaard2007ParameterSet.__init__ colors p rider = Ok self ->
  exists rR rF w,
    Meijaard2007ParameterSet.form_mass_center_vector p "R"
    = Ok (Arr2 1 [[f0]; [f0]; [fneg rR]]) /\
    Meijaard2007ParameterSet.form_mass_center_vector p "F"
    = Ok (Arr2 1 [[w]; [f0]; [fneg rF]]) /\
    forall fg show σ l a,
      σ !! l = Some a ->
      (exists r a' rest,
         plots.Meijaard2007ParameterSet.plot_geometry fg self show (Some l) σ
         = (r, <[l := a']> σ) /\
         pyplot.artists a'
         = (pyplot.artists a ++ ground_and_wheels rR rF w ++ rest)%list) /\
      (forall e, fg p = Err e ->
         plots.Meijaard2007ParameterSet.plot_geometry fg self show (Some l) σ
         = (Err e, <[l := drawn a (ground_and_wheels rR rF w)]> σ)) /\
      (forall deex deez, fg p = Ok (deex, deez) ->
         let a' := drawn a (ground_and_wheels rR rF w
                              ++ [fundamental_line deex deez]) in
         (show = false ->
          plots.Meijaard2007ParameterSet.plot_geometry fg self show (Some l) σ
          = (Ok l, <[l := finalized a']> σ)) /\
         (show = true ->
          forall x1 z1 x2 z2,
            deex !! 1 = Some x1 -> deez !! 1 = Some z1 ->
            deex !! 2 = Some x2 -> deez !! 2 = Some z2 ->
            plots.Meijaard2007ParameterSet.plot_geometry fg self show
              (Some l) σ
            = (Ok l,
               <[l := finalized (drawn a' [steer_axis x1 z1 x2 z2])]> σ)) /\
         (show = true -> (length deex < 3 \/ length deez < 3) ->
          plots.Meijaard2007ParameterSet.plot_geometry fg self show (Some l) σ
          = (Err IndexError, <[l := a']> σ))).
Proof.
  intros Hinit.
  destruct (meijaard2007_init_inv _ _ _ _ Hinit) as (Hc & Hp & _ & _ & Hbc).
  destruct (mass_center_vectors p Hc)
    as (xB & zB & xH & zH & w & rF & rR & Hl & _ & HF & _ & HR).
  destruct Hl as (_ & _ & _ & _ & Hw & HrF & HrR).
  exists rR, rF, w. split; [done|]. split; [done|].
  intros fg show σ l a Hla. rewrite <- Hp in Hw, HrF, HrR.
  pose proof (plot_geometry_run fg self show σ l a rR rF w HrR HrF Hw) as Hrun.
  rewrite (insert_id σ l a Hla) in Hrun. rewrite Hrun, Hp. clear Hrun.
  split; [|split].
  - destruct (fg p) as [[deex deez]|e].
    2:{ eexists _, _, []. split; [reflexivity|]. by rewrite app_nil_r. }
    cbv zeta. destruct show.
    2:{ eexists _, _, [_]. split; [reflexivity|]. done. }
    destruct (deex !! 1) as [x1|], (deex !! 2) as [x2|],
      (deez !! 1) as [z1|], (deez !! 2) as [z2|];
      try (eexists _, _, [_]; split; [reflexivity|]; done).
    eexists _, _, [_; _]. split; [reflexivity|]. cbn.
    by rewrite <- !app_assoc.
  - by intros e ->.
  - intros deex deez ->. cbv zeta. split; [by intros ->|]. split.
    + intros -> x1 z1 x2 z2 -> -> -> ->. done.
    + intros -> Hlen.
      destruct (deex !! 1) as [x1|] eqn:Hx1; [|done].
      destruct (deex !! 2) as [x2|] eqn:Hx2; [|done].
      destruct (deez !! 1) as [z1|] eqn:Hz1; [|done].
      destruct (deez !! 2) as [z2|] eqn:Hz2; [|done].
      apply lookup_lt_Some in Hx2, Hz2. lia.
Qed.

End Geometry.

(** ** The bodies of the Principal class *)

Section Principal.
Context {F : Type} `{Float64 F}.
Implicit Types (p : gmap string (pyval F)) (b : string).

Lemma valid_principal_lookup p k :
  valid_principal p ->
  bool_decide (k ∈ Moore2019ParameterSet.par_strings.*1) = true ->
  is_float_at p k.
Proof.
  intros Hc Hk. apply (proj1 (check_ok_iff _ p) Hc).
  by apply bool_decide_eq_true in Hk.
Qed.

Lemma moore2019_derived p :
  valid_principal p ->
  exists w rR rF kRaa kFaa,
    p !! "w" = Some (PyFloat w) /\
    p !! "rR" = Some (PyFloat rR) /\
    p !! "rF" = Some (PyFloat rF) /\
    p !! "kRaa" = Some (PyFloat kRaa) /\
    p !! "kFaa" = Some (PyFloat kFaa) /\
    Moore2019ParameterSet._calc_derived_params p =
      Ok (list_to_map
            [ ("alphaF", PyFloat f0); ("alphaR", PyFloat f0);
              ("yD", PyFloat f0); ("yP", PyFloat f0); ("yH", PyFloat f0);
              ("yR", PyFloat f0); ("yF", PyFloat f0); ("xR", PyFloat f0);
              ("xF", PyFloat w); ("zR", PyFloat (fneg rR));
              ("zF", PyFloat (fneg rF)); ("kRbb", PyFloat kRaa);
              ("kFbb", PyFloat kFaa) ]).
Proof.
  intros Hc.
  destruct (valid_principal_lookup p "w" Hc eq_refl) as [w Hw].
  destruct (valid_principal_lookup p "rR" Hc eq_refl) as [rR HrR].
  destruct (valid_principal_lookup p "rF" Hc eq_refl) as [rF HrF].
  destruct (valid_principal_lookup p "kRaa" Hc eq_refl) as [kRaa HkRaa].
  destruct (valid_principal_lookup p "kFaa" Hc eq_refl) as [kFaa HkFaa].
  exists w, rR, rF, kRaa, kFaa. repeat (split; [assumption|]).
  unfold Moore2019ParameterSet._calc_derived_params, getitem.
  rewrite Hw, HrR, HrF, HkRaa, HkFaa. reflexivity.
Qed.

Lemma moore2019_with_derived p :
  valid_principal p ->
  exists pext,
    Moore2019ParameterSet._calc_derived_params p = Ok pext /\
    plots.Moore2019ParameterSet.with_derived p = Ok (pext ∪ p) /\
    dom pext = list_to_set Moore2019ParameterSet.non_min_par_strings.*1 /\
    (forall k, k ∈ dom pext -> is_float_at pext k).
Proof.
  intros Hc.
  destruct (moore2019_derived p Hc)
    as (w & rR & rF & kRaa & kFaa & _ & _ & _ & _ & _ & Hd).
  eexists. split; [exact Hd|]. split.
  { unfold plots.Moore2019ParameterSet.with_derived. by rewrite Hd. }
  split.
  { rewrite dom_list_to_map_L. apply set_eq. intros k.
    rewrite !elem_of_list_to_set. cbn.
    rewrite !elem_of_cons, !elem_of_nil. tauto. }
  intros k. rewrite dom_list_to_map_L. simpl.
  rewrite !elem_of_union, !elem_of_singleton, elem_of_empty.
  unfold is_float_at.
  intros Hk. repeat (destruct Hk as [->|Hk]; [eexists; reflexivity|]).
  destruct Hk.
Qed.

Lemma moore2019_tables_disjoint k :
  k ∈ Moore2019ParameterSet.non_min_par_strings.*1 ->
  k ∉ Moore2019ParameterSet.par_strings.*1.
Proof.
  revert k. apply Forall_forall. compute_done.
Qed.

Lemma moore2019_label_cases b :
  b ∈ Moore2019ParameterSet.body_labels ->
  b = "D" \/ b = "F" \/ b = "H" \/ b = "P" \/ b = "R".
Proof.
  unfold Moore2019ParameterSet.body_labels.
  rewrite !elem_of_cons, elem_of_nil. tauto.
Qed.

(** The entries of a body of a Principal parameter set. *)
Lemma moore2019_label_entries p b :
  valid_principal p ->
  b ∈ Moore2019ParameterSet.body_labels ->
  exists pext,
    plots.Moore2019ParameterSet.with_derived p = Ok (pext ∪ p) /\
    (forall k, k ∈ Moore2019ParameterSet.par_strings.*1 ->
       (pext ∪ p) !! k = p !! k) /\
    Forall (is_float_at (pext ∪ p))
      ["m" +:+ b; "x" +:+ b; "y" +:+ b; "z" +:+ b;
       "k" +:+ b +:+ "aa"; "k" +:+ b +:+ "bb"; "k" +:+ b +:+ "yy";
       "alpha" +:+ b].
Proof.
  intros Hc Hb.
  destruct (moore2019_with_derived p Hc) as (pext & _ & Hwd & Hdom & Hfl).
  exists pext. split; [exact Hwd|].
  assert (forall k, k ∈ Moore2019ParameterSet.par_strings.*1 ->
            (pext ∪ p) !! k = p !! k) as Hplain.
  { intros k Hk. apply lookup_union_r, not_elem_of_dom.
    rewrite Hdom, elem_of_list_to_set. intros Hk'.
    by apply (moore2019_tables_disjoint k). }
  split; [exact Hplain|].
  assert (forall k,
    bool_decide (k ∈ Moore2019ParameterSet.non_min_par_strings.*1
                 ∨ k ∈ Moore2019ParameterSet.par_strings.*1) = true ->
    is_float_at (pext ∪ p) k) as Hentry.
  { intros k Hk. apply bool_decide_eq_true in Hk. unfold is_float_at.
    destruct (pext !! k) as [v|] eqn:Hv.
    - destruct (Hfl k) as [x Hx]; [apply elem_of_dom; eauto|].
      exists x. by apply lookup_union_Some_l.
    - destruct Hk as [Hk|Hk].
      + assert (k ∈ dom pext) as Hk'
          by (rewrite Hdom; by apply elem_of_list_to_set).
        apply elem_of_dom in Hk' as [? ?]. congruence.
      + destruct (proj1 (check_ok_iff _ p) Hc k Hk) as [x Hx].
        exists x. rewrite lookup_union_r; done. }
  apply moore2019_label_cases in Hb as [-> | [-> | [-> | [-> | ->]]]];
    repeat (apply Forall_cons; split; [by apply Hentry|]);
    apply Forall_nil_2.
Qed.

(** X11: the derived parameters of a validated Principal parameter set
    have exactly the keys of [non_min_par_strings], none of which is a
    key of [par_strings]; together with the dictionary they give each
    of the five bodies a float mass, position [x, y, z], three radii of
    gyration [k..aa, k..bb, k..yy] and angle [alpha]. *)
Theorem moore2019_body_table p :
  valid_principal p ->
  exists pext,
    Moore2019ParameterSet._calc_derived_params p = Ok pext /\
    dom pext = list_to_set Moore2019ParameterSet.non_min_par_strings.*1 /\
    (forall k, k ∈ Moore2019ParameterSet.par_strings.*1 -> pext !! k = None) /\
    forall b, b ∈ Moore2019ParameterSet.body_labels ->
      Forall (is_float_at (pext ∪ p))
        ["m" +:+ b; "x" +:+ b; "y" +:+ b; "z" +:+ b;
         "k" +:+ b +:+ "aa"; "k" +:+ b +:+ "bb"; "k" +:+ b +:+ "yy";
         "alpha" +:+ b].
Proof.
  intros Hc.
  destruct (moore2019_with_derived p Hc) as (pext & Hd & Hwd & Hdom & Hfl).
  exists pext. split; [done|]. split; [done|]. split.
  - intros k Hk. apply not_elem_of_dom.
    rewrite Hdom, elem_of_list_to_set. intros Hk'.
    by apply (moore2019_tables_disjoint k).
  - intros b Hb.
    destruct (moore2019_label_entries p b Hc Hb) as (pext' & Hwd' & _ & Hall).
    rewrite Hwd in Hwd'. injection Hwd' as Heq. by rewrite Heq.
Qed.

Lemma moore2019_init_inv `{OfInt F} colors p self :
  plots.Moore2019ParameterSet.__init__ colors p = Ok self ->
  valid_principal p /\
  plots.parameters self = p /\
  plots.includes_rider self = None /\
  plots.body_labels self = Moore2019ParameterSet.body_labels /\
  plots.ParameterSet._generate_body_colors colors
    Moore2019ParameterSet.body_labels = Ok (plots.body_colors self).
Proof.
  unfold plots.Moore2019ParameterSet.__init__, ParameterSet.__init__.
  unfold valid_principal.
  destruct (ParameterSet._check_parameters _ p) as [[]|e]; [|discriminate].
  rewrite bind_Ok. cbv zeta.
  change ["D"; "F"; "H"; "P"; "R"] with Moore2019ParameterSet.body_labels.
  destruct (plots.ParameterSet._generate_body_colors _ _) as [bc|e];
    [|discriminate].
  rewrite bind_Ok. intros [= <-]. done.
Qed.

End Principal.

(** ** The drawings of the Principal class *)

Ltac draw_steps :=
  repeat (rewrite draw_bind;
          first [ rewrite draw_lift | rewrite or_subplots_run
                | rewrite add_patch_run | rewrite plot_run
                | rewrite finalize_plot_run | rewrite draw_ret ];
          cbv beta iota; cbn [as_float64]).

Section PrincipalDrawings.
Context {F : Type} `{Float64 F} `{Numpy F} `{OfInt F} `{Elementary F}.
Implicit Types (σ : gmap pyplot.loc (pyplot.Axes F)) (l : pyplot.loc).
Implicit Types (a : pyplot.Axes F) (self : plots.instance F).
Implicit Types (p : gmap string (pyval F)) (b : string).

(** X12: for a wheel ([F] or [R]) of an instance that construction
    returned, [k..bb] is the entry [k..aa] and [alpha] is zero, so
    [plot_body_principal_inertia_ellipsoid] of the Principal class
    computes the ellipse from [k..aa] and [k..yy] alone: when both
    squares are in range it adds one ellipse about the axle, of width
    [sqrt(5/2 (-kaa² + kyy² + kaa²))], height
    [sqrt(5/2 (kaa² + kyy² - kaa²))] and angle [-rad2deg(0)], in the
    color of the wheel, and finalizes the axes; when a square is out of
    range it raises [OverflowError] and draws nothing. *)
Theorem wheel_ellipsoid_spec colors p self b σ l a :
  plots.Moore2019ParameterSet.__init__ colors p = Ok self ->
  b = "F" \/ b = "R" ->
  σ !! l = Some a ->
  exists pd (x z kaa kyy : F) c,
    plots.Moore2019ParameterSet.with_derived p = Ok pd /\
    pd !! ("x" +:+ b) = Some (PyFloat x) /\
    pd !! ("z" +:+ b) = Some (PyFloat z) /\
    p !! ("k" +:+ b +:+ "aa") = Some (PyFloat kaa) /\
    p !! ("k" +:+ b +:+ "yy") = Some (PyFloat kyy) /\
    pd !! ("k" +:+ b +:+ "bb") = Some (PyFloat kaa) /\
    pd !! ("alpha" +:+ b) = Some (PyFloat f0) /\
    plots.body_colors self !! b = Some c /\
    plots.Moore2019ParameterSet.plot_body_principal_inertia_ellipsoid
      self b (Some l) σ
    = match py_pow kaa 2, py_pow kyy 2 with
      | Some kaa2, Some kyy2 =>
          (Ok l,
           <[l := finalized
                    (drawn a
                       [pyplot.Ellipse (x, z)
                          (np_sqrt (fmul (fdiv (of_int 5) (of_int 2))
                                         (fadd (fadd (fneg kaa2) kyy2) kaa2)))
                          (np_sqrt (fmul (fdiv (of_int 5) (of_int 2))
                                         (plots.fsub (fadd kaa2 kyy2) kaa2)))
                          [("angle", PyFloat (fneg (np_rad2deg f0)));
                           ("fill", PyBool false);
                           ("color", PyStr c)]])]> σ)
      | _, _ => (Err OverflowError, σ)
      end.
Proof.
  intros Hinit Hb Hl.
  destruct (moore2019_init_inv _ _ _ Hinit) as (Hc & Hp & _ & _ & Hbc).
  assert (b ∈ Moore2019ParameterSet.body_labels) as Hb'
    by (destruct Hb as [->| ->]; compute_done).
  destruct (proj2 (body_colors_dom _ _ _ b Hbc) Hb') as [c Hcol].
  destruct (moore2019_label_entries p b Hc Hb') as (pext & Hwd & Hplain & Hall).
  apply Forall_cons in Hall as [_ Hall].
  apply Forall_cons in Hall as [[x Hx] Hall].
  apply Forall_cons in Hall as [_ Hall].
  apply Forall_cons in Hall as [[z Hz] Hall].
  apply Forall_cons in Hall as [[kaa Haa] Hall].
  apply Forall_cons in Hall as [[kbb Hbb] Hall].
  apply Forall_cons in Hall as [[kyy Hyy] Hall].
  apply Forall_cons in Hall as [[alpha Hal] _].
  destruct (moore2019_derived p Hc)
    as (w & rR & rF & kRaa & kFaa & _ & _ & _ & HkRaa & HkFaa & Hd).
  assert (kbb = kaa /\ alpha = f0) as [-> ->].
  { unfold plots.Moore2019ParameterSet.with_derived in Hwd.
    rewrite Hd in Hwd. injection Hwd as Hpe.
    rewrite <- Hpe in Haa, Hbb, Hal.
    destruct Hb as [->| ->]; cbv [String.append] in Haa, Hbb, Hal.
    - rewrite lookup_union_r in Haa by done.
      rewrite (lookup_union_Some_l _ _ "kFbb" (PyFloat kFaa)) in Hbb by done.
      rewrite (lookup_union_Some_l _ _ "alphaF" (PyFloat f0)) in Hal by done.
      split; congruence.
    - rewrite lookup_union_r in Haa by done.
      rewrite (lookup_union_Some_l _ _ "kRbb" (PyFloat kRaa)) in Hbb by done.
      rewrite (lookup_union_Some_l _ _ "alphaR" (PyFloat f0)) in Hal by done.
      split; congruence. }
  exists (pext ∪ p), x, z, kaa, kyy, c. split; [done|]. split; [done|].
  split; [done|]. split.
  { rewrite <- Hplain; [done|]. destruct Hb as [->| ->]; compute_done. }
  split.
  { rewrite <- Hplain; [done|]. destruct Hb as [->| ->]; compute_done. }
  split; [done|]. split; [done|]. split; [done|].
  unfold plots.Moore2019ParameterSet.plot_body_principal_inertia_ellipsoid.
  rewrite Hp, Hwd. unfold plots.Moore2019ParameterSet.square.
  destruct (py_pow kaa 2) as [kaa2|] eqn:Hpa;
    [destruct (py_pow kyy 2) as [kyy2|] eqn:Hpy|].
  - rewrite <- (insert_id σ l a Hl) at 1.
    repeat (progress (draw_steps;
      rewrite ?(getitem_Some _ _ _ Hx), ?(getitem_Some _ _ _ Hz),
        ?(getitem_Some _ _ _ Haa), ?(getitem_Some _ _ _ Hbb),
        ?(getitem_Some _ _ _ Hyy), ?Hpa, ?Hpy,
        ?(getitem_Some _ _ _ Hal), ?(getitem_Some _ _ _ Hcol))).
    rewrite ?draw_ret. reflexivity.
  - repeat (progress (draw_steps;
      rewrite ?(getitem_Some _ _ _ Haa), ?(getitem_Some _ _ _ Hbb),
        ?(getitem_Some _ _ _ Hyy), ?Hpa, ?Hpy,
        ?(getitem_Some _ _ _ Hal))).
    reflexivity.
  - repeat (progress (draw_steps;
      rewrite ?(getitem_Some _ _ _ Haa), ?(getitem_Some _ _ _ Hbb),
        ?(getitem_Some _ _ _ Hyy), ?Hpa,
        ?(getitem_Some _ _ _ Hal))).
    reflexivity.
Qed.

(** X13: on an instance that construction returned,
    [plot_person_diamond] without the cross adds one line in the color
    of the rider [P] and finalizes the axes.  The line is closed: it
    goes through four corners and back to the first, the corners being
    [(xP, zP)] moved by [wP/2], [-lP/2], [-wP/2] and [lP/2] along the
    directions of the angles [-alphaP] and [-alphaP + pi/2] in turn. *)
Theorem person_diamond_spec colors p self σ l a :
  plots.Moore2019ParameterSet.__init__ colors p = Ok self ->
  σ !! l = Some a ->
  exists (wP lP xP zP alphaP : F) c,
    p !! "wP" = Some (PyFloat wP) /\ p !! "lP" = Some (PyFloat lP) /\
    p !! "xP" = Some (PyFloat xP) /\ p !! "zP" = Some (PyFloat zP) /\
    p !! "alphaP" = Some (PyFloat alphaP) /\
    plots.body_colors self !! "P" = Some c /\
    let two := of_int 2 in
    let across := fneg alphaP in
    let along := fadd (fneg alphaP) (fdiv np_pi two) in
    let x0 := fadd xP (fmul (fdiv wP two) (np_cos across)) in
    let x1 := fadd xP (fmul (fdiv (fneg lP) two) (np_cos along)) in
    let x2 := fadd xP (fmul (fdiv (fneg wP) two) (np_cos across)) in
    let x3 := fadd xP (fmul (fdiv lP two) (np_cos along)) in
    let z0 := fadd zP (fmul (fdiv wP two) (np_sin across)) in
    let z1 := fadd zP (fmul (fdiv (fneg lP) two) (np_sin along)) in
    let z2 := fadd zP (fmul (fdiv (fneg wP) two) (np_sin across)) in
    let z3 := fadd zP (fmul (fdiv lP two) (np_sin along)) in
    plots.Moore2019ParameterSet.plot_person_diamond self false (Some l) σ
    = (Ok l,
       <[l := finalized
                (drawn a
                   [pyplot.Line2D [x0; x1; x2; x3; x0] [z0; z1; z2; z3; z0]
                      None [("color", PyStr c)]])]> σ).
Proof.
  intros Hinit Hl.
  destruct (moore2019_init_inv _ _ _ Hinit) as (Hc & Hp & _ & _ & Hbc).
  destruct (proj2 (body_colors_dom _ _ _ "P" Hbc)) as [c Hcol];
    [compute_done|].
  destruct (valid_principal_lookup p "wP" Hc eq_refl) as [wP HwP].
  destruct (valid_principal_lookup p "lP" Hc eq_refl) as [lP HlP].
  destruct (valid_principal_lookup p "xP" Hc eq_refl) as [xP HxP].
  destruct (valid_principal_lookup p "zP" Hc eq_refl) as [zP HzP].
  destruct (valid_principal_lookup p "alphaP" Hc eq_refl) as [al Hal].
  exists wP, lP, xP, zP, al, c.
  do 6 (split; [assumption|]). cbv zeta.
  rewrite <- (insert_id σ l a Hl) at 1.
  unfold plots.Moore2019ParameterSet.plot_person_diamond.
  rewrite Hp. cbv zeta.
  rewrite (item_Some _ _ _ HwP), (item_Some _ _ _ HlP),
    (item_Some _ _ _ HxP), (item_Some _ _ _ HzP), (item_Some _ _ _ Hal),
    (getitem_Some _ _ _ Hcol).
  rewrite !bind_Ok. draw_steps. rewrite draw_ret. cbn [map]. reflexivity.
Qed.

(** X14: on an instance that construction returned,
    [plot_body_principal_radii_of_gyration] of the Principal class adds,
    for a body of [body_labels], three dashed artists in the color of
    the body and finalizes the axes: the circle of radius [k..yy] about
    the mass center [(x, z)], the line between the points at [k..bb] on
    both sides of the mass center along the direction of the angle
    [-alpha], and the line between the points at [k..aa] on both sides
    along the direction of the angle [-alpha - pi/2]. *)
Theorem principal_radii_lines colors p self b σ l a :
  plots.Moore2019ParameterSet.__init__ colors p = Ok self ->
  b ∈ Moore2019ParameterSet.body_labels ->
  σ !! l = Some a ->
  exists pd (x z kaa kbb kyy alpha : F) c,
    plots.Moore2019ParameterSet.with_derived p = Ok pd /\
    (pd !! ("x" +:+ b) = Some (PyFloat x) /\
     pd !! ("z" +:+ b) = Some (PyFloat z) /\
     pd !! ("k" +:+ b +:+ "aa") = Some (PyFloat kaa) /\
     pd !! ("k" +:+ b +:+ "bb") = Some (PyFloat kbb) /\
     pd !! ("k" +:+ b +:+ "yy") = Some (PyFloat kyy) /\
     pd !! ("alpha" +:+ b) = Some (PyFloat alpha)) /\
    plots.body_colors self !! b = Some c /\
    let across := fneg alpha in
    let along := plots.fsub (fneg alpha) (fdiv np_pi (of_int 2)) in
    plots.Moore2019ParameterSet.plot_body_principal_radii_of_gyration
      self b (Some l) σ
    = (Ok l,
       <[l := finalized
                (drawn a
                   [pyplot.Circle (x, z) kyy
                      [("fill", PyBool false); ("color", PyStr c);
                       ("linestyle", PyStr "--")];
                    pyplot.Line2D
                      [plots.fsub x (fmul kbb (np_cos across));
                       fadd x (fmul kbb (np_cos across))]
                      [plots.fsub z (fmul kbb (np_sin across));
                       fadd z (fmul kbb (np_sin across))]
                      None
                      [("color", PyStr c); ("linestyle", PyStr "--")];
                    pyplot.Line2D
                      [plots.fsub x (fmul kaa (np_cos along));
                       fadd x (fmul kaa (np_cos along))]
                      [plots.fsub z (fmul kaa (np_sin along));
                       fadd z (fmul kaa (np_sin along))]
                      None
                      [("color", PyStr c); ("linestyle", PyStr "--")]])]> σ).
Proof.
  intros Hinit Hb Hl.
  destruct (moore2019_init_inv _ _ _ Hinit) as (Hc & Hp & _ & _ & Hbc).
  destruct (proj2 (body_colors_dom _ _ _ b Hbc) Hb) as [c Hcol].
  destruct (moore2019_label_entries p b Hc Hb) as (pext & Hwd & Hplain & Hall).
  apply Forall_cons in Hall as [_ Hall].
  apply Forall_cons in Hall as [[x Hx] Hall].
  apply Forall_cons in Hall as [_ Hall].
  apply Forall_cons in Hall as [[z Hz] Hall].
  apply Forall_cons in Hall as [[kaa Haa] Hall].
  apply Forall_cons in Hall as [[kbb Hbb] Hall].
  apply Forall_cons in Hall as [[kyy Hyy] Hall].
  apply Forall_cons in Hall as [[al Hal] _].
  exists (pext ∪ p), x, z, kaa, kbb, kyy, al, c.
  split; [done|]. split; [done|]. split; [done|]. cbv zeta.
  rewrite <- (insert_id σ l a Hl) at 1.
  unfold plots.Moore2019ParameterSet.plot_body_principal_radii_of_gyration.
  rewrite Hp, Hwd. cbv zeta.
  repeat (progress (draw_steps;
    rewrite ?(getitem_Some _ _ _ Hx), ?(getitem_Some _ _ _ Hz),
      ?(getitem_Some _ _ _ Haa), ?(getitem_Some _ _ _ Hbb),
      ?(getitem_Some _ _ _ Hyy), ?(getitem_Some _ _ _ Hal),
      ?(getitem_Some _ _ _ Hcol))).
  rewrite draw_ret, !drawn_drawn. cbn [app]. reflexivity.
Qed.

End PrincipalDrawings.

(** ** What a method does to its axes

    [acts R l P m Q]: run on a store that holds at [l] an axes with
    [P], the method [m] changes the axes at [l] only, along [R], and,
    when it returns [x], leaves [Q x] of the axes. *)

#[global] Instance extends_preorder {F} : PreOrder (@extends F).
Proof.
  split.
  - intros a. split; [done|tauto].
  - intros a b c [H1 H2] [H3 H4]. split; [by etrans|tauto].
Qed.

#[global] Instance same_settings_preorder {F} : PreOrder (@same_settings F).
Proof.
  split.
  - intros a. by repeat split.
  - intros a b c (H1 & H2 & H3 & H4 & H5) (H1' & H2' & H3' & H4' & H5').
    split; [by etrans|]. repeat split; congruence.
Qed.

Section Acts.
Context {F : Type} (R : relation (pyplot.Axes F)) `{!PreOrder R}.
Hypothesis R_drawn : forall a xs, R a (drawn a xs).
Implicit Types (σ : gmap pyplot.loc (pyplot.Axes F)) (l : pyplot.loc).
Implicit Types (a : pyplot.Axes F) (P : pyplot.Axes F -> Prop).

Lemma acts_ret {A} l P (x : A) (Q : A -> pyplot.Axes F -> Prop) :
  (forall a, P a -> Q x a) -> acts R l P (mret x) Q.
Proof.
  intros HQ σ a Hl HP. exists (Ok x), a. rewrite insert_id by done.
  split; [done|]. split; [done|]. intros ? [= <-]. by apply HQ.
Qed.

Lemma acts_lift {A} l P (r : result A) :
  acts R l P (pyplot.lift r) (fun _ a => P a).
Proof.
  intros σ a Hl HP. exists r, a. rewrite insert_id by done. done.
Qed.

Lemma acts_bind {A B} l P (m : pyplot.St F A) (k : A -> pyplot.St F B)
    (Q1 : A -> pyplot.Axes F -> Prop) (Q2 : B -> pyplot.Axes F -> Prop) :
  acts R l P m Q1 ->
  (forall x, acts R l (Q1 x) (k x) Q2) ->
  acts R l P (m ≫= k) Q2.
Proof.
  intros Hm Hk σ a Hl HP.
  destruct (Hm σ a Hl HP) as (r & a1 & Hrun & HR & HQ).
  rewrite draw_bind, Hrun. destruct r as [x|e].
  - destruct (Hk x (<[l := a1]> σ) a1) as (r2 & a2 & Hrun2 & HR2 & HQ2);
      [apply lookup_insert_eq|by apply HQ|].
    exists r2, a2. rewrite Hrun2, insert_insert_eq.
    split; [done|]. split; [by etrans|done].
  - exists (Err e), a1. split; [done|]. split; [done|]. intros ? [=].
Qed.

Lemma acts_consequence {A} l P P' (m : pyplot.St F A)
    (Q Q' : A -> pyplot.Axes F -> Prop) :
  acts R l P m Q ->
  (forall a, P' a -> P a) -> (forall x a, Q x a -> Q' x a) ->
  acts R l P' m Q'.
Proof.
  intros Hm HP HQ σ a Hl HP'.
  destruct (Hm σ a Hl (HP a HP')) as (r & a1 & Hrun & HR & HQ1).
  exists r, a1. split; [done|]. split; [done|]. intros x ->. by apply HQ, HQ1.
Qed.

Lemma acts_assume {A} l (φ : Prop) P (m : pyplot.St F A)
    (Q : A -> pyplot.Axes F -> Prop) :
  (φ -> acts R l P m Q) -> acts R l (fun a => φ /\ P a) m Q.
Proof. intros Hm σ a Hl [Hφ HP]. by apply Hm. Qed.

Lemma acts_add_artist l P (x : pyplot.artist F) :
  acts R l P (pyplot.add_artist l x) (fun _ _ => True).
Proof.
  intros σ a Hl HP. exists (Ok tt), (drawn a [x]).
  rewrite <- (insert_id σ l a Hl) at 1. rewrite add_artist_run. done.
Qed.

Lemma acts_or_subplots l P :
  acts R l P (pyplot.or_subplots (Some l)) (fun x a => x = l /\ P a).
Proof. by apply acts_ret. Qed.

Lemma acts_for_ax {B} (f : B -> option pyplot.loc -> pyplot.St F pyplot.loc)
    (bodies : list B) l :
  (forall b, acts R l (fun _ => True) (f b (Some l)) (fun x _ => x = l)) ->
  acts R l (fun _ => True) (pyplot.for_ax f bodies l) (fun x _ => x = l).
Proof.
  intros Hf. induction bodies as [|b bodies IH]; [by apply acts_ret|].
  cbn [pyplot.for_ax]. eapply acts_bind; [apply Hf|].
  intros x. cbv beta.
  intros σ a Hl ->. by apply IH.
Qed.

Lemma acts_bind_pure {A B} l (m : pyplot.St F A) (k : A -> pyplot.St F B)
    (φ : A -> Prop) (Q : B -> pyplot.Axes F -> Prop) :
  acts R l (fun _ => True) m (fun x _ => φ x) ->
  (forall x, φ x -> acts R l (fun _ => True) (k x) Q) ->
  acts R l (fun _ => True) (m ≫= k) Q.
Proof.
  intros Hm Hk. eapply acts_bind; [exact Hm|].
  intros x σ a Hl Hx. by apply Hk.
Qed.

Lemma acts_ret_eq l :
  acts R l (fun _ => True) (mret l) (fun x _ => x = l).
Proof. by apply acts_ret. Qed.

Lemma acts_ret_tt l :
  acts R l (fun _ => True) (mret tt) (fun _ _ => True).
Proof. by apply acts_ret. Qed.

Lemma acts_lift_pure {A} l (r : result A) :
  acts R l (fun _ => True) (pyplot.lift r) (fun _ _ => True).
Proof. apply acts_lift. Qed.

Lemma acts_some l :
  acts R l (fun _ => True) (pyplot.or_subplots (Some l)) (fun x _ => x = l).
Proof. by apply acts_ret. Qed.

Lemma acts_add_patch l (x : pyplot.artist F) :
  acts R l (fun _ => True) (pyplot.add_patch l x) (fun _ _ => True).
Proof. apply acts_add_artist. Qed.

Lemma acts_plot l (xdata ydata : list F) fmt kwargs :
  acts R l (fun _ => True) (pyplot.plot l xdata ydata fmt kwargs)
       (fun _ _ => True).
Proof. apply acts_add_artist. Qed.

Lemma acts_axhline l (y : F) kwargs :
  acts R l (fun _ => True) (pyplot.axhline l y kwargs) (fun _ _ => True).
Proof. apply acts_add_artist. Qed.

Lemma acts_text l (x y : F) s :
  acts R l (fun _ => True) (pyplot.text l x y s) (fun _ _ => True).
Proof. apply acts_add_artist. Qed.

End Acts.

Ltac acts_side := try typeclasses eauto; try assumption.

Ltac acts_head :=
  first [ apply acts_some | apply acts_lift_pure | apply acts_add_patch
        | apply acts_plot | apply acts_axhline | apply acts_text
        | apply acts_ret_tt ]; acts_side.


Ltac acts_intro :=
  let x := fresh "x" in
  let Hx := fresh "Hx" in
  intros x Hx; cbv beta in Hx;
  try (repeat match goal with
              | y : (_ * _)%type |- _ => destruct y
              end);
  try subst x; cbv beta iota zeta.

Ltac acts_seq head :=
  eapply acts_bind_pure; [typeclasses eauto | head | acts_intro].

Ltac acts_done := apply acts_ret_eq; acts_side.

Section Ellipsoids.
Context {F : Type} `{Float64 F} `{Numpy F} `{OfInt F} `{Elementary F}.
Context (R : relation (pyplot.Axes F)) `{!PreOrder R}.
Hypothesis R_drawn : forall a xs, R a (drawn a xs).
Implicit Types (l : pyplot.loc) (self : plots.instance F).

Lemma acts_com_symbol l center radius color label :
  acts R l (fun _ => True) (plots._com_symbol l center radius color label)
       (fun x _ => x = l).
Proof.
  unfold plots._com_symbol. cbv zeta.
  do 3 acts_seq acts_head.
  eapply acts_bind_pure with (φ := fun _ => True);
    [typeclasses eauto | destruct label; acts_head | acts_intro].
  acts_done.
Qed.

Lemma acts_benchmark_ellipsoid l self b :
  acts R l (fun _ => True)
    (plots.Meijaard2007ParameterSet.plot_body_principal_inertia_ellipsoid
       self b (Some l))
    (fun x _ => x = l).
Proof.
  unfold plots.Meijaard2007ParameterSet.plot_body_principal_inertia_ellipsoid.
  repeat acts_seq acts_head.
  acts_done.
Qed.

Lemma acts_benchmark_ellipsoids l self bodies :
  acts R l (fun _ => True)
    (plots.Meijaard2007ParameterSet.plot_principal_inertia_ellipsoids
       self bodies (Some l))
    (fun x _ => x = l).
Proof.
  unfold plots.Meijaard2007ParameterSet.plot_principal_inertia_ellipsoids.
  acts_seq acts_head.
  acts_seq ltac:(apply acts_for_ax; acts_side;
                 intros b; apply acts_benchmark_ellipsoid).
  acts_done.
Qed.

End Ellipsoids.

Lemma extends_drawn {F} (a : pyplot.Axes F) xs : extends a (drawn a xs).
Proof. split; [by apply prefix_app_r|done]. Qed.

Lemma extends_finalized {F} (a : pyplot.Axes F) : extends a (finalized a).
Proof. split; done. Qed.

Lemma same_settings_drawn {F} (a : pyplot.Axes F) xs :
  same_settings a (drawn a xs).
Proof. split; [by apply prefix_app_r|done]. Qed.

Section Extends.
Context {F : Type} `{Float64 F} `{Numpy F} `{OfInt F} `{Elementary F}.
Implicit Types (l : pyplot.loc) (self : plots.instance F).
Implicit Types (fg : gmap string (pyval F) -> result (list F * list F)).

Lemma acts_finalize_plot l :
  acts (@extends F) l (fun _ => True) (plots.ParameterSet._finalize_plot l)
       (fun _ (a : pyplot.Axes F) => pyplot.inverted a = true).
Proof.
  intros σ a Hl _. exists (Ok tt), (finalized a).
  rewrite (finalize_plot_at σ l a Hl).
  split; [done|]. split; [apply extends_finalized|done].
Qed.

Lemma acts_finalize_plot_pure l :
  acts (@extends F) l (fun _ => True) (plots.ParameterSet._finalize_plot l)
       (fun _ _ => True).
Proof. eapply acts_consequence; [apply acts_finalize_plot|done..]. Qed.

(** A y axis that points downwards still does after a call. *)
Lemma acts_inverted {A} l (m : pyplot.St F A) (φ : A -> Prop) :
  acts (@extends F) l (fun _ => True) m (fun x _ => φ x) ->
  acts (@extends F) l (fun a : pyplot.Axes F => pyplot.inverted a = true) m
       (fun x (a : pyplot.Axes F) => φ x /\ pyplot.inverted a = true).
Proof.
  intros Hm σ a Hl Hinv.
  destruct (Hm σ a Hl I) as (r & a' & Hrun & [Hpre Hkeep] & Hφ).
  exists r, a'. split; [done|]. split; [done|].
  intros x Hx. split; [by apply Hφ|by apply Hkeep].
Qed.

Ltac ext_draw :=
  first [ apply acts_com_symbol; [typeclasses eauto|apply extends_drawn]
        | apply acts_some; typeclasses eauto
        | apply acts_lift_pure; typeclasses eauto
        | apply acts_add_patch; apply extends_drawn
        | apply acts_plot; apply extends_drawn
        | apply acts_axhline; apply extends_drawn
        | apply acts_text; apply extends_drawn
        | apply acts_ret_tt; typeclasses eauto ].

Ltac ext_head := first [apply acts_finalize_plot_pure | ext_draw].

Lemma acts_plot_geometry_from_benchmark fg l p show :
  acts (@extends F) l (fun _ => True)
    (plots._plot_geometry_from_benchmark fg l p show) (fun x _ => x = l).
Proof.
  unfold plots._plot_geometry_from_benchmark. cbv zeta.
  repeat acts_seq ext_head.
  destruct show; [|acts_done].
  repeat acts_seq ext_head. acts_done.
Qed.

Ltac ext_loop lem :=
  apply acts_for_ax; [typeclasses eauto|]; intros ?; apply lem.

Lemma acts_benchmark_geometry fg l self show :
  acts (@extends F) l (fun _ => True)
    (plots.Meijaard2007ParameterSet.plot_geometry fg self show (Some l))
    (fun x (a : pyplot.Axes F) => x = l /\ pyplot.inverted a = true).
Proof.
  unfold plots.Meijaard2007ParameterSet.plot_geometry. cbv zeta.
  acts_seq ext_head.
  acts_seq ltac:(apply acts_plot_geometry_from_benchmark).
  eapply acts_bind; [typeclasses eauto|apply acts_finalize_plot|].
  intros []. apply acts_ret; [typeclasses eauto|]. by intros a ?.
Qed.

Lemma acts_benchmark_body_mass_center l self b :
  acts (@extends F) l (fun _ => True)
    (plots.Meijaard2007ParameterSet.plot_body_mass_center self b (Some l))
    (fun x _ => x = l).
Proof.
  unfold plots.Meijaard2007ParameterSet.plot_body_mass_center.
  unfold plots.item. repeat acts_seq ext_head. acts_done.
Qed.

Lemma acts_benchmark_mass_centers l self bodies :
  acts (@extends F) l (fun _ => True)
    (plots.Meijaard2007ParameterSet.plot_mass_centers self bodies (Some l))
    (fun x _ => x = l).
Proof.
  unfold plots.Meijaard2007ParameterSet.plot_mass_centers.
  acts_seq ext_head.
  acts_seq ltac:(ext_loop acts_benchmark_body_mass_center).
  acts_done.
Qed.

Lemma acts_benchmark_body_radii l self b :
  acts (@extends F) l (fun _ => True)
    (plots.Meijaard2007ParameterSet.plot_body_principal_radii_of_gyration
       self b (Some l))
    (fun x _ => x = l).
Proof.
  unfold plots.Meijaard2007ParameterSet.plot_body_principal_radii_of_gyration.
  repeat acts_seq ext_head. acts_done.
Qed.

Lemma acts_benchmark_radii l self bodies :
  acts (@extends F) l (fun _ => True)
    (plots.Meijaard2007ParameterSet.plot_principal_radii_of_gyration
       self bodies (Some l))
    (fun x _ => x = l).
Proof.
  unfold plots.Meijaard2007ParameterSet.plot_principal_radii_of_gyration.
  acts_seq ext_head.
  acts_seq ltac:(ext_loop acts_benchmark_body_radii).
  acts_done.
Qed.

Lemma acts_benchmark_plot_all fg l self :
  acts (@extends F) l (fun _ => True)
    (plots.Meijaard2007ParameterSet.plot_all fg self (Some l))
    (fun x (a : pyplot.Axes F) => x = l /\ pyplot.inverted a = true).
Proof.
  unfold plots.Meijaard2007ParameterSet.plot_all.
  acts_seq ext_head.
  acts_seq ltac:(apply acts_benchmark_radii).
  acts_seq ltac:(apply acts_benchmark_ellipsoids;
                 [typeclasses eauto|apply extends_drawn]).
  eapply acts_bind; [typeclasses eauto|apply acts_benchmark_geometry|].
  intros x. cbv beta. apply acts_assume. intros ->.
  eapply acts_bind; [typeclasses eauto| |].
  { apply acts_inverted, acts_benchmark_mass_centers. }
  intros y. cbv beta. apply acts_assume. intros ->.
  apply acts_ret; [typeclasses eauto|]. done.
Qed.

Lemma acts_principal_geometry fg l self show :
  acts (@extends F) l (fun _ => True)
    (plots.Moore2019ParameterSet.plot_geometry fg self show (Some l))
    (fun x (a : pyplot.Axes F) => x = l /\ pyplot.inverted a = true).
Proof.
  unfold plots.Moore2019ParameterSet.plot_geometry. cbv zeta.
  acts_seq ext_head.
  acts_seq ltac:(apply acts_plot_geometry_from_benchmark).
  eapply acts_bind; [typeclasses eauto|apply acts_finalize_plot|].
  intros []. apply acts_ret; [typeclasses eauto|]. by intros a ?.
Qed.

Lemma acts_person_diamond l self show_cross :
  acts (@extends F) l (fun _ => True)
    (plots.Moore2019ParameterSet.plot_person_diamond self show_cross (Some l))
    (fun x _ => x = l).
Proof.
  unfold plots.Moore2019ParameterSet.plot_person_diamond. cbv zeta.
  do 7 acts_seq ext_head.
  eapply acts_bind_pure with (φ := fun _ => True);
    [typeclasses eauto| |acts_intro].
  { destruct show_cross; [|ext_head].
    repeat acts_seq ext_head. ext_head. }
  acts_seq ext_head. acts_done.
Qed.

Lemma acts_principal_body_mass_center l self b :
  acts (@extends F) l (fun _ => True)
    (plots.Moore2019ParameterSet.plot_body_mass_center self b (Some l))
    (fun x _ => x = l).
Proof.
  unfold plots.Moore2019ParameterSet.plot_body_mass_center.
  repeat acts_seq ext_head. acts_done.
Qed.

Lemma acts_principal_mass_centers l self bodies :
  acts (@extends F) l (fun _ => True)
    (plots.Moore2019ParameterSet.plot_mass_centers self bodies (Some l))
    (fun x _ => x = l).
Proof.
  unfold plots.Moore2019ParameterSet.plot_mass_centers.
  acts_seq ext_head.
  acts_seq ltac:(ext_loop acts_principal_body_mass_center).
  acts_done.
Qed.

Lemma acts_principal_body_radii l self b :
  acts (@extends F) l (fun _ => True)
    (plots.Moore2019ParameterSet.plot_body_principal_radii_of_gyration
       self b (Some l))
    (fun x _ => x = l).
Proof.
  unfold plots.Moore2019ParameterSet.plot_body_principal_radii_of_gyration.
  cbv zeta. repeat acts_seq ext_head. acts_done.
Qed.

Lemma acts_principal_radii l self bodies :
  acts (@extends F) l (fun _ => True)
    (plots.Moore2019ParameterSet.plot_principal_radii_of_gyration
       self bodies (Some l))
    (fun x _ => x = l).
Proof.
  unfold plots.Moore2019ParameterSet.plot_principal_radii_of_gyration.
  acts_seq ext_head.
  acts_seq ltac:(ext_loop acts_principal_body_radii).
  acts_done.
Qed.

Lemma acts_principal_ellipsoid_finalized l self b :
  acts (@extends F) l (fun _ => True)
    (plots.Moore2019ParameterSet.plot_body_principal_inertia_ellipsoid
       self b (Some l))
    (fun x (a : pyplot.Axes F) => x = l /\ pyplot.inverted a = true).
Proof.
  unfold plots.Moore2019ParameterSet.plot_body_principal_inertia_ellipsoid.
  repeat acts_seq ext_draw.
  eapply acts_bind; [typeclasses eauto|apply acts_finalize_plot|].
  intros []. apply acts_ret; [typeclasses eauto|]. by intros a ?.
Qed.

Lemma acts_principal_ellipsoid l self b :
  acts (@extends F) l (fun _ => True)
    (plots.Moore2019ParameterSet.plot_body_principal_inertia_ellipsoid
       self b (Some l))
    (fun x _ => x = l).
Proof.
  eapply acts_consequence; [apply acts_principal_ellipsoid_finalized|done|].
  by intros x a [-> _].
Qed.

Lemma acts_principal_ellipsoids l self bodies :
  acts (@extends F) l (fun _ => True)
    (plots.Moore2019ParameterSet.plot_principal_inertia_ellipsoids
       self bodies (Some l))
    (fun x _ => x = l).
Proof.
  unfold plots.Moore2019ParameterSet.plot_principal_inertia_ellipsoids.
  acts_seq ext_head.
  acts_seq ltac:(ext_loop acts_principal_ellipsoid).
  acts_done.
Qed.

Lemma acts_principal_plot_all fg l self :
  acts (@extends F) l (fun _ => True)
    (plots.Moore2019ParameterSet.plot_all fg self (Some l))
    (fun x (a : pyplot.Axes F) => x = l /\ pyplot.inverted a = true).
Proof.
  unfold plots.Moore2019ParameterSet.plot_all.
  acts_seq ext_head.
  acts_seq ltac:(apply acts_principal_radii).
  acts_seq ltac:(apply acts_principal_ellipsoids).
  acts_seq ltac:(apply acts_person_diamond).
  eapply acts_bind; [typeclasses eauto|apply acts_principal_geometry|].
  intros x. cbv beta. apply acts_assume. intros ->.
  eapply acts_bind; [typeclasses eauto| |].
  { apply acts_inverted, acts_principal_mass_centers. }
  intros y. cbv beta. apply acts_assume. intros ->.
  apply acts_ret; [typeclasses eauto|]. done.
Qed.

(** X15: [plot_all] of the Benchmark class draws on one axes only,
    whatever the instance holds and whether it returns or raises: given
    an axes it changes no other axes of the store, keeps the artists
    the axes had, in their order, before what it adds, and, when it
    returns, returns that axes with the y axis inverted; given none, it
    does the same on a new axes, which is none of the store's. *)
Theorem benchmark_plot_all_one_axes fg self σ :
  (forall l a, σ !! l = Some a ->
     exists r a',
       plots.Meijaard2007ParameterSet.plot_all fg self (Some l) σ
       = (r, <[l := a']> σ) /\
       pyplot.artists a `prefix_of` pyplot.artists a' /\
       forall x, r = Ok x -> x = l /\ pyplot.inverted a' = true) /\
  σ !! fresh (dom σ) = None /\
  plots.Meijaard2007ParameterSet.plot_all fg self None σ
  = plots.Meijaard2007ParameterSet.plot_all fg self (Some (fresh (dom σ)))
      (<[fresh (dom σ) := pyplot.new_axes]> σ).
Proof.
  split; [|split].
  - intros l a Hl.
    destruct (acts_benchmark_plot_all fg l self σ a Hl I)
      as (r & a' & Hrun & [Hpre _] & Hr).
    by exists r, a'.
  - apply not_elem_of_dom, is_fresh.
  - reflexivity.
Qed.

(** X16: [plot_all] of the Principal class draws on one axes only, as
    that of the Benchmark class does. *)
Theorem principal_plot_all_one_axes fg self σ :
  (forall l a, σ !! l = Some a ->
     exists r a',
       plots.Moore2019ParameterSet.plot_all fg self (Some l) σ
       = (r, <[l := a']> σ) /\
       pyplot.artists a `prefix_of` pyplot.artists a' /\
       forall x, r = Ok x -> x = l /\ pyplot.inverted a' = true) /\
  σ !! fresh (dom σ) = None /\
  plots.Moore2019ParameterSet.plot_all fg self None σ
  = plots.Moore2019ParameterSet.plot_all fg self (Some (fresh (dom σ)))
      (<[fresh (dom σ) := pyplot.new_axes]> σ).
Proof.
  split; [|split].
  - intros l a Hl.
    destruct (acts_principal_plot_all fg l self σ a Hl I)
      as (r & a' & Hrun & [Hpre _] & Hr).
    by exists r, a'.
  - apply not_elem_of_dom, is_fresh.
  - reflexivity.
Qed.

(** X17: [plot_principal_inertia_ellipsoids] of the Benchmark class
    never finalizes the plot: whatever it is given, it leaves the
    direction of the y axis, the aspect and the labels of the axes as
    they were and only adds artists; the ellipsoid of the Principal
    class, when it returns, leaves the y axis inverted. *)
Theorem ellipsoids_and_settings self bodies σ l a :
  σ !! l = Some a ->
  (exists r a',
     plots.Meijaard2007ParameterSet.plot_principal_inertia_ellipsoids
       self bodies (Some l) σ = (r, <[l := a']> σ) /\
     pyplot.artists a `prefix_of` pyplot.artists a' /\
     pyplot.inverted a' = pyplot.inverted a /\
     pyplot.aspect a' = pyplot.aspect a /\
     pyplot.xlabel a' = pyplot.xlabel a /\
     pyplot.ylabel a' = pyplot.ylabel a) /\
  (forall b, exists r a',
     plots.Moore2019ParameterSet.plot_body_principal_inertia_ellipsoid
       self b (Some l) σ = (r, <[l := a']> σ) /\
     forall x, r = Ok x -> pyplot.inverted a' = true).
Proof.
  intros Hl. split.
  - destruct (acts_benchmark_ellipsoids same_settings same_settings_drawn
                l self bodies σ a Hl I) as (r & a' & Hrun & Hsame & _).
    by exists r, a'.
  - intros b.
    destruct (acts_principal_ellipsoid_finalized l self b σ a Hl I)
      as (r & a' & Hrun & _ & Hr).
    exists r, a'. split; [done|]. intros x Hx. by destruct (Hr x Hx).
Qed.

End Extends.

(** ** Construction *)

Section Construction.
Context {F : Type} `{Float64 F} `{OfInt F}.
Implicit Types (p : gmap string (pyval F)) (colors : list string).

(** X18: [__init__] of either class validates the dictionary before
    anything else: when validation raises, construction raises the same
    exception, whatever the color cycle holds.  When it passes,
    construction returns, with four colors or more in the cycle (five
    for the Principal class), an instance that holds the dictionary,
    the rider flag (none for the Principal class), the body labels of
    the class and, for the body at index [i], the color at index [i] of
    the cycle; with fewer colors it raises [IndexError]. *)
Theorem init_with_colors colors p :
  (forall rider,
     match ParameterSet.__init__ Meijaard2007ParameterSet.par_strings p with
     | Err e =>
         plots.Meijaard2007ParameterSet.__init__ colors p rider = Err e
     | Ok _ =>
         if decide (4 <= length colors) then
           exists self,
             plots.Meijaard2007ParameterSet.__init__ colors p rider = Ok self /\
             plots.parameters self = p /\
             plots.includes_rider self = Some rider /\
             plots.body_labels self = Meijaard2007ParameterSet.body_labels /\
             forall i b,
               Meijaard2007ParameterSet.body_labels !! i = Some b ->
               plots.body_colors self !! b = colors !! i
         else
           plots.Meijaard2007ParameterSet.__init__ colors p rider
           = Err IndexError
     end) /\
  match ParameterSet.__init__ Moore2019ParameterSet.par_strings p with
  | Err e => plots.Moore2019ParameterSet.__init__ colors p = Err e
  | Ok _ =>
      if decide (5 <= length colors) then
        exists self,
          plots.Moore2019ParameterSet.__init__ colors p = Ok self /\
          plots.parameters self = p /\
          plots.includes_rider self = None /\
          plots.body_labels self = Moore2019ParameterSet.body_labels /\
          forall i b,
            Moore2019ParameterSet.body_labels !! i = Some b ->
            plots.body_colors self !! b = colors !! i
      else plots.Moore2019ParameterSet.__init__ colors p = Err IndexError
  end.
Proof.
  split.
  - intros rider. unfold plots.Meijaard2007ParameterSet.__init__.
    destruct (ParameterSet.__init__ _ p) as [[]|e]; [|done].
    rewrite bind_Ok. unfold plots.ParameterSet._generate_body_colors.
    destruct (decide (4 <= length colors)) as [Hlen|Hlen].
    + destruct (generate_body_colors_from_ok colors
                  Meijaard2007ParameterSet.body_labels 0 ∅ Hlen)
        as (bc & -> & _ & _ & Hin).
      eexists. split; [reflexivity|]. repeat (split; [done|]).
      intros i b Hi. apply (Hin ltac:(compute_done) i b Hi).
    + rewrite generate_body_colors_from_err; [done|lia|simpl; lia].
  - unfold plots.Moore2019ParameterSet.__init__.
    destruct (ParameterSet.__init__ _ p) as [[]|e]; [|done].
    rewrite bind_Ok. unfold plots.ParameterSet._generate_body_colors.
    cbv zeta.
    destruct (decide (5 <= length colors)) as [Hlen|Hlen].
    + destruct (generate_body_colors_from_ok colors
                  ["D"; "F"; "H"; "P"; "R"] 0 ∅ Hlen)
        as (bc & -> & _ & _ & Hin).
      eexists. split; [reflexivity|]. repeat (split; [done|]).
      intros i b Hi. apply (Hin ltac:(compute_done) i b Hi).
    + rewrite generate_body_colors_from_err; [done|lia|simpl; lia].
Qed.

End Construction.

(** ** The schema tables at construction *)

(** C3, as stated, fails: the Benchmark table has 27 keys and the
    Principal table 36, and the 26 floats left of the test's parameters
    once [zH] is removed, all of them required keys, are refused. *)
Lemma schema_size_counterexample :
  length Meijaard2007ParameterSet.par_strings = 27 /\
  length Moore2019ParameterSet.par_strings = 36 /\
  size (delete "zH" test_models.meijaard2007_parameters) = 26 /\
  forallb (fun kv => isinstance_float kv.2 &&
                     bool_decide (kv.1 ∈ Meijaard2007ParameterSet.par_strings.*1))
          (map_to_list (delete "zH" test_models.meijaard2007_parameters)) = true /\
  plots.Meijaard2007ParameterSet.__init__ samples.tab10
    (delete "zH" test_models.meijaard2007_parameters) true
  = Err (ValueError_missing "zH").
Proof. repeat split; vm_compute; reflexivity. Qed.

(** C3, amended: the Benchmark table requires exactly 27 named floats
    (beside the includes-rider flag, which is not checked) and the
    Principal table exactly 36, all distinct.  With four colors or more
    in the color cycle (five for the Principal class) construction
    succeeds exactly when each of them is present as a float, so that no
    other key is required, and the instance holds the mapping; with
    fewer colors it never succeeds.  A mapping holding exactly the
    required keys has that many entries. *)
Theorem schema_sizes :
  (length Meijaard2007ParameterSet.par_strings = 27 /\
   NoDup Meijaard2007ParameterSet.par_strings.*1 /\
   length Moore2019ParameterSet.par_strings = 36 /\
   NoDup Moore2019ParameterSet.par_strings.*1) /\
  (forall F (colors : list string) (p : gmap string (pyval F))
          (includes_rider : bool),
     (4 <= length colors ->
      ((forall k, k ∈ Meijaard2007ParameterSet.par_strings.*1 ->
                  is_float_at p k)
       <-> exists self,
             plots.Meijaard2007ParameterSet.__init__ colors p includes_rider
             = Ok self /\
             plots.parameters self = p)) /\
     (length colors < 4 ->
      is_Ok (plots.Meijaard2007ParameterSet.__init__ colors p includes_rider)
      = false) /\
     (dom p = list_to_set Meijaard2007ParameterSet.par_strings.*1 ->
      size p = 27)) /\
  (forall F (colors : list string) (p : gmap string (pyval F)),
     (5 <= length colors ->
      ((forall k, k ∈ Moore2019ParameterSet.par_strings.*1 -> is_float_at p k)
       <-> exists self,
             plots.Moore2019ParameterSet.__init__ colors p = Ok self /\
             plots.parameters self = p)) /\
     (length colors < 5 ->
      is_Ok (plots.Moore2019ParameterSet.__init__ colors p) = false) /\
     (dom p = list_to_set Moore2019ParameterSet.par_strings.*1 ->
      size p = 36)).
Proof.
  split; [|split].
  - split; [reflexivity|]. split; [apply meijaard2007_keys_NoDup|].
    split; [reflexivity|apply moore2019_keys_NoDup].
  - intros F colors p b. split; [|split].
    + intros Hlen. rewrite <- check_ok_iff.
      unfold plots.Meijaard2007ParameterSet.__init__, ParameterSet.__init__,
        plots.ParameterSet._generate_body_colors.
      destruct (generate_body_colors_from_ok colors
                  Meijaard2007ParameterSet.body_labels 0 ∅ Hlen)
        as (bc & Hbc & _).
      destruct (ParameterSet._check_parameters _ p) as [[]|e].
      * rewrite bind_Ok, Hbc, bind_Ok. split; [|done].
        intros _. eexists. split; reflexivity.
      * rewrite bind_Err. split; [done|]. by intros (self & Hself & _).
    + intros Hlen.
      unfold plots.Meijaard2007ParameterSet.__init__,
        plots.ParameterSet._generate_body_colors.
      destruct (ParameterSet.__init__ _ p) as [[]|e]; [|reflexivity].
      rewrite bind_Ok, generate_body_colors_from_err; [reflexivity|lia|].
      simpl. lia.
    + intros Hdom.
      apply (size_of_dom p _ meijaard2007_keys_NoDup Hdom).
  - intros F colors p. split; [|split].
    + intros Hlen. rewrite <- check_ok_iff.
      unfold plots.Moore2019ParameterSet.__init__, ParameterSet.__init__,
        plots.ParameterSet._generate_body_colors.
      cbv zeta.
      destruct (generate_body_colors_from_ok colors
                  ["D"; "F"; "H"; "P"; "R"] 0 ∅ Hlen)
        as (bc & Hbc & _).
      destruct (ParameterSet._check_parameters _ p) as [[]|e].
      * rewrite bind_Ok, Hbc, bind_Ok. split; [|done].
        intros _. eexists. split; reflexivity.
      * rewrite bind_Err. split; [done|]. by intros (self & Hself & _).
    + intros Hlen.
      unfold plots.Moore2019ParameterSet.__init__,
        plots.ParameterSet._generate_body_colors.
      cbv zeta.
      destruct (ParameterSet.__init__ _ p) as [[]|e]; [|reflexivity].
      rewrite bind_Ok, generate_body_colors_from_err; [reflexivity|lia|].
      simpl. lia.
    + intros Hdom.
      apply (size_of_dom p _ moore2019_keys_NoDup Hdom).
Qed.

(** ** The inertia drawings of the Benchmark class *)

Section InertiaPlots.
Context {F : Type} `{Float64 F} `{Numpy F} `{OfInt F} `{Elementary F}.
Implicit Types (σ : gmap pyplot.loc (pyplot.Axes F)) (l : pyplot.loc).
Implicit Types (a : pyplot.Axes F) (self : plots.instance F).
Implicit Types (p : gmap string (pyval F)) (b : string).

Lemma plot_body_radii_run self b c σ l a :
  plots.body_colors self !! b = Some c ->
  valid_benchmark (plots.parameters self) ->
  b ∈ Meijaard2007ParameterSet.body_labels ->
  plots.Meijaard2007ParameterSet.plot_body_principal_radii_of_gyration
    self b (Some l) (<[l := a]> σ)
  = match Meijaard2007ParameterSet._planar_principal_radii_of_gyration
            (plots.parameters self) b with
    | Ok k => (Ok l, <[l := finalized (drawn a (benchmark_radii self b))]> σ)
    | Err e => (Err e, <[l := a]> σ)
    end.
Proof.
  intros Hcol Hc Hb.
  destruct (mass_center_entries _ b Hc Hb)
    as (pd & x & y & z & w & Hwd & Hx & Hy & Hz & _ & _ & Hv).
  unfold plots.Meijaard2007ParameterSet.plot_body_principal_radii_of_gyration.
  unfold benchmark_radii.
  rewrite Hwd, Hv, Hcol.
  repeat (progress (draw_steps;
    rewrite ?(getitem_Some _ _ _ Hx), ?(getitem_Some _ _ _ Hz),
      ?(getitem_Some _ _ _ Hcol))).
  destruct (Meijaard2007ParameterSet._planar_principal_radii_of_gyration _ b)
    as [[[[kaa kbb] kyy] alpha]|e]; [|reflexivity].
  cbv beta iota.
  repeat (progress (draw_steps;
    rewrite ?(getitem_Some _ _ _ Hx), ?(getitem_Some _ _ _ Hz),
      ?(getitem_Some _ _ _ Hcol))).
  rewrite draw_ret, !drawn_drawn. reflexivity.
Qed.

Lemma plot_body_ellipsoid_run self b c σ l a :
  plots.body_colors self !! b = Some c ->
  valid_benchmark (plots.parameters self) ->
  b ∈ Meijaard2007ParameterSet.body_labels ->
  plots.Meijaard2007ParameterSet.plot_body_principal_inertia_ellipsoid
    self b (Some l) (<[l := a]> σ)
  = match Meijaard2007ParameterSet._planar_principal_radii_of_gyration
            (plots.parameters self) b with
    | Ok k => (Ok l, <[l := drawn a (benchmark_ellipse self b)]> σ)
    | Err e => (Err e, <[l := a]> σ)
    end.
Proof.
  intros Hcol Hc Hb.
  destruct (mass_center_entries _ b Hc Hb)
    as (pd & x & y & z & w & Hwd & Hx & Hy & Hz & _ & _ & Hv).
  unfold plots.Meijaard2007ParameterSet.plot_body_principal_inertia_ellipsoid.
  unfold benchmark_ellipse.
  rewrite Hwd, Hv, Hcol.
  repeat (progress (draw_steps;
    rewrite ?(getitem_Some _ _ _ Hx), ?(getitem_Some _ _ _ Hz),
      ?(getitem_Some _ _ _ Hcol))).
  destruct (Meijaard2007ParameterSet._planar_principal_radii_of_gyration _ b)
    as [[[[kaa kbb] kyy] alpha]|e]; [|reflexivity].
  cbv beta iota.
  repeat (progress (draw_steps;
    rewrite ?(getitem_Some _ _ _ Hx), ?(getitem_Some _ _ _ Hz),
      ?(getitem_Some _ _ _ Hcol))).
  rewrite draw_ret. reflexivity.
Qed.

(** X20: the inertia drawings of the Benchmark class show what
    [_planar_principal_radii_of_gyration] returns: for a body of
    [body_labels] and the tuple [k] it returns,
    [plot_body_principal_radii_of_gyration] draws the circle and the
    two lines of [k] at the x and z of the mass center and finalizes
    the plot, and [plot_body_principal_inertia_ellipsoid] adds the
    ellipse of [k] there; when the decomposition raises, both raise the
    same exception and draw nothing. *)
Theorem inertia_drawings_spec colors p rider self b σ l a :
  plots.Meijaard2007ParameterSet.__init__ colors p rider = Ok self ->
  b ∈ Meijaard2007ParameterSet.body_labels ->
  σ !! l = Some a ->
  exists x y z c,
    Meijaard2007ParameterSet.form_mass_center_vector p b
    = Ok (Arr2 1 [[x]; [y]; [z]]) /\
    plots.body_colors self !! b = Some c /\
    (forall k,
       Meijaard2007ParameterSet._planar_principal_radii_of_gyration p b = Ok k ->
       plots.Meijaard2007ParameterSet.plot_body_principal_radii_of_gyration
         self b (Some l) σ
       = (Ok l, <[l := finalized (drawn a (radii_artists (x, z) k c))]> σ) /\
       plots.Meijaard2007ParameterSet.plot_body_principal_inertia_ellipsoid
         self b (Some l) σ
       = (Ok l, <[l := drawn a [inertia_ellipse (x, z) k c]]> σ)) /\
    (forall e,
       Meijaard2007ParameterSet._planar_principal_radii_of_gyration p b = Err e ->
       plots.Meijaard2007ParameterSet.plot_body_principal_radii_of_gyration
         self b (Some l) σ = (Err e, σ) /\
       plots.Meijaard2007ParameterSet.plot_body_principal_inertia_ellipsoid
         self b (Some l) σ = (Err e, σ)).
Proof.
  intros Hinit Hb Hl.
  destruct (meijaard2007_init_inv _ _ _ _ Hinit) as (Hc & Hp & _ & _ & Hbc).
  subst p.
  destruct (proj2 (body_colors_dom _ _ _ b Hbc) Hb) as [c Hcol].
  destruct (mass_center_entries _ b Hc Hb)
    as (pd & x & y & z & w & Hwd & Hx & Hy & Hz & _ & _ & Hv).
  exists x, y, z, c. split; [done|]. split; [done|].
  pose proof (plot_body_radii_run self b c σ l a Hcol Hc Hb) as Hr.
  pose proof (plot_body_ellipsoid_run self b c σ l a Hcol Hc Hb) as He.
  rewrite (insert_id σ l a Hl) in Hr, He. rewrite Hr, He.
  unfold benchmark_radii, benchmark_ellipse. rewrite Hv, Hcol.
  split.
  - by intros k ->.
  - by intros e ->.
Qed.

Lemma for_ax_plain {B} (f : B -> option pyplot.loc -> pyplot.St F pyplot.loc)
    (xs : B -> list (pyplot.artist F)) (bodies : list B) l :
  (forall i σ a, i ∈ bodies ->
     f i (Some l) (<[l := a]> σ) = (Ok l, <[l := drawn a (xs i)]> σ)) ->
  forall σ a,
    pyplot.for_ax f bodies l (<[l := a]> σ)
    = (Ok l, <[l := drawn a (concat (map xs bodies))]> σ).
Proof.
  induction bodies as [|i bodies IH]; intros Hf σ a.
  - cbn. by rewrite drawn_nil.
  - cbn [pyplot.for_ax]. rewrite draw_bind, Hf by left. cbv beta iota.
    rewrite IH by (intros; apply Hf; by right).
    by rewrite drawn_drawn.
Qed.

(** X21: [plot_all] of the Benchmark class returns on every
    constructed instance for whose four bodies
    [_planar_principal_radii_of_gyration] returns, when the fundamental
    geometry returns three or more points: it adds, in this order, the
    radii and the ellipses of the four bodies, the five artists of the
    geometry and the symbols of the four mass centers, 37 artists in
    all, and leaves the plot finalized. *)
Theorem benchmark_plot_all_succeeds colors p rider self fg deex deez σ l a :
  plots.Meijaard2007ParameterSet.__init__ colors p rider = Ok self ->
  (forall b, b ∈ Meijaard2007ParameterSet.body_labels ->
     is_Ok (Meijaard2007ParameterSet._planar_principal_radii_of_gyration p b)
     = true) ->
  fg p = Ok (deex, deez) ->
  3 <= length deex -> 3 <= length deez ->
  σ !! l = Some a ->
  exists geometry,
    let xs :=
      (concat (map (benchmark_radii self)
                   Meijaard2007ParameterSet.body_labels)
       ++ concat (map (benchmark_ellipse self)
                      Meijaard2007ParameterSet.body_labels)
       ++ geometry
       ++ concat (map (benchmark_com_symbol self)
                      Meijaard2007ParameterSet.body_labels))%list in
    length geometry = 5 /\ length xs = 37 /\
    plots.Meijaard2007ParameterSet.plot_all fg self (Some l) σ
    = (Ok l, <[l := finalized (drawn a xs)]> σ).
Proof.
  intros Hinit Hmass Hfg Hdx Hdz Hl.
  destruct (meijaard2007_init_inv _ _ _ _ Hinit) as (Hc & Hp & _ & Hlab & Hbc).
  subst p.
  assert (forall b, b ∈ Meijaard2007ParameterSet.body_labels ->
    exists x y z k c,
      Meijaard2007ParameterSet.form_mass_center_vector
        (plots.parameters self) b = Ok (Arr2 1 [[x]; [y]; [z]]) /\
      Meijaard2007ParameterSet._planar_principal_radii_of_gyration
        (plots.parameters self) b = Ok k /\
      plots.body_colors self !! b = Some c) as Hbody.
  { intros b Hb.
    destruct (proj2 (body_colors_dom _ _ _ b Hbc) Hb) as [c Hcol].
    destruct (mass_center_entries _ b Hc Hb)
      as (pd & x & y & z & w & _ & _ & _ & _ & _ & _ & Hv).
    pose proof (Hmass b Hb) as Hrun.
    destruct (Meijaard2007ParameterSet._planar_principal_radii_of_gyration
                (plots.parameters self) b) as [k|e]; [|discriminate].
    by exists x, y, z, k, c. }
  assert (forall b σ a, b ∈ Meijaard2007ParameterSet.body_labels ->
    plots.Meijaard2007ParameterSet.plot_body_principal_radii_of_gyration
      self b (Some l) (<[l := a]> σ)
    = (Ok l, <[l := finalized (drawn a (benchmark_radii self b))]> σ))
    as Hradii.
  { intros b σ1 a1 Hb. destruct (Hbody b Hb) as (x & y & z & k & c & _ & Hk & Hcol).
    by rewrite (plot_body_radii_run self b c), Hk. }
  assert (forall b σ a, b ∈ Meijaard2007ParameterSet.body_labels ->
    plots.Meijaard2007ParameterSet.plot_body_principal_inertia_ellipsoid
      self b (Some l) (<[l := a]> σ)
    = (Ok l, <[l := drawn a (benchmark_ellipse self b)]> σ)) as Hell.
  { intros b σ1 a1 Hb. destruct (Hbody b Hb) as (x & y & z & k & c & _ & Hk & Hcol).
    by rewrite (plot_body_ellipsoid_run self b c), Hk. }
  assert (forall b σ a, b ∈ Meijaard2007ParameterSet.body_labels ->
    plots.Meijaard2007ParameterSet.plot_body_mass_center self b (Some l)
      (<[l := a]> σ)
    = (Ok l, <[l := finalized (drawn a (benchmark_com_symbol self b))]> σ))
    as Hsym.
  { intros b σ1 a1 Hb. apply plot_body_mass_center_symbol; [done..|].
    by apply (body_colors_dom _ _ _ b Hbc). }
  destruct (valid_lookup _ "rR" Hc eq_refl) as [rR HrR].
  destruct (valid_lookup _ "rF" Hc eq_refl) as [rF HrF].
  destruct (valid_lookup _ "w" Hc eq_refl) as [w Hw].
  destruct (deex !! 1) as [x1|] eqn:Hx1;
    [|apply lookup_ge_None in Hx1; lia].
  destruct (deex !! 2) as [x2|] eqn:Hx2;
    [|apply lookup_ge_None in Hx2; lia].
  destruct (deez !! 1) as [z1|] eqn:Hz1;
    [|apply lookup_ge_None in Hz1; lia].
  destruct (deez !! 2) as [z2|] eqn:Hz2;
    [|apply lookup_ge_None in Hz2; lia].
  exists (ground_and_wheels rR rF w
          ++ [fundamental_line deex deez; steer_axis x1 z1 x2 z2])%list.
  cbv zeta. split; [done|]. split.
  { rewrite !length_app.
    assert (forall b, b ∈ Meijaard2007ParameterSet.body_labels ->
      length (benchmark_radii self b) = 3 /\
      length (benchmark_ellipse self b) = 1 /\
      length (benchmark_com_symbol self b) = 4) as Hlen.
    { intros b Hb.
      destruct (Hbody b Hb) as (x & y & z & k & c & Hv & Hk & Hcol).
      destruct (valid_lookup _ "w" Hc eq_refl) as [w' Hw'].
      unfold benchmark_radii, benchmark_ellipse, benchmark_com_symbol.
      rewrite Hv, Hk, Hcol, Hw'. destruct k as [[[kaa kbb] kyy] alpha].
      done. }
    cbn [map concat Meijaard2007ParameterSet.body_labels].
    rewrite !length_app.
    destruct (Hlen "B") as (-> & -> & ->); [compute_done|].
    destruct (Hlen "F") as (-> & -> & ->); [compute_done|].
    destruct (Hlen "H") as (-> & -> & ->); [compute_done|].
    destruct (Hlen "R") as (-> & -> & ->); [compute_done|].
    reflexivity. }
  rewrite <- (insert_id σ l a Hl) at 1.
  unfold plots.Meijaard2007ParameterSet.plot_all.
  rewrite draw_bind, or_subplots_run. cbv beta iota.
  unfold plots.Meijaard2007ParameterSet.plot_principal_radii_of_gyration.
  rewrite Hlab. cbn [default].
  rewrite !draw_bind, or_subplots_run. cbv beta iota.
  rewrite draw_bind, (for_ax_run _ (benchmark_radii self))
    by (intros; by apply Hradii).
  cbv beta iota. rewrite draw_ret.
  unfold plots.Meijaard2007ParameterSet.plot_principal_inertia_ellipsoids.
  rewrite Hlab. cbn [default].
  rewrite !draw_bind, or_subplots_run. cbv beta iota.
  rewrite draw_bind, (for_ax_plain _ (benchmark_ellipse self))
    by (intros; by apply Hell).
  cbv beta iota. rewrite draw_ret.
  rewrite draw_bind, (plot_geometry_run fg self true _ l _ rR rF w) by done.
  rewrite Hfg. cbv zeta. rewrite Hx1, Hx2, Hz1, Hz2. cbv beta iota.
  unfold plots.Meijaard2007ParameterSet.plot_mass_centers.
  rewrite Hlab. cbn [default].
  rewrite !draw_bind, or_subplots_run. cbv beta iota.
  rewrite draw_bind, (for_ax_run _ (benchmark_com_symbol self))
    by (intros; by apply Hsym).
  cbv beta iota. rewrite !draw_ret.
  f_equal. f_equal.
  unfold after_bodies, Meijaard2007ParameterSet.body_labels.
  cbn [map]. unfold finalized, drawn. cbn [pyplot.artists].
  f_equal. rewrite <- !app_assoc. reflexivity.
Qed.

End InertiaPlots.

(** ** What the derived parameters read *)

Section DerivedReads.
Context {F : Type} `{Float64 F}.
Implicit Types (p q : gmap string (pyval F)).

(** X23: [_calc_derived_params] of either class reads five entries of
    the dictionary and nothing else: two dictionaries that agree on
    them give the same result, and it returns exactly when the five
    are present and the two wheel radii can be negated. *)
Theorem calc_derived_params_reads p :
  (forall q,
     (forall k, k ∈ ["IFxx"; "IRxx"; "w"; "rF"; "rR"] -> p !! k = q !! k) ->
     Meijaard2007ParameterSet._calc_derived_params p
     = Meijaard2007ParameterSet._calc_derived_params q) /\
  (is_Ok (Meijaard2007ParameterSet._calc_derived_params p) = true <->
   (forall k, k ∈ ["IFxx"; "IRxx"; "w"; "rF"; "rR"] -> is_Some (p !! k)) /\
   (forall k v, k ∈ ["rF"; "rR"] -> p !! k = Some v ->
      is_Ok (py_neg v) = true)) /\
  (forall q,
     (forall k, k ∈ ["w"; "rR"; "rF"; "kRaa"; "kFaa"] -> p !! k = q !! k) ->
     Moore2019ParameterSet._calc_derived_params p
     = Moore2019ParameterSet._calc_derived_params q) /\
  (is_Ok (Moore2019ParameterSet._calc_derived_params p) = true <->
   (forall k, k ∈ ["w"; "rR"; "rF"; "kRaa"; "kFaa"] -> is_Some (p !! k)) /\
   (forall k v, k ∈ ["rR"; "rF"] -> p !! k = Some v ->
      is_Ok (py_neg v) = true)).
Proof.
  split; [|split; [|split]].
  - intros q Hq.
    unfold Meijaard2007ParameterSet._calc_derived_params, getitem.
    rewrite <- !Hq by compute_done. reflexivity.
  - unfold Meijaard2007ParameterSet._calc_derived_params, getitem. split.
    + intros Hok.
      destruct (p !! "IFxx") as [IFxx|] eqn:H1; [|done].
      destruct (p !! "IRxx") as [IRxx|] eqn:H2; [|done].
      destruct (p !! "w") as [w|] eqn:H3; [|done].
      destruct (p !! "rF") as [rF|] eqn:H4; [|done].
      cbn [mbind result_bind] in Hok.
      destruct (py_neg rF) as [zF|] eqn:H5; [|done].
      cbn [mbind result_bind] in Hok.
      destruct (p !! "rR") as [rR|] eqn:H6; [|done].
      cbn [mbind result_bind] in Hok.
      destruct (py_neg rR) as [zR|] eqn:H7; [|done].
      split.
      * intros k. rewrite !elem_of_cons, elem_of_nil.
        intros [->|[->|[->|[->|[->|[]]]]]]; by eexists.
      * intros k v. rewrite !elem_of_cons, elem_of_nil.
        intros [->|[->|[]]] Hv; rewrite Hv in *; simplify_eq;
          by rewrite ?H5, ?H7.
    + intros [Hall Hneg].
      destruct (Hall "IFxx") as [IFxx ->]; [compute_done|].
      destruct (Hall "IRxx") as [IRxx ->]; [compute_done|].
      destruct (Hall "w") as [w ->]; [compute_done|].
      destruct (Hall "rF") as [rF HrF]; [compute_done|].
      destruct (Hall "rR") as [rR HrR]; [compute_done|].
      rewrite HrF, HrR. cbn [mbind result_bind].
      pose proof (Hneg "rF" rF ltac:(compute_done) HrF) as H5.
      pose proof (Hneg "rR" rR ltac:(compute_done) HrR) as H7.
      destruct (py_neg rF); [|done]. destruct (py_neg rR); [|done]. done.
  - intros q Hq.
    unfold Moore2019ParameterSet._calc_derived_params, getitem.
    rewrite <- !Hq by compute_done. reflexivity.
  - unfold Moore2019ParameterSet._calc_derived_params, getitem. split.
    + intros Hok.
      destruct (p !! "w") as [w|] eqn:H1; [|done].
      destruct (p !! "rR") as [rR|] eqn:H2; [|done].
      cbn [mbind result_bind] in Hok.
      destruct (py_neg rR) as [zR|] eqn:H3; [|done].
      cbn [mbind result_bind] in Hok.
      destruct (p !! "rF") as [rF|] eqn:H4; [|done].
      cbn [mbind result_bind] in Hok.
      destruct (py_neg rF) as [zF|] eqn:H5; [|done].
      cbn [mbind result_bind] in Hok.
      destruct (p !! "kRaa") as [kRaa|] eqn:H6; [|done].
      destruct (p !! "kFaa") as [kFaa|] eqn:H7; [|done].
      split.
      * intros k. rewrite !elem_of_cons, elem_of_nil.
        intros [->|[->|[->|[->|[->|[]]]]]]; by eexists.
      * intros k v. rewrite !elem_of_cons, elem_of_nil.
        intros [->|[->|[]]] Hv; rewrite Hv in *; simplify_eq;
          by rewrite ?H3, ?H5.
    + intros [Hall Hneg].
      destruct (Hall "w") as [w ->]; [compute_done|].
      destruct (Hall "rR") as [rR HrR]; [compute_done|].
      destruct (Hall "rF") as [rF HrF]; [compute_done|].
      destruct (Hall "kRaa") as [kRaa ->]; [compute_done|].
      destruct (Hall "kFaa") as [kFaa ->]; [compute_done|].
      rewrite HrF, HrR. cbn [mbind result_bind].
      pose proof (Hneg "rF" rF ltac:(compute_done) HrF) as H5.
      pose proof (Hneg "rR" rR ltac:(compute_done) HrR) as H7.
      destruct (py_neg rR); [|done]. destruct (py_neg rF); [|done]. done.
Qed.

End DerivedReads.

(** ** The drawings on the samples *)

(** Finalizing a new axes, over binary64. *)
Lemma finalize_plot_witness :
  plots.ParameterSet._finalize_plot 0 (samples.one_axes (F:=float))
  = (Ok tt, <[0 := finalized pyplot.new_axes]> samples.one_axes) /\
  pyplot.artists (finalized (F:=float) pyplot.new_axes)
  = pyplot.artists (F:=float) pyplot.new_axes /\
  pyplot.inverted (finalized (F:=float) pyplot.new_axes) = true /\
  (forall σ',
     plots.ParameterSet._finalize_plot 0 (samples.one_axes (F:=float))
     = (Ok tt, σ') ->
     plots.ParameterSet._finalize_plot 0 σ' = (Ok tt, σ')).
Proof.
  apply (finalize_plot_spec samples.one_axes 0 pyplot.new_axes).
  reflexivity.
Defined.

(** The mass center of the front wheel of the sample of the tests, and
    the rider [P], which is no body of the Benchmark class. *)
Lemma plot_body_mass_center_witness :
  (exists x y z w c,
     Meijaard2007ParameterSet.form_mass_center_vector
       test_models.meijaard2007_parameters "F"
     = Ok (Arr2 1 [[x]; [y]; [z]]) /\
     test_models.meijaard2007_parameters !! "w" = Some (PyFloat w) /\
     plots.body_colors samples.benchmark !! "F" = Some c /\
     plots.Meijaard2007ParameterSet.plot_body_mass_center samples.benchmark
       "F" (Some 0) samples.one_axes
     = (Ok 0, <[0 := finalized
                       (drawn pyplot.new_axes
                          (com_symbol (x, z) (fdiv w (of_int 10)) c "F"))]>
                samples.one_axes)) /\
  (exists k,
     plots.Meijaard2007ParameterSet.plot_body_mass_center samples.benchmark
       "P" (Some 0) samples.one_axes
     = (Err (KeyError k), samples.one_axes)).
Proof.
  pose proof (plot_body_mass_center_spec samples.tab10
                test_models.meijaard2007_parameters true samples.benchmark)
    as Hspec.
  split.
  - apply (Hspec "F" samples.one_axes 0 pyplot.new_axes);
      [vm_compute; reflexivity|reflexivity|compute_done].
  - apply (Hspec "P" samples.one_axes 0 pyplot.new_axes);
      [vm_compute; reflexivity|reflexivity|compute_done].
Defined.

(** The mass centers of the wheels of the sample of the tests. *)
Lemma plot_mass_centers_witness :
  length (concat (map (benchmark_com_symbol samples.benchmark) ["R"; "F"]))
  = 8 /\
  plots.Meijaard2007ParameterSet.plot_mass_centers samples.benchmark
    (Some ["R"; "F"]) (Some 0) samples.one_axes
  = (Ok 0,
     <[0 := after_bodies (benchmark_com_symbol samples.benchmark) ["R"; "F"]
              pyplot.new_axes]> samples.one_axes).
Proof.
  apply (plot_mass_centers_spec samples.tab10
           test_models.meijaard2007_parameters true samples.benchmark
           samples.one_axes 0 pyplot.new_axes);
    [vm_compute; reflexivity|reflexivity|].
  repeat constructor; compute_done.
Defined.

(** The mass centers of the sample of the tests. *)
Lemma form_mass_center_vector_witness :
  exists xB zB xH zH w rF rR,
    (test_models.meijaard2007_parameters !! "xB" = Some (PyFloat xB) /\
     test_models.meijaard2007_parameters !! "zB" = Some (PyFloat zB) /\
     test_models.meijaard2007_parameters !! "xH" = Some (PyFloat xH) /\
     test_models.meijaard2007_parameters !! "zH" = Some (PyFloat zH) /\
     test_models.meijaard2007_parameters !! "w" = Some (PyFloat w) /\
     test_models.meijaard2007_parameters !! "rF" = Some (PyFloat rF) /\
     test_models.meijaard2007_parameters !! "rR" = Some (PyFloat rR)) /\
    Meijaard2007ParameterSet.form_mass_center_vector
      test_models.meijaard2007_parameters "B"
    = Ok (Arr2 1 [[xB]; [f0]; [zB]]) /\
    Meijaard2007ParameterSet.form_mass_center_vector
      test_models.meijaard2007_parameters "F"
    = Ok (Arr2 1 [[w]; [f0]; [fneg rF]]) /\
    Meijaard2007ParameterSet.form_mass_center_vector
      test_models.meijaard2007_parameters "H"
    = Ok (Arr2 1 [[xH]; [f0]; [zH]]) /\
    Meijaard2007ParameterSet.form_mass_center_vector
      test_models.meijaard2007_parameters "R"
    = Ok (Arr2 1 [[f0]; [f0]; [fneg rR]]).
Proof.
  apply (form_mass_center_vector_spec test_models.meijaard2007_parameters).
  vm_compute. reflexivity.
Defined.

(** The geometry of the set [all_ones] with the four points of the
    samples, the steer axis shown. *)
Lemma plot_geometry_witness :
  exists rR rF w : R,
    Meijaard2007ParameterSet.form_mass_center_vector test_models.all_ones "R"
    = Ok (Arr2 1 [[f0]; [f0]; [fneg rR]]) /\
    Meijaard2007ParameterSet.form_mass_center_vector test_models.all_ones "F"
    = Ok (Arr2 1 [[w]; [f0]; [fneg rF]]) /\
    plots.Meijaard2007ParameterSet.plot_geometry samples.four_points
      samples.benchmark_ones true (Some 0) samples.one_axes
    = (Ok 0,
       <[0 := finalized
                (drawn
                   (drawn pyplot.new_axes
                      (ground_and_wheels rR rF w
                       ++ [fundamental_line [0; 1; 2; 3]%R [0; 1; 2; 3]%R]))
                   [steer_axis 1%R 1%R 2%R 2%R])]> samples.one_axes).
Proof.
  destruct (plot_geometry_spec samples.tab10 test_models.all_ones true
              samples.benchmark_ones eq_refl)
    as (rR & rF & w & HR & HF & Hplot).
  exists rR, rF, w. split; [exact HR|]. split; [exact HF|].
  destruct (Hplot samples.four_points true samples.one_axes 0
              pyplot.new_axes eq_refl) as (_ & _ & Hok).
  destruct (Hok [0; 1; 2; 3]%R [0; 1; 2; 3]%R eq_refl) as (_ & Hshow & _).
  apply (Hshow eq_refl 1%R 1%R 2%R 2%R); reflexivity.
Defined.

(** The bodies of the Principal set of the tests. *)
Lemma moore2019_body_table_witness :
  exists pext,
    Moore2019ParameterSet._calc_derived_params test_models.moore2019_ones
    = Ok pext /\
    dom pext = list_to_set Moore2019ParameterSet.non_min_par_strings.*1 /\
    (forall k,
       k ∈ Moore2019ParameterSet.par_strings.*1 -> pext !! k = None) /\
    forall b, b ∈ Moore2019ParameterSet.body_labels ->
      Forall (is_float_at (pext ∪ test_models.moore2019_ones))
        ["m" +:+ b; "x" +:+ b; "y" +:+ b; "z" +:+ b;
         "k" +:+ b +:+ "aa"; "k" +:+ b +:+ "bb"; "k" +:+ b +:+ "yy";
         "alpha" +:+ b].
Proof.
  apply (moore2019_body_table test_models.moore2019_ones).
  vm_compute. reflexivity.
Defined.

(** The front wheel of the Principal set of ones, over the reals. *)
Lemma wheel_ellipsoid_witness :
  exists pd (x z kaa kyy : R) c,
    plots.Moore2019ParameterSet.with_derived samples.moore2019_exact = Ok pd /\
    pd !! "xF" = Some (PyFloat x) /\
    pd !! "zF" = Some (PyFloat z) /\
    samples.moore2019_exact !! "kFaa" = Some (PyFloat kaa) /\
    samples.moore2019_exact !! "kFyy" = Some (PyFloat kyy) /\
    pd !! "kFbb" = Some (PyFloat kaa) /\
    pd !! "alphaF" = Some (PyFloat f0) /\
    plots.body_colors samples.principal_ones !! "F" = Some c /\
    plots.Moore2019ParameterSet.plot_body_principal_inertia_ellipsoid
      samples.principal_ones "F" (Some 0) samples.one_axes
    = match py_pow kaa 2, py_pow kyy 2 with
      | Some kaa2, Some kyy2 =>
          (Ok 0,
           <[0 := finalized
                    (drawn pyplot.new_axes
                       [pyplot.Ellipse (x, z)
                          (np_sqrt (fmul (fdiv (of_int 5) (of_int 2))
                                         (fadd (fadd (fneg kaa2) kyy2) kaa2)))
                          (np_sqrt (fmul (fdiv (of_int 5) (of_int 2))
                                         (plots.fsub (fadd kaa2 kyy2) kaa2)))
                          [("angle", PyFloat (fneg (np_rad2deg f0)));
                           ("fill", PyBool false);
                           ("color", PyStr c)]])]> samples.one_axes)
      | _, _ => (Err OverflowError, samples.one_axes)
      end.
Proof.
  apply (wheel_ellipsoid_spec samples.tab10 samples.moore2019_exact
           samples.principal_ones "F" samples.one_axes 0 pyplot.new_axes);
    [reflexivity|by left|reflexivity].
Defined.

(** The diamond of the rider of the Principal set of ones, over the
    reals. *)
Lemma person_diamond_witness :
  exists (wP lP xP zP alphaP : R) c,
    samples.moore2019_exact !! "wP" = Some (PyFloat wP) /\
    samples.moore2019_exact !! "lP" = Some (PyFloat lP) /\
    samples.moore2019_exact !! "xP" = Some (PyFloat xP) /\
    samples.moore2019_exact !! "zP" = Some (PyFloat zP) /\
    samples.moore2019_exact !! "alphaP" = Some (PyFloat alphaP) /\
    plots.body_colors samples.principal_ones !! "P" = Some c /\
    let two := of_int 2 in
    let across := fneg alphaP in
    let along := fadd (fneg alphaP) (fdiv np_pi two) in
    let x0 := fadd xP (fmul (fdiv wP two) (np_cos across)) in
    let x1 := fadd xP (fmul (fdiv (fneg lP) two) (np_cos along)) in
    let x2 := fadd xP (fmul (fdiv (fneg wP) two) (np_cos across)) in
    let x3 := fadd xP (fmul (fdiv lP two) (np_cos along)) in
    let z0 := fadd zP (fmul (fdiv wP two) (np_sin across)) in
    let z1 := fadd zP (fmul (fdiv (fneg lP) two) (np_sin along)) in
    let z2 := fadd zP (fmul (fdiv (fneg wP) two) (np_sin across)) in
    let z3 := fadd zP (fmul (fdiv lP two) (np_sin along)) in
    plots.Moore2019ParameterSet.plot_person_diamond samples.principal_ones
      false (Some 0) samples.one_axes
    = (Ok 0,
       <[0 := finalized
                (drawn pyplot.new_axes
                   [pyplot.Line2D [x0; x1; x2; x3; x0] [z0; z1; z2; z3; z0]
                      None [("color", PyStr c)]])]> samples.one_axes).
Proof.
  apply (person_diamond_spec samples.tab10 samples.moore2019_exact
           samples.principal_ones samples.one_axes 0 pyplot.new_axes);
    reflexivity.
Defined.

(** The radii of the rear frame of the Principal set of ones, over the
    reals. *)
Lemma principal_radii_lines_witness :
  exists pd (x z kaa kbb kyy alpha : R) c,
    plots.Moore2019ParameterSet.with_derived samples.moore2019_exact = Ok pd /\
    (pd !! "xD" = Some (PyFloat x) /\
     pd !! "zD" = Some (PyFloat z) /\
     pd !! "kDaa" = Some (PyFloat kaa) /\
     pd !! "kDbb" = Some (PyFloat kbb) /\
     pd !! "kDyy" = Some (PyFloat kyy) /\
     pd !! "alphaD" = Some (PyFloat alpha)) /\
    plots.body_colors samples.principal_ones !! "D" = Some c /\
    let across := fneg alpha in
    let along := plots.fsub (fneg alpha) (fdiv np_pi (of_int 2)) in
    plots.Moore2019ParameterSet.plot_body_principal_radii_of_gyration
      samples.principal_ones "D" (Some 0) samples.one_axes
    = (Ok 0,
       <[0 := finalized
                (drawn pyplot.new_axes
                   [pyplot.Circle (x, z) kyy
                      [("fill", PyBool false); ("color", PyStr c);
                       ("linestyle", PyStr "--")];
                    pyplot.Line2D
                      [plots.fsub x (fmul kbb (np_cos across));
                       fadd x (fmul kbb (np_cos across))]
                      [plots.fsub z (fmul kbb (np_sin across));
                       fadd z (fmul kbb (np_sin across))]
                      None
                      [("color", PyStr c); ("linestyle", PyStr "--")];
                    pyplot.Line2D
                      [plots.fsub x (fmul kaa (np_cos along));
                       fadd x (fmul kaa (np_cos along))]
                      [plots.fsub z (fmul kaa (np_sin along));
                       fadd z (fmul kaa (np_sin along))]
                      None
                      [("color", PyStr c); ("linestyle", PyStr "--")]])]>
         samples.one_axes).
Proof.
  apply (principal_radii_lines samples.tab10 samples.moore2019_exact
           samples.principal_ones "D" samples.one_axes 0 pyplot.new_axes);
    [reflexivity|compute_done|reflexivity].
Defined.

(** The ellipsoids of the Benchmark set of ones on a new axes, and that
    of the rear frame of the Principal set of ones. *)
Lemma ellipsoids_and_settings_witness :
  (exists r a',
     plots.Meijaard2007ParameterSet.plot_principal_inertia_ellipsoids
       samples.benchmark_ones None (Some 0) samples.one_axes
     = (r, <[0 := a']> samples.one_axes) /\
     pyplot.artists (F:=R) pyplot.new_axes `prefix_of` pyplot.artists a' /\
     pyplot.inverted a' = pyplot.inverted (F:=R) pyplot.new_axes /\
     pyplot.aspect a' = pyplot.aspect (F:=R) pyplot.new_axes /\
     pyplot.xlabel a' = pyplot.xlabel (F:=R) pyplot.new_axes /\
     pyplot.ylabel a' = pyplot.ylabel (F:=R) pyplot.new_axes) /\
  (forall b, exists r a',
     plots.Moore2019ParameterSet.plot_body_principal_inertia_ellipsoid
       samples.principal_ones b (Some 0) samples.one_axes
     = (r, <[0 := a']> samples.one_axes) /\
     forall x, r = Ok x -> pyplot.inverted a' = true).
Proof.
  destruct (ellipsoids_and_settings samples.benchmark_ones None
              samples.one_axes 0 pyplot.new_axes eq_refl) as [Hb Hp].
  split; [exact Hb|]. intros b.
  destruct (ellipsoids_and_settings samples.principal_ones None
              samples.one_axes 0 pyplot.new_axes eq_refl) as [_ Hp'].
  apply Hp'.
Defined.

(** The inertia drawings of the rear frame of the set [all_ones]. *)
Lemma inertia_drawings_witness :
  exists (x y z : R) c,
    Meijaard2007ParameterSet.form_mass_center_vector test_models.all_ones "B"
    = Ok (Arr2 1 [[x]; [y]; [z]]) /\
    plots.body_colors samples.benchmark_ones !! "B" = Some c /\
    (forall k,
       Meijaard2007ParameterSet._planar_principal_radii_of_gyration
         test_models.all_ones "B" = Ok k ->
       plots.Meijaard2007ParameterSet.plot_body_principal_radii_of_gyration
         samples.benchmark_ones "B" (Some 0) samples.one_axes
       = (Ok 0,
          <[0 := finalized (drawn pyplot.new_axes (radii_artists (x, z) k c))]>
            samples.one_axes) /\
       plots.Meijaard2007ParameterSet.plot_body_principal_inertia_ellipsoid
         samples.benchmark_ones "B" (Some 0) samples.one_axes
       = (Ok 0,
          <[0 := drawn pyplot.new_axes [inertia_ellipse (x, z) k c]]>
            samples.one_axes)) /\
    (forall e,
       Meijaard2007ParameterSet._planar_principal_radii_of_gyration
         test_models.all_ones "B" = Err e ->
       plots.Meijaard2007ParameterSet.plot_body_principal_radii_of_gyration
         samples.benchmark_ones "B" (Some 0) samples.one_axes
       = (Err e, samples.one_axes) /\
       plots.Meijaard2007ParameterSet.plot_body_principal_inertia_ellipsoid
         samples.benchmark_ones "B" (Some 0) samples.one_axes
       = (Err e, samples.one_axes)).
Proof.
  apply (inertia_drawings_spec samples.tab10 test_models.all_ones true
           samples.benchmark_ones "B" samples.one_axes 0 pyplot.new_axes);
    [reflexivity|compute_done|reflexivity].
Defined.

(** All drawings of the set [all_ones], with the four points of the
    samples as its geometry. *)
Lemma benchmark_plot_all_witness :
  exists geometry,
    let xs :=
      (concat (map (benchmark_radii samples.benchmark_ones)
                   Meijaard2007ParameterSet.body_labels)
       ++ concat (map (benchmark_ellipse samples.benchmark_ones)
                      Meijaard2007ParameterSet.body_labels)
       ++ geometry
       ++ concat (map (benchmark_com_symbol samples.benchmark_ones)
                      Meijaard2007ParameterSet.body_labels))%list in
    length geometry = 5 /\ length xs = 37 /\
    plots.Meijaard2007ParameterSet.plot_all samples.four_points
      samples.benchmark_ones (Some 0) samples.one_axes
    = (Ok 0, <[0 := finalized (drawn pyplot.new_axes xs)]> samples.one_axes).
Proof.
  apply (benchmark_plot_all_succeeds samples.tab10 test_models.all_ones true
           samples.benchmark_ones samples.four_points
           [0; 1; 2; 3]%R [0; 1; 2; 3]%R samples.one_axes 0 pyplot.new_axes).
  - reflexivity.
  - intros b Hb.
    assert (test_models.all_ones !! ("m" +:+ b) = Some (PyFloat 1%R)) as Hm
      by (destruct (body_label_cases b Hb) as [-> | [-> | [-> | ->]]];
          reflexivity).
    destruct (planar_principal_radii_eig test_models.all_ones b 1%R)
      as (pd & Ixx & Ixz & Iyy & Izz & _ & _ & _ & ->);
      [reflexivity|exact Hb|exact Hm|].
    cbn. destruct (Req_dec_T 1 0) as [Heq|_]; [lra|reflexivity].
  - reflexivity.
  - simpl. lia.
  - simpl. lia.
  - reflexivity.
Defined.

